(** * dask-cloudprovider: Fly.io machines and IBM Code Engine

    A shallow embedding of [dask_cloudprovider/fly/machine.py] and
    [dask_cloudprovider/ibm/code_engine.py], and the properties of the
    instance lifecycle that hold of that code.

    Layout:
    - [Py]      the Python string operations the two modules use;
    - [Async]   coroutines over a shared state and a provider API, with a
                sequential and an interleaved (asyncio) semantics;
    - [Fly]     [FlyMachine], [FlyMachineScheduler], [FlyMachineWorker],
                [FlyMachineCluster];
    - [IBM]     [IBMCodeEngine], [IBMCodeEngineScheduler],
                [IBMCodeEngineWorker];
    - [Sample]  a cluster, a few machines and providers to run them on;
    - [Words], [Frames], [FlyCluster], [Writes], [Rely]
                words of a command line, what a coroutine reads and
                writes, alone and among other tasks, and the constructor of
                [FlyMachineCluster];
    - [Orchestrator]
                the requests of the generic cluster framework, which is
                not among the two modules;
    - [PyFacts], [AsyncFacts], [FlyFacts], [IBMFacts]
                lemmas about each of the above;
    - the lifecycle properties;
    - further lemmas and properties of the two modules, at the end.

    What is not in the two modules is a parameter: the provider is a
    function from the trace so far and a call to an answer or an
    exception; the attributes the base classes set come with the
    constructor's arguments; random identifiers and the results of
    [cli_keywords] and [json.dumps] are arguments.  Logging is left out. *)

From Stdlib Require Import ZArith String Ascii List Bool Lia.
From stdpp Require Import base tactics option list strings gmap pretty.

Set Default Proof Using "Type".
Open Scope string_scope.
Open Scope list_scope.

(* ===================================================================== *)
(** * Python strings *)
(* ===================================================================== *)

Module Py.

(** The exceptions the two modules can raise or let through.
    [ProviderError] stands for whatever a provider SDK call raises. *)
Inductive exn : Type :=
| ValueError (msg : string)
| TypeError
| AttributeError (attribute : string)
| KeyError (key : string)
| IndexError
| RuntimeError (msg : string)
| ProviderError (msg : string).

(** [s.startswith(p)] *)
Fixpoint startswith (p s : string) : bool :=
  match p, s with
  | EmptyString, _ => true
  | String a p', String b s' => if Ascii.eqb a b then startswith p' s' else false
  | String _ _, EmptyString => false
  end.

(** [needle in hay] on strings. *)
Fixpoint contains (needle hay : string) : bool :=
  if startswith needle hay then true
  else match hay with
       | EmptyString => false
       | String _ hay' => contains needle hay'
       end.

(** [sep.join(l)] *)
Fixpoint join (sep : string) (l : list string) : string :=
  match l with
  | [] => ""
  | [x] => x
  | x :: rest => x +:+ sep +:+ join sep rest
  end.

(** [s.split(sep)] for a non-empty [sep]: the pieces between the
    non-overlapping occurrences of [sep], scanned from the left.  [skip]
    counts the characters of a matched separator still to be dropped and
    [cur] is the piece being read. *)
Fixpoint split_go (sep : string) (skip : nat) (cur s : string) : list string :=
  match s with
  | EmptyString => [cur]
  | String c s' =>
      match skip with
      | S k => split_go sep k cur s'
      | O =>
          if startswith sep s
          then cur :: split_go sep (String.length sep - 1) "" s'
          else split_go sep 0 (cur +:+ String c "") s'
      end
  end.

Definition split (sep s : string) : list string := split_go sep 0 "" s.

(** A Python [str] is embedded as the sequence of its code points, each
    an [ascii]: a character of a [string] is a code point below U+0100.

    [str.isspace] on these code points: tab, line feed, vertical tab, form
    feed, carriage return, the four separators 0x1c-0x1f, the space, the
    next-line character U+0085 and the no-break space U+00A0.  The other
    white space of Unicode starts at U+1680. *)
Definition isspace (c : ascii) : bool :=
  let n := nat_of_ascii c in
  ((9 <=? n) && (n <=? 13) || (28 <=? n) && (n <=? 32)
   || (n =? 133) || (n =? 160))%nat.

(** [s.split()]: the maximal runs of non-space characters. *)
Fixpoint split_ws_go (cur s : string) : list string :=
  match s with
  | EmptyString => match cur with EmptyString => [] | _ => [cur] end
  | String c s' =>
      if isspace c
      then match cur with
           | EmptyString => split_ws_go "" s'
           | _ => cur :: split_ws_go "" s'
           end
      else split_ws_go (cur +:+ String c "") s'
  end.

Definition split_ws (s : string) : list string := split_ws_go "" s.

(** [l.index(next(filter(p, l)))]: the position of the first element
    satisfying [p], if there is one. *)
Fixpoint index_first {A} (p : A -> bool) (l : list A) : option nat :=
  match l with
  | [] => None
  | x :: l' => if p x then Some 0 else S <$> index_first p l'
  end.

(** [str(v)] inside an f-string for a value that may be [None]. *)
Definition fmt (v : option string) : string :=
  match v with
  | Some s => s
  | None => "None"
  end.

(** "[needle] occurs verbatim in [hay]", stated on the text. *)
Definition Substring (needle hay : string) : Prop :=
  exists pre post, hay = pre +:+ needle +:+ post.

End Py.


(* ===================================================================== *)
(** * Coroutines *)
(* ===================================================================== *)

(** Both modules are written as [async def] methods that read and write
    attributes of objects shared between tasks (the cluster), call the
    provider, and sleep inside polling loops.  A coroutine is the tree of
    these actions.  Everything between two suspension points runs
    atomically, as on a single-threaded event loop. *)

Module Async.

Import Py.

Section Coroutines.

Context {St Call Resp : Type}.

Inductive coro (A : Type) : Type :=
| Ret (a : A)                                  (* return a *)
| Throw (e : exn)                              (* raise e *)
| Get (k : St -> coro A)                       (* read the shared state *)
| Put (s : St) (k : coro A)                    (* write the shared state *)
| Invoke (c : Call) (k : exn + Resp -> coro A) (* a provider call *)
| Sleep (k : coro A)                           (* sleep(1) *)
| Spin.                                        (* a loop that is still turning *)

Arguments Ret {A} a.
Arguments Throw {A} e.
Arguments Get {A} k.
Arguments Put {A} s k.
Arguments Invoke {A} c k.
Arguments Sleep {A} k.
Arguments Spin {A}.

Fixpoint bind {A B} (m : coro A) (f : A -> coro B) : coro B :=
  match m with
  | Ret a => f a
  | Throw e => Throw e
  | Get k => Get (fun s => bind (k s) f)
  | Put s k => Put s (bind k f)
  | Invoke c k => Invoke c (fun r => bind (k r) f)
  | Sleep k => Sleep (bind k f)
  | Spin => Spin
  end.

(** [try: m  except Exception as e: h e] *)
Fixpoint try_except {A} (m : coro A) (h : exn -> coro A) : coro A :=
  match m with
  | Ret a => Ret a
  | Throw e => h e
  | Get k => Get (fun s => try_except (k s) h)
  | Put s k => Put s (try_except k h)
  | Invoke c k => Invoke c (fun r => try_except (k r) h)
  | Sleep k => Sleep (try_except k h)
  | Spin => Spin
  end.

(** A provider call whose exception, if any, is raised at the call site. *)
Definition call (c : Call) : coro Resp :=
  Invoke c (fun r => match r with inl e => Throw e | inr v => Ret v end).

Definition get : coro St := Get (fun s => Ret s).
Definition put (s : St) : coro unit := Put s (Ret tt).
Definition modify (f : St -> St) : coro unit := Get (fun s => Put (f s) (Ret tt)).
Definition sleep : coro unit := Sleep (Ret tt).

(** An exception-or-value computed without effects. *)
Definition lift {A} (r : exn + A) : coro A :=
  match r with inl e => Throw e | inr a => Ret a end.

(** ** What an execution leaves behind *)

Inductive event : Type :=
| Called (c : Call)
| Slept.

Inductive outcome (A : Type) : Type :=
| Returned (a : A)
| Raised (e : exn)
| Looping.     (* the coroutine is still inside a loop *)

Arguments Returned {A} a.
Arguments Raised {A} e.
Arguments Looping {A}.

(** The provider: its answer to a call may depend on everything that
    happened before. *)
Definition provider : Type := list event -> Call -> exn + Resp.

(** ** Sequential semantics: one coroutine, awaited to completion. *)

Fixpoint run {A} (api : provider) (m : coro A) (s : St) (tr : list event)
  : outcome A * St * list event :=
  match m with
  | Ret a => (Returned a, s, tr)
  | Throw e => (Raised e, s, tr)
  | Get k => run api (k s) s tr
  | Put s' k => run api k s' tr
  | Invoke c k => run api (k (api tr c)) s (tr ++ [Called c])
  | Sleep k => run api k s (tr ++ [Slept])
  | Spin => (Looping, s, tr)
  end.

(** ** Interleaved semantics: tasks on one event loop. *)

Inductive task (A : Type) : Type :=
| Fresh (m : coro A)                             (* created, not yet run *)
| Pending (c : Call) (k : exn + Resp -> coro A)  (* awaiting the provider *)
| Asleep (k : coro A)                            (* inside sleep(1) *)
| Finished (o : outcome A).

Arguments Fresh {A} m.
Arguments Pending {A} c k.
Arguments Asleep {A} k.
Arguments Finished {A} o.

(** Run up to the next suspension point. *)
Fixpoint advance {A} (m : coro A) (s : St) : task A * St :=
  match m with
  | Ret a => (Finished (Returned a), s)
  | Throw e => (Finished (Raised e), s)
  | Get k => advance (k s) s
  | Put s' k => advance k s'
  | Invoke c k => (Pending c k, s)
  | Sleep k => (Asleep k, s)
  | Spin => (Finished Looping, s)
  end.

(** What a task that has just been suspended asks of the outside. *)
Definition emitted {A} (t : task A) : list event :=
  match t with
  | Pending c _ => [Called c]
  | Asleep _ => [Slept]
  | _ => []
  end.

(** One turn of the event loop on one task. *)
Definition resume {A} (api : provider) (t : task A) (s : St) (tr : list event)
  : task A * St * list event :=
  match t with
  | Fresh m => let '(t', s') := advance m s in (t', s', tr ++ emitted t')
  | Pending c k =>
      let '(t', s') := advance (k (api tr c)) s in (t', s', tr ++ emitted t')
  | Asleep k => let '(t', s') := advance k s in (t', s', tr ++ emitted t')
  | Finished o => (t, s, tr)
  end.

Record loop (A : Type) : Type := Loop {
  tasks : list (task A);
  shared : St;
  history : list event;
}.

Arguments Loop {A} tasks shared history.
Arguments tasks {A} l.
Arguments shared {A} l.
Arguments history {A} l.

Definition turn {A} (api : provider) (l : loop A) (i : nat) : loop A :=
  match tasks l !! i with
  | None => l
  | Some t =>
      let '(t', s', tr') := resume api t (shared l) (history l) in
      Loop (<[i := t']> (tasks l)) s' tr'
  end.

(** A schedule names the task that runs at each turn. *)
Definition run_schedule {A} (api : provider) (l : loop A) (sched : list nat)
  : loop A :=
  fold_left (turn api) sched l.

(** ** Which calls a coroutine may make, and when *)

(** [wp P m Q s]: started in state [s], every call [m] makes satisfies [P]
    in the state in which it is made, and if [m] returns, [Q] holds of the
    result and the state.  Other tasks run while [m] is suspended, so
    nothing is known of the state after a call or a sleep. *)
Fixpoint wp {A} (P : St -> Call -> Prop) (m : coro A) (Q : A -> St -> Prop)
  (s : St) : Prop :=
  match m with
  | Ret a => Q a s
  | Throw _ => True
  | Get k => wp P (k s) Q s
  | Put s' k => wp P k Q s'
  | Invoke c k => P s c /\ forall r s', wp P (k r) Q s'
  | Sleep k => forall s', wp P k Q s'
  | Spin => True
  end.

Definition safe {A} (P : St -> Call -> Prop) (m : coro A) : Prop :=
  forall s, wp P m (fun _ _ => True) s.

Definition task_safe {A} (P : St -> Call -> Prop) (t : task A) : Prop :=
  match t with
  | Fresh m => safe P m
  | Pending _ k => forall r, safe P (k r)
  | Asleep k => safe P k
  | Finished _ => True
  end.

End Coroutines.

Arguments coro : clear implicits.
Arguments task : clear implicits.
Arguments loop : clear implicits.
Arguments event : clear implicits.
Arguments provider : clear implicits.
Arguments Ret {St Call Resp A} a.
Arguments Throw {St Call Resp A} e.
Arguments Get {St Call Resp A} k.
Arguments Put {St Call Resp A} s k.
Arguments Invoke {St Call Resp A} c k.
Arguments Sleep {St Call Resp A} k.
Arguments Spin {St Call Resp A}.
Arguments Called {Call} c.
Arguments Slept {Call}.
Arguments Returned {A} a.
Arguments Raised {A} e.
Arguments Looping {A}.
Arguments Fresh {St Call Resp A} m.
Arguments Pending {St Call Resp A} c k.
Arguments Asleep {St Call Resp A} k.
Arguments Finished {St Call Resp A} o.
Arguments Loop {St Call Resp A} tasks shared history.
Arguments tasks {St Call Resp A} l.
Arguments shared {St Call Resp A} l.
Arguments history {St Call Resp A} l.

Declare Scope coro_scope.
Delimit Scope coro_scope with coro.
Notation "x <- m ;; k" := (bind m (fun x => k))
  (at level 100, m at next level, right associativity) : coro_scope.
Notation "m ;; k" := (bind m (fun _ => k))
  (at level 100, right associativity) : coro_scope.

(** The calls of a trace, and how many there are. *)
Definition calls {Call} (tr : list (event Call)) : list Call :=
  omap (fun e => match e with Called c => Some c | Slept => None end) tr.

Definition count_calls {Call} (p : Call -> bool) (tr : list (event Call))
  : nat :=
  length (List.filter p (calls tr)).

End Async.

(* ===================================================================== *)
(** * fly/machine.py *)
(* ===================================================================== *)

Module Fly.

Import Py Async.
Local Open Scope coro_scope.

(** ** Values and provider calls *)

(** The machine object [create_machine] returns. *)
Record machine_obj : Type := MachineObj {
  id : string;
  private_ip : string;
}.

(** The values the attributes [app] and [machine] may hold. *)
Inductive pyval : Type :=
| PyNone
| PyStr (s : string)
| PyApp (name : string)
| PyMachine (m : machine_obj).

Definition is_none (v : pyval) : bool :=
  match v with PyNone => true | _ => false end.

Definition is_None {A} (o : option A) : bool :=
  match o with None => true | Some _ => false end.

Record FlyMachineRequestConfigServicesPort : Type := ServicesPort {
  sp_port : Z;
  sp_handlers : list string;
}.

Record FlyMachineConfigServices : Type := Services {
  svc_ports : list FlyMachineRequestConfigServicesPort;
  svc_protocol : string;
  svc_internal_port : Z;
}.

Record FlyMachineConfigGuest : Type := Guest {
  guest_cpu_kind : string;
  guest_cpus : Z;
  guest_memory_mb : Z;
}.

Record FlyMachineConfigProcess : Type := Process {
  proc_name : string;
  proc_cmd : list (option string);
  proc_env : gmap string string;
  proc_user : string;
  proc_entrypoint : list string;
}.

Record FlyMachineConfig : Type := MachineConfig {
  cfg_env : gmap string string;
  cfg_image : option string;
  cfg_metadata : option string;
  cfg_restart : option string;
  cfg_services : list FlyMachineConfigServices;
  cfg_guest : FlyMachineConfigGuest;
  cfg_size : option string;
  cfg_metrics : option string;
  cfg_processes : list FlyMachineConfigProcess;
}.

(** The calls made on the [Fly] client. *)
Inductive fly_call : Type :=
| create_app_call (app_name : string)
| delete_app_call (app_name : string)
| create_machine_call (app_name : option string) (config : FlyMachineConfig)
    (name : option string) (region : option string)
| delete_machine_call (app_name : option string) (machine_id : string)
    (force : bool).

Definition is_create_machine (c : fly_call) : bool :=
  match c with create_machine_call _ _ _ _ => true | _ => false end.

Definition is_create_app (c : fly_call) : bool :=
  match c with create_app_call _ => true | _ => false end.

(** ** Shared state *)

Record FlyMachineCluster : Type := Cluster {
  api_token : option string;
  app : pyval;
  app_name : option string;
  _client : option (option string);    (* the Fly client and its token *)
  uuid : string;                       (* set by VMCluster *)
  scheduler_internal_address : option string;
  scheduler_port : option Z;
}.

Definition set_app (v : pyval) (c : FlyMachineCluster) : FlyMachineCluster :=
  Cluster (api_token c) v (app_name c) (_client c) (uuid c)
    (scheduler_internal_address c) (scheduler_port c).

Definition set_app_name (n : option string) (c : FlyMachineCluster)
  : FlyMachineCluster :=
  Cluster (api_token c) (app c) n (_client c) (uuid c)
    (scheduler_internal_address c) (scheduler_port c).

Definition set_client (k : option (option string)) (c : FlyMachineCluster)
  : FlyMachineCluster :=
  Cluster (api_token c) (app c) (app_name c) k (uuid c)
    (scheduler_internal_address c) (scheduler_port c).

Definition set_scheduler_internal_address (a : option string)
  (c : FlyMachineCluster) : FlyMachineCluster :=
  Cluster (api_token c) (app c) (app_name c) (_client c) (uuid c)
    a (scheduler_port c).

Definition set_scheduler_port (p : option Z) (c : FlyMachineCluster)
  : FlyMachineCluster :=
  Cluster (api_token c) (app c) (app_name c) (_client c) (uuid c)
    (scheduler_internal_address c) p.

(** Dictionaries are objects: [env_vars] is a reference, and the same
    dictionary may be handed to several machines. *)
Definition ref : Type := positive.

Record world : Type := World {
  cluster : FlyMachineCluster;
  heap : gmap ref (gmap string string);
  global_config : string;  (* dask.config.serialize(dask.config.global_config) *)
}.

Definition on_cluster (f : FlyMachineCluster -> FlyMachineCluster) (w : world)
  : world :=
  World (f (cluster w)) (heap w) (global_config w).

Definition set_heap (h : gmap ref (gmap string string)) (w : world) : world :=
  World (cluster w) h (global_config w).

Definition deref (w : world) (l : ref) : gmap string string :=
  default ∅ (heap w !! l).

Abbreviation co := (coro world fly_call pyval).

(** ** [FlyMachine] *)

Record FlyMachine : Type := Machine {
  machine : pyval;
  region : option string;
  vm_size : option string;
  cpus : Z;
  memory_mb : Z;
  image : option string;
  gpu_instance : bool;
  bootstrap : bool;
  extra_bootstrap : option (list string);
  env_vars : ref;
  metadata : option string;
  restart : option string;
  m_app_name : option string;
  set_env : string;
  m_api_token : string;
  (* attributes of VMInterface and of the role mixins *)
  name : option string;
  command : option string;
  address : option string;
  external_address : option string;
  host : option string;
  internal_ip : option string;
  port : option Z;
  scheduler : option string;
  worker_class : option string;
  running : bool;                     (* status = Status.running *)
}.

(** The keyword arguments of [FlyMachine.__init__], and the attributes the
    base class [VMInterface] has set when [super().__init__] returns. *)
Record init_args : Type := InitArgs {
  a_region : option string;
  a_vm_size : option string;
  a_memory_mb : option Z;
  a_cpus : option Z;
  a_image : option string;
  a_env_vars : option ref;
  a_extra_bootstrap : option (list string);
  a_metadata : option string;
  a_restart : option string;
  a_name : option string;
  a_command : option string;
  a_address : option string;
  a_external_address : option string;
}.

Definition dquote : string := String (ascii_of_nat 34) EmptyString.

Definition EXTRA_PIP_PACKAGES : string := "EXTRA_PIP_PACKAGES".

(** [env_vars["EXTRA_PIP_PACKAGES"] += ...] or [... = ...], whichever the
    membership test selects. *)
Definition add_distributed (d : gmap string string) : gmap string string :=
  match d !! EXTRA_PIP_PACKAGES with
  | Some v => <[EXTRA_PIP_PACKAGES := v +:+ "dask[distributed]"]> d
  | None => <[EXTRA_PIP_PACKAGES := " dask[distributed]"]> d
  end.

(** The attributes as [FlyMachine.__init__] assigns them. *)
Definition new_machine (a : init_args) (w : world) (token : string) (l : ref)
  : FlyMachine :=
  {| machine := PyNone;
     region := a_region a;
     vm_size := a_vm_size a;
     cpus := 1;
     memory_mb := 1024;
     image := a_image a;
     gpu_instance := false;
     bootstrap := true;
     extra_bootstrap := a_extra_bootstrap a;
     env_vars := l;
     metadata := a_metadata a;
     restart := a_restart a;
     m_app_name := app_name (cluster w);
     set_env :=
       "DASK_INTERNAL__INHERIT_CONFIG=" +:+ dquote +:+ global_config w
       +:+ dquote;
     m_api_token := token;
     name := a_name a;
     command := a_command a;
     address := a_address a;
     external_address := a_external_address a;
     host := None;
     internal_ip := None;
     port := None;
     scheduler := None;
     worker_class := None;
     running := false |}.

(** [FlyMachine.__init__] *)
Definition FlyMachine_init (a : init_args) : co FlyMachine :=
  w <- get ;;
  match api_token (cluster w) with
  | None => Throw (ValueError "Fly.io API token must be provided")
  | Some token =>
      match a_env_vars a with
      | None => Throw TypeError
      | Some l =>
          put (set_heap (<[l := add_distributed (deref w l)]> (heap w)) w) ;;
          Ret (new_machine a w token l)
      end
  end.

(** The payload [create_vm] builds. *)
Definition machine_config (self : FlyMachine) (w : world) : FlyMachineConfig :=
  {| cfg_env := deref w (env_vars self);
     cfg_image := image self;
     cfg_metadata := metadata self;
     cfg_restart := restart self;
     cfg_services :=
       [ Services
           [ ServicesPort 80 ["http"];
             ServicesPort 443 ["http"; "tls"];
             ServicesPort 8786 ["http"; "tls"] ]
           "tcp" 8786;
         Services [ ServicesPort 8787 ["http"; "tls"] ] "tcp" 8787 ];
     cfg_guest := Guest "shared" (cpus self) (memory_mb self);
     cfg_size := vm_size self;
     cfg_metrics := None;
     cfg_processes :=
       [ Process "app" [command self] (deref w (env_vars self)) "root"
           ["/bin/bash"; "-c"] ] |}.

(** [FlyMachineCluster._fly] *)
Definition _fly : co unit :=
  w <- get ;;
  match _client (cluster w) with
  | None => put (on_cluster (set_client (Some (api_token (cluster w)))) w)
  | Some _ => Ret tt
  end.

(** [FlyMachine.wait_for_app]: the loop turns at most [fuel] times. *)
Fixpoint wait_for_app (fuel : nat) : co unit :=
  match fuel with
  | O => Spin
  | S n =>
      Get (fun w =>
        if is_None (app_name (cluster w)) || is_none (app (cluster w))
        then Sleep (wait_for_app n)
        else Ret tt)
  end.

Definition after_create (self : FlyMachine) (r : pyval) (ip mid : string)
  (w : world) : FlyMachine :=
  {| machine := r;
     region := region self;
     vm_size := vm_size self;
     cpus := cpus self;
     memory_mb := memory_mb self;
     image := image self;
     gpu_instance := gpu_instance self;
     bootstrap := bootstrap self;
     extra_bootstrap := extra_bootstrap self;
     env_vars := env_vars self;
     metadata := metadata self;
     restart := restart self;
     m_app_name := m_app_name self;
     set_env := set_env self;
     m_api_token := m_api_token self;
     name := name self;
     command := command self;
     address := Some ("tcp://[" +:+ ip +:+ "]:8786");
     external_address := external_address self;
     host := Some (mid +:+ ".vm." +:+ fmt (app_name (cluster w)) +:+ ".internal");
     internal_ip := Some ip;
     port := Some 8786%Z;
     scheduler := scheduler self;
     worker_class := worker_class self;
     running := running self |}.

(** [FlyMachine.create_vm] *)
Definition create_vm (fuel : nat) (self : FlyMachine)
  : co (FlyMachine * (option string * option string)) :=
  w0 <- get ;;
  let config := machine_config self w0 in
  wait_for_app fuel ;;
  _fly ;;
  w1 <- get ;;
  r <- call (create_machine_call (app_name (cluster w1)) config (name self)
               (region self)) ;;
  match r with
  | PyMachine m =>
      w2 <- get ;;
      let self' := after_create self r (private_ip m) (id m) w2 in
      Ret (self', (address self', external_address self'))
  | _ => Throw (AttributeError "private_ip")
  end.

(** [FlyMachine.destroy_vm] *)
Definition destroy_vm (self : FlyMachine) : co unit :=
  if is_none (machine self) then Ret tt
  else
    _fly ;;
    w <- get ;;
    match machine self with
    | PyMachine m =>
        call (delete_machine_call (app_name (cluster w)) (id m) true) ;;
        Ret tt
    | _ => Throw (AttributeError "id")
    end.

(** [asyncio.create_task(async_socket_open(host, port))] is a [Task]
    object; the probe it wraps is never awaited. *)
Inductive asyncio_task : Type :=
| create_task (probe_host : option string) (probe_port : option Z).

(** A [Task] defines neither [__bool__] nor [__len__]: it is true. *)
Definition truthy (t : asyncio_task) : bool := true.

(** [FlyMachine.wait_for_scheduler] *)
Fixpoint wait_for_scheduler (fuel : nat) (self : FlyMachine) : co unit :=
  match fuel with
  | O => Spin
  | S n =>
      if negb (truthy (create_task (host self) (port self)))
      then Sleep (wait_for_scheduler n self)
      else Ret tt
  end.

(** The attributes a role's [__init__] and [start] assign. *)
Definition with_role (self : FlyMachine) (n c : option string) (p : option Z)
  (s wc : option string) : FlyMachine :=
  {| machine := machine self;
     region := region self;
     vm_size := vm_size self;
     cpus := cpus self;
     memory_mb := memory_mb self;
     image := image self;
     gpu_instance := gpu_instance self;
     bootstrap := bootstrap self;
     extra_bootstrap := extra_bootstrap self;
     env_vars := env_vars self;
     metadata := metadata self;
     restart := restart self;
     m_app_name := m_app_name self;
     set_env := set_env self;
     m_api_token := m_api_token self;
     name := n;
     command := c;
     address := address self;
     external_address := external_address self;
     host := host self;
     internal_ip := internal_ip self;
     port := p;
     scheduler := s;
     worker_class := wc;
     running := running self |}.

Definition with_address (self : FlyMachine) (a e : option string) (r : bool)
  : FlyMachine :=
  {| machine := machine self;
     region := region self;
     vm_size := vm_size self;
     cpus := cpus self;
     memory_mb := memory_mb self;
     image := image self;
     gpu_instance := gpu_instance self;
     bootstrap := bootstrap self;
     extra_bootstrap := extra_bootstrap self;
     env_vars := env_vars self;
     metadata := metadata self;
     restart := restart self;
     m_app_name := m_app_name self;
     set_env := set_env self;
     m_api_token := m_api_token self;
     name := name self;
     command := command self;
     address := a;
     external_address := e;
     host := host self;
     internal_ip := internal_ip self;
     port := port self;
     scheduler := scheduler self;
     worker_class := worker_class self;
     running := r |}.

(** ** [FlyMachineCluster] *)

(** [FlyMachineCluster.create_app]; [uuid8] is [str(uuid.uuid4())[:8]]. *)
Definition create_app (uuid8 : string) : co unit :=
  w <- get ;;
  if negb (is_None (app_name (cluster w))) then Ret tt
  else
    let app_name := "dask-" +:+ uuid8 in
    try_except
      (_fly ;;
       r <- call (create_app_call app_name) ;;
       modify (on_cluster (set_app r)) ;;
       modify (on_cluster (set_app_name (Some app_name))))
      (fun e =>
         modify (on_cluster (set_app (PyStr "failed"))) ;;
         Throw e).

(** [FlyMachineCluster.delete_app] *)
Definition delete_app : co unit :=
  w <- get ;;
  match app_name (cluster w) with
  | None => Ret tt
  | Some n =>
      _fly ;;
      call (delete_app_call n) ;;
      Ret tt
  end.

(** [FlyMachineCluster.wait_for_app] *)
Fixpoint cluster_wait_for_app (fuel : nat) : co unit :=
  match fuel with
  | O => Spin
  | S n =>
      Get (fun w =>
        if is_none (app (cluster w)) || is_None (app_name (cluster w))
        then Sleep (cluster_wait_for_app n)
        else Ret tt)
  end.

(** ** [FlyMachineScheduler] *)

(** [FlyMachineScheduler.__init__]: [port_option] is
    [scheduler_options.get("port")] and [cli] is
    [cli_keywords(scheduler_options, cls=_Scheduler)]. *)
Definition FlyMachineScheduler_init (a : init_args) (port_option : option Z)
  (cli : list string) : co FlyMachine :=
  self <- FlyMachine_init a ;;
  w <- get ;;
  Ret (with_role self
         (Some ("dask-" +:+ uuid (cluster w) +:+ "-scheduler"))
         (Some (join " " ([set_env self; "dask"; "scheduler"] ++ cli)))
         (Some (default 8786%Z port_option))
         (scheduler self) (worker_class self)).

(** [FlyMachineScheduler.start_scheduler] *)
Definition start_scheduler (fuel : nat) (self : FlyMachine) : co FlyMachine :=
  r <- create_vm fuel self ;;
  let self' := fst r in
  let address := fst (snd r) in
  wait_for_scheduler fuel self' ;;
  modify (on_cluster (set_scheduler_internal_address address)) ;;
  modify (on_cluster (set_scheduler_port (port self'))) ;;
  Ret self'.

(** [FlyMachineScheduler.start] *)
Definition FlyMachineScheduler_start (fuel : nat) (uuid8 : string)
  (self : FlyMachine) : co FlyMachine :=
  w <- get ;;
  (if is_none (app (cluster w)) then create_app uuid8 else Ret tt) ;;
  cluster_wait_for_app fuel ;;
  self' <- start_scheduler fuel self ;;
  Ret (with_address self' (address self') (external_address self') true).

(** ** [FlyMachineWorker] *)

(** [FlyMachineWorker.__init__]: [uuid8] is [str(uuid.uuid4())[:8]] and
    [cli] is [cli_keywords(worker_options, cls=_Worker)]. *)
Definition FlyMachineWorker_init (scheduler : string) (a : init_args)
  (worker_class : string) (uuid8 : string) (cli : list string)
  : co FlyMachine :=
  self <- FlyMachine_init a ;;
  w <- get ;;
  Ret (with_role self
         (Some ("dask-" +:+ uuid (cluster w) +:+ "-worker-" +:+ uuid8))
         (Some (join " " ([set_env self; "dask"; "worker"; scheduler] ++ cli)))
         (port self)
         (Some scheduler) (Some worker_class)).

(** [FlyMachineWorker.start_worker] *)
Definition start_worker (fuel : nat) (self : FlyMachine) : co FlyMachine :=
  r <- create_vm fuel self ;;
  Ret (with_address (fst r) (fst (snd r)) (snd (snd r)) (running (fst r))).

(** [FlyMachineWorker.start]; [super_start] is [WorkerMixin.start]. *)
Definition FlyMachineWorker_start (super_start : co unit) (fuel : nat)
  (self : FlyMachine) : co FlyMachine :=
  super_start ;;
  start_worker fuel self.

(** [create_app] awaited once for each of the given identifiers, one call
    after the other. *)
Fixpoint create_app_times (uuids : list string) : co unit :=
  match uuids with
  | [] => Ret tt
  | u :: rest => create_app u ;; create_app_times rest
  end.

(** The world once [_fly()] has been evaluated. *)
Definition with_client (w : world) : world :=
  match _client (cluster w) with
  | None => on_cluster (set_client (Some (api_token (cluster w)))) w
  | Some _ => w
  end.

(** ** Tasks of a cluster *)

(** The coroutines of this module that may run as tasks of one event
    loop, on one cluster. *)
Inductive job : Type :=
| job_create_app (uuid8 : string)
| job_delete_app
| job_wait_for_app (fuel : nat)
| job_scheduler_start (fuel : nat) (uuid8 : string) (self : FlyMachine)
| job_start_worker (fuel : nat) (self : FlyMachine)
| job_destroy_vm (self : FlyMachine).

Definition code (j : job) : co unit :=
  match j with
  | job_create_app u => create_app u
  | job_delete_app => delete_app
  | job_wait_for_app fuel => cluster_wait_for_app fuel
  | job_scheduler_start fuel u self =>
      FlyMachineScheduler_start fuel u self ;; Ret tt
  | job_start_worker fuel self => start_worker fuel self ;; Ret tt
  | job_destroy_vm self => destroy_vm self
  end.

Definition spawn (js : list job) (w : world) : loop world fly_call pyval unit :=
  Loop (map (fun j => Fresh (code j)) js) w [].

(** ** Properties of states and calls *)

(** The test of the loop in [FlyMachine.wait_for_app]. *)
Definition closed (w : world) : bool :=
  is_None (app_name (cluster w)) || is_none (app (cluster w)).

(** The application exists as far as the cluster can tell: this is what
    [wait_for_app] waits for. *)
Definition app_ready (w : world) : Prop :=
  app_name (cluster w) <> None /\ app (cluster w) <> PyNone.

(** A machine is asked for only once the application is there. *)
Definition gated (w : world) (c : fly_call) : Prop :=
  is_create_machine c = true -> app_ready w.

(** The guest of a machine request is one shared CPU and 1024 MB. *)
Definition fixed_guest (c : fly_call) : Prop :=
  match c with
  | create_machine_call _ config _ _ =>
      cfg_guest config = Guest "shared" 1 1024
  | _ => True
  end.

End Fly.

(* ===================================================================== *)
(** * ibm/code_engine.py *)
(* ===================================================================== *)

Module IBM.

Import Py Async.
Local Open Scope coro_scope.

(** ** Provider calls *)

(** A JSON object as [response.get_result()] returns it. *)
Abbreviation json := (gmap string string).

Record create_app_args : Type := CreateAppArgs {
  ca_project_id : option string;
  ca_image_reference : option string;
  ca_name : option string;
  ca_run_commands : list string;
  ca_image_port : Z;
  ca_scale_ephemeral_storage_limit : string;
  ca_scale_cpu_limit : string;
  ca_scale_min_instances : Z;
  ca_scale_memory_limit : string;
  ca_run_env_variables : list (list (string * option string));
}.

Record create_job_run_args : Type := CreateJobRunArgs {
  jr_project_id : option string;
  jr_image_reference : option string;
  jr_name : option string;
  jr_run_commands : list string;
  jr_scale_ephemeral_storage_limit : string;
  jr_scale_cpu_limit : string;
  jr_scale_memory_limit : string;
  jr_run_env_variables : list (list (string * option string));
}.

(** The calls made on [code_engine_service].  They are blocking calls, and
    so is [time.sleep]: only the sequential semantics applies to them. *)
Inductive ibm_call : Type :=
| create_app_call (a : create_app_args)
| get_app_call (project_id name : option string)
| create_config_map_call (project_id name : option string)
    (data : list (string * string))
| create_job_run_call (a : create_job_run_args)
| delete_job_run_call (project_id name : option string)
| delete_app_call (project_id name : option string).

(** ** Shared state *)

(** An attribute that nothing may have assigned yet: reading it then
    raises [AttributeError]. *)
Inductive attr (A : Type) : Type :=
| Unset
| Assigned (v : A).

Arguments Unset {A}.
Arguments Assigned {A} v.

Record IBMCodeEngineCluster : Type := Cluster {
  protocol : attr string;
  scheduler_internal_ip : attr (option string);
  scheduler_external_ip : attr (option string);
  scheduler_port : attr (option Z);
}.

Record world : Type := World {
  cluster : IBMCodeEngineCluster;
  global_config : string;  (* dask.config.serialize(dask.config.global_config) *)
  IAMAuthenticator : option string -> option exn;  (* what the SDK constructor raises *)
}.

Definition on_cluster (f : IBMCodeEngineCluster -> IBMCodeEngineCluster)
  (w : world) : world :=
  World (f (cluster w)) (global_config w) (IAMAuthenticator w).

Definition set_protocol (p : string) (c : IBMCodeEngineCluster)
  : IBMCodeEngineCluster :=
  Cluster (Assigned p) (scheduler_internal_ip c) (scheduler_external_ip c)
    (scheduler_port c).

Definition set_scheduler (i e : option string) (p : option Z)
  (c : IBMCodeEngineCluster) : IBMCodeEngineCluster :=
  Cluster (protocol c) (Assigned i) (Assigned e) (Assigned p).

Abbreviation co := (coro world ibm_call json).

(** ** [IBMCodeEngine] *)

(** [self.command]: a string for a scheduler, a list for a worker. *)
Inductive command_attr : Type :=
| CmdNone
| CmdStr (s : string)
| CmdList (l : list string).

Record IBMCodeEngine : Type := Engine {
  image : option string;
  region : string;
  project_id : option string;
  api_key : option string;
  service_url : string;
  (* attributes of VMInterface and of the role mixins *)
  name : option string;
  command : command_attr;
  internal_ip : option string;
  external_ip : option string;
  address : option string;
  port : option Z;
  running : bool;                     (* status = Status.running *)
  worker_class : option string;
}.

(** The arguments of [IBMCodeEngine.__init__], and the attributes the base
    classes have set when [super().__init__] returns. *)
Record init_args : Type := InitArgs {
  a_image : option string;
  a_region : option string;
  a_project_id : option string;
  a_api_key : option string;
  a_name : option string;
  a_command : command_attr;
}.

(** [IBMCodeEngine.__init__] *)
Definition IBMCodeEngine_init (a : init_args) : co IBMCodeEngine :=
  w <- get ;;
  match IAMAuthenticator w (a_api_key a) with
  | Some e => Throw e
  | None =>
      match a_region a with
      | None => Throw TypeError
      | Some r =>
          Ret {| image := a_image a;
                 region := r;
                 project_id := a_project_id a;
                 api_key := a_api_key a;
                 service_url :=
                   "https://api." +:+ r +:+ ".codeengine.cloud.ibm.com/v2";
                 name := a_name a;
                 command := a_command a;
                 internal_ip := None;
                 external_ip := None;
                 address := None;
                 port := None;
                 running := false;
                 worker_class := None |}
      end
  end.

Definition INHERIT : string := "DASK_INTERNAL_INHERIT_CONFIG".

(** The command line of the scheduler application: the components of
    [self.command] from the first one that starts with [python], followed
    by the protocol and port options. *)
Definition python_command (cmd : string) : exn + list string :=
  let components := split_ws cmd in
  match index_first (startswith "python") components with
  | None => inl (RuntimeError "coroutine raised StopIteration")
  | Some i =>
      inr (split_ws (join " " (drop i components)
                     +:+ " --protocol ws,tcp --port 8786,8001"))
  end.

Definition scheduler_payload (self : IBMCodeEngine) (cmd : list string)
  (w : world) : create_app_args :=
  {| ca_project_id := project_id self;
     ca_image_reference := image self;
     ca_name := name self;
     ca_run_commands := cmd;
     ca_image_port := 8786;
     ca_scale_ephemeral_storage_limit := "1G";
     ca_scale_cpu_limit := "0.25";
     ca_scale_min_instances := 1;
     ca_scale_memory_limit := "1G";
     ca_run_env_variables :=
       [ [ ("type", Some "literal"); ("name", Some INHERIT);
           ("key", Some INHERIT); ("value", Some (global_config w)) ] ] |}.

Definition worker_payload (self : IBMCodeEngine) (cmd : list string)
  : create_job_run_args :=
  {| jr_project_id := project_id self;
     jr_image_reference := image self;
     jr_name := name self;
     jr_run_commands := cmd;
     jr_scale_ephemeral_storage_limit := "1G";
     jr_scale_cpu_limit := "0.25";
     jr_scale_memory_limit := "1G";
     jr_run_env_variables :=
       [ [ ("type", Some "config_map_key_reference"); ("reference", name self);
           ("name", Some INHERIT); ("key", Some INHERIT) ] ] |}.

(** [d[key]] *)
Definition item (d : json) (key : string) : exn + string :=
  match d !! key with
  | Some v => inr v
  | None => inl (KeyError key)
  end.

(** [url.split("//")[1]] *)
Definition after_slashes (url : string) : exn + string :=
  match split "//" url !! 1%nat with
  | Some s => inr s
  | None => inl IndexError
  end.

(** The [while True] loop of [create_vm]: ask for the application until
    its status is [ready]; the loop turns at most [fuel] times. *)
Fixpoint poll_ready (fuel : nat) (self : IBMCodeEngine) : co json :=
  match fuel with
  | O => Spin
  | S n =>
      app <- call (get_app_call (project_id self) (name self)) ;;
      status <- lift (item app "status") ;;
      if String.eqb status "ready" then Ret app
      else Sleep (poll_ready n self)
  end.

(** What [create_vm] reads from the application once it is ready. *)
Definition urls_of (app : json) : co (option string * option string) :=
  lift (item app "name") ;;
  internal <- lift (item app "endpoint_internal") ;;
  internal_url <- lift (after_slashes internal) ;;
  public <- lift (item app "endpoint") ;;
  public_url <- lift (after_slashes public) ;;
  Ret (Some internal_url, Some public_url).

(** [IBMCodeEngine.create_vm] *)
Definition create_vm (fuel : nat) (self : IBMCodeEngine)
  : co (option string * option string) :=
  match command self with
  | CmdNone => Throw (AttributeError "split")
  | CmdStr s =>
      cmd <- lift (python_command s) ;;
      w <- get ;;
      call (create_app_call (scheduler_payload self cmd w)) ;;
      app <- poll_ready fuel self ;;
      urls_of app
  | CmdList l =>
      w <- get ;;
      call (create_config_map_call (project_id self) (name self)
              [(INHERIT, global_config w)]) ;;
      call (create_job_run_call (worker_payload self l)) ;;
      Ret (None, None)
  end.

(** [IBMCodeEngine.destroy_vm] *)
Definition destroy_vm (self : IBMCodeEngine) : co unit :=
  match name self with
  | None => Throw TypeError
  | Some n =>
      if contains "worker" n
      then call (delete_job_run_call (project_id self) (name self)) ;; Ret tt
      else call (delete_app_call (project_id self) (name self)) ;; Ret tt
  end.

Definition with_addresses (self : IBMCodeEngine) (i e a : option string)
  (p : option Z) (r : bool) : IBMCodeEngine :=
  {| image := image self;
     region := region self;
     project_id := project_id self;
     api_key := api_key self;
     service_url := service_url self;
     name := name self;
     command := command self;
     internal_ip := i;
     external_ip := e;
     address := a;
     port := p;
     running := r;
     worker_class := worker_class self |}.

(** ** [IBMCodeEngineScheduler] *)

(** [IBMCodeEngineScheduler.start_scheduler]; [wait_for_scheduler] is the
    method of [VMInterface]. *)
Definition start_scheduler (wait_for_scheduler : IBMCodeEngine -> co unit)
  (fuel : nat) (self : IBMCodeEngine) : co IBMCodeEngine :=
  r <- create_vm fuel self ;;
  w <- get ;;
  match protocol (cluster w) with
  | Unset => Throw (AttributeError "protocol")
  | Assigned proto =>
      let self1 :=
        with_addresses self (fst r) (snd r)
          (Some (proto +:+ "://" +:+ fmt (snd r) +:+ ":"
                 +:+ fmt (pretty <$> port self)))
          (port self) (running self) in
      wait_for_scheduler self1 ;;
      modify (on_cluster
                (set_scheduler (internal_ip self1) (external_ip self1)
                   (port self1))) ;;
      Ret (with_addresses self1 (internal_ip self1) (external_ip self1)
             (address self1) (port self1) true)
  end.

(** [IBMCodeEngineScheduler.start] *)
Definition IBMCodeEngineScheduler_start
  (wait_for_scheduler : IBMCodeEngine -> co unit) (fuel : nat)
  (self : IBMCodeEngine) : co IBMCodeEngine :=
  modify (on_cluster (set_protocol "wss")) ;;
  start_scheduler wait_for_scheduler fuel
    (with_addresses self (internal_ip self) (external_ip self) (address self)
       (Some 443%Z) (running self)).

(** ** [IBMCodeEngineWorker] *)

(** [IBMCodeEngineWorker.__init__]; [spec] is the [json.dumps] of the
    dictionary with the keys [cls] and [opts]. *)
Definition IBMCodeEngineWorker_init (a : init_args) (worker_class : string)
  (spec : string) : co IBMCodeEngine :=
  self <- IBMCodeEngine_init a ;;
  w <- get ;;
  match scheduler_internal_ip (cluster w) with
  | Unset => Throw (AttributeError "scheduler_internal_ip")
  | Assigned ip =>
      let internal_scheduler := "ws://" +:+ fmt ip +:+ ":80" in
      Ret {| image := image self;
             region := region self;
             project_id := project_id self;
             api_key := api_key self;
             service_url := service_url self;
             name := name self;
             command :=
               CmdList [ "python"; "-m"; "distributed.cli.dask_spec";
                         internal_scheduler; "--spec"; spec ];
             internal_ip := internal_ip self;
             external_ip := external_ip self;
             address := address self;
             port := port self;
             running := running self;
             worker_class := Some worker_class |}
  end.

(** ** Polling *)

(** What [k] turns of the polling loop leave in the trace. *)
Fixpoint polls (self : IBMCodeEngine) (k : nat) : list (event ibm_call) :=
  match k with
  | O => []
  | S n =>
      Called (get_app_call (project_id self) (name self)) :: Slept
      :: polls self n
  end.

(** After the trace [tr], the provider answers the next poll with an
    application that is not ready. *)
Definition not_ready (api : provider ibm_call json) (self : IBMCodeEngine)
  (tr : list (event ibm_call)) : Prop :=
  exists app status,
    api tr (get_app_call (project_id self) (name self)) = inr app /\
    app !! "status" = Some status /\ status <> "ready".

(** ** Properties of calls *)

(** The resource limits of a request that creates an instance. *)
Definition fixed_limits (c : ibm_call) : Prop :=
  match c with
  | create_app_call a =>
      ca_scale_cpu_limit a = "0.25" /\ ca_scale_memory_limit a = "1G"
  | create_job_run_call a =>
      jr_scale_cpu_limit a = "0.25" /\ jr_scale_memory_limit a = "1G"
  | _ => True
  end.

End IBM.

(* ===================================================================== *)
(** * Sample clusters and providers *)
(* ===================================================================== *)

Module Sample.

Import Py Async.

(** ** Fly *)

Definition fly_cluster : Fly.FlyMachineCluster :=
  Fly.Cluster (Some "fo1_token") Fly.PyNone None None "38b817c1" None None.

Definition fly_cluster_without_token : Fly.FlyMachineCluster :=
  Fly.Cluster None Fly.PyNone None None "38b817c1" None None.

(** One dictionary, at reference 1, holding an index URL. *)
Definition fly_heap : gmap Fly.ref (gmap string string) :=
  {[ 1%positive := {[ "PIP_INDEX_URL" := "https://pypi.org/simple" ]} ]}.

Definition fly_world : Fly.world := Fly.World fly_cluster fly_heap "{}".

Definition fly_world_without_token : Fly.world :=
  Fly.World fly_cluster_without_token fly_heap "{}".

(** Arguments that ask for eight CPUs and 4096 MB. *)
Definition fly_args : Fly.init_args :=
  {| Fly.a_region := Some "lhr";
     Fly.a_vm_size := Some "shared-cpu-1x";
     Fly.a_memory_mb := Some 4096%Z;
     Fly.a_cpus := Some 8%Z;
     Fly.a_image := Some "ghcr.io/dask/dask:latest";
     Fly.a_env_vars := Some 1%positive;
     Fly.a_extra_bootstrap := None;
     Fly.a_metadata := None;
     Fly.a_restart := None;
     Fly.a_name := None;
     Fly.a_command := None;
     Fly.a_address := None;
     Fly.a_external_address := None |}.

Definition fly_args_without_env : Fly.init_args :=
  {| Fly.a_region := Some "lhr";
     Fly.a_vm_size := Some "shared-cpu-1x";
     Fly.a_memory_mb := Some 4096%Z;
     Fly.a_cpus := Some 8%Z;
     Fly.a_image := Some "ghcr.io/dask/dask:latest";
     Fly.a_env_vars := None;
     Fly.a_extra_bootstrap := None;
     Fly.a_metadata := None;
     Fly.a_restart := None;
     Fly.a_name := None;
     Fly.a_command := None;
     Fly.a_address := None;
     Fly.a_external_address := None |}.

(** A provider that grants every request. *)
Definition fly_grants : provider Fly.fly_call Fly.pyval :=
  fun _ c =>
    match c with
    | Fly.create_app_call n => inr (Fly.PyApp n)
    | Fly.create_machine_call _ _ _ _ =>
        inr (Fly.PyMachine (Fly.MachineObj "148e21" "fdaa:0:1:a7b:1"))
    | _ => inr Fly.PyNone
    end.

(** A provider that refuses every request. *)
Definition fly_refuses : provider Fly.fly_call Fly.pyval :=
  fun _ _ => inl (ProviderError "quota exceeded").

(** The world once the application has been created. *)
Definition fly_world_with_app : Fly.world :=
  Fly.World
    (Fly.Cluster (Some "fo1_token") (Fly.PyApp "dask-a1b2c3d4")
       (Some "dask-a1b2c3d4") (Some (Some "fo1_token")) "38b817c1" None None)
    fly_heap "{}".

Definition fly_scheduler_address : string := "tcp://[fdaa:0:1:a7b:1]:8786".

(** A machine that has been created. *)
Definition fly_created_machine : Fly.FlyMachine :=
  Fly.after_create
    (Fly.new_machine fly_args fly_world "fo1_token" 1%positive)
    (Fly.PyMachine (Fly.MachineObj "148e21" "fdaa:0:1:a7b:1"))
    "fdaa:0:1:a7b:1" "148e21" fly_world_with_app.

(** A worker, as its constructor leaves it. *)
Definition fly_worker : Fly.FlyMachine :=
  let self := Fly.new_machine fly_args fly_world "fo1_token" 1%positive in
  Fly.with_role self
    (Some "dask-38b817c1-worker-dc95260d")
    (Some (join " " [Fly.set_env self; "dask"; "worker";
                     fly_scheduler_address]))
    None (Some fly_scheduler_address) (Some "FlyMachineScheduler").

(** A scheduler, as its constructor leaves it. *)
Definition fly_scheduler : Fly.FlyMachine :=
  let self := Fly.new_machine fly_args fly_world "fo1_token" 1%positive in
  Fly.with_role self
    (Some "dask-38b817c1-scheduler")
    (Some (join " " [Fly.set_env self; "dask"; "scheduler"]))
    (Some 8786%Z) None None.

(** ** IBM *)

Definition ibm_cluster : IBM.IBMCodeEngineCluster :=
  IBM.Cluster IBM.Unset IBM.Unset IBM.Unset IBM.Unset.

Definition ibm_world : IBM.world :=
  IBM.World ibm_cluster "{}" (fun _ => None).

Definition ibm_scheduler_args : IBM.init_args :=
  {| IBM.a_image := Some "ghcr.io/dask/dask:latest";
     IBM.a_region := Some "eu-de";
     IBM.a_project_id := Some "7e3b";
     IBM.a_api_key := Some "key";
     IBM.a_name := Some "dask-38b817c1-scheduler";
     IBM.a_command :=
       IBM.CmdStr "env X=1 python -m distributed.cli.dask_scheduler" |}.

Definition ibm_worker_args : IBM.init_args :=
  {| IBM.a_image := Some "ghcr.io/dask/dask:latest";
     IBM.a_region := Some "eu-de";
     IBM.a_project_id := Some "7e3b";
     IBM.a_api_key := Some "key";
     IBM.a_name := Some "dask-38b817c1-worker-dc95260d";
     IBM.a_command := IBM.CmdNone |}.

Definition ibm_scheduler : IBM.IBMCodeEngine :=
  {| IBM.image := Some "ghcr.io/dask/dask:latest";
     IBM.region := "eu-de";
     IBM.project_id := Some "7e3b";
     IBM.api_key := Some "key";
     IBM.service_url := "https://api.eu-de.codeengine.cloud.ibm.com/v2";
     IBM.name := Some "dask-38b817c1-scheduler";
     IBM.command :=
       IBM.CmdStr "env X=1 python -m distributed.cli.dask_scheduler";
     IBM.internal_ip := None;
     IBM.external_ip := None;
     IBM.address := None;
     IBM.port := None;
     IBM.running := false;
     IBM.worker_class := None |}.

Definition ibm_worker : IBM.IBMCodeEngine :=
  {| IBM.image := Some "ghcr.io/dask/dask:latest";
     IBM.region := "eu-de";
     IBM.project_id := Some "7e3b";
     IBM.api_key := Some "key";
     IBM.service_url := "https://api.eu-de.codeengine.cloud.ibm.com/v2";
     IBM.name := Some "dask-38b817c1-worker-dc95260d";
     IBM.command :=
       IBM.CmdList [ "python"; "-m"; "distributed.cli.dask_spec";
                     "ws://sched.internal:80"; "--spec"; "{}" ];
     IBM.internal_ip := None;
     IBM.external_ip := None;
     IBM.address := None;
     IBM.port := None;
     IBM.running := false;
     IBM.worker_class := Some "distributed.cli.Nanny" |}.

Definition ibm_app (status : string) : IBM.json :=
  {[ "name" := "dask-38b817c1-scheduler";
     "status" := status;
     "endpoint_internal" := "http://sched.7e3b.svc.cluster.local";
     "endpoint" := "https://sched.7e3b.eu-de.codeengine.appdomain.cloud" ]}.

Definition is_get_app (c : IBM.ibm_call) : bool :=
  match c with IBM.get_app_call _ _ => true | _ => false end.

(** The application is reported [ready] from the poll numbered [n] on
    (counting from zero), and [deploying] before. *)
Definition ibm_ready_after (n : nat) : provider IBM.ibm_call IBM.json :=
  fun tr c =>
    match c with
    | IBM.get_app_call _ _ =>
        inr (ibm_app (if (n <=? count_calls is_get_app tr)%nat then "ready"
                      else "deploying"))
    | _ => inr (ibm_app "deploying")
    end.

(** The application is never reported [ready]. *)
Definition ibm_never_ready : provider IBM.ibm_call IBM.json :=
  fun _ _ => inr (ibm_app "deploying").

End Sample.

(* ===================================================================== *)
(** * Further definitions: words, frames, the cluster's constructor *)
(* ===================================================================== *)

Module Words.

Import Py.

(** A word: what [s.split()] can return, a non-empty string without a
    space character. *)
Fixpoint nospace (s : string) : bool :=
  match s with
  | EmptyString => true
  | String c s' => negb (isspace c) && nospace s'
  end.

Definition word (s : string) : bool :=
  match s with
  | EmptyString => false
  | _ => nospace s
  end.

(** No [/] occurs in the string. *)
Fixpoint noslash (s : string) : bool :=
  match s with
  | EmptyString => true
  | String c s' => negb (Ascii.eqb c "/"%char) && noslash s'
  end.

(** The options [create_vm] appends to the scheduler's command. *)
Definition protocol_options : list string :=
  ["--protocol"; "ws,tcp"; "--port"; "8786,8001"].

End Words.

Module Frames.

Import Py Async.

(** A coroutine that never writes the shared state. *)
Fixpoint reads_only {St Call Resp A} (m : coro St Call Resp A) : Prop :=
  match m with
  | Ret _ | Throw _ | Spin => True
  | Get k => forall s, reads_only (k s)
  | Put _ _ => False
  | Invoke _ k => forall r, reads_only (k r)
  | Sleep k => reads_only k
  end.

(** The call concerns the instance itself, and is not a deletion. *)
Definition about_self (self : IBM.IBMCodeEngine) (c : IBM.ibm_call) : Prop :=
  match c with
  | IBM.create_app_call a =>
      IBM.ca_project_id a = IBM.project_id self /\
      IBM.ca_name a = IBM.name self
  | IBM.get_app_call p n => p = IBM.project_id self /\ n = IBM.name self
  | IBM.create_config_map_call p n _ =>
      p = IBM.project_id self /\ n = IBM.name self
  | IBM.create_job_run_call a =>
      IBM.jr_project_id a = IBM.project_id self /\
      IBM.jr_name a = IBM.name self
  | IBM.delete_job_run_call _ _ | IBM.delete_app_call _ _ => False
  end.

End Frames.

Module Sample2.

Import Py Async.

(** A provider that refuses every request. *)
Definition ibm_refuses : provider IBM.ibm_call IBM.json :=
  fun _ _ => inl (ProviderError "quota exceeded").

(** A command whose words are separated by a no-break space and by
    spaces. *)
Definition command_with_no_break_space : string :=
  "env" +:+ String (ascii_of_nat 160) "python -m x".

(** A scheduler whose command has no word that starts with [python]. *)
Definition ibm_scheduler_without_python : IBM.IBMCodeEngine :=
  {| IBM.image := Some "ghcr.io/dask/dask:latest";
     IBM.region := "eu-de";
     IBM.project_id := Some "7e3b";
     IBM.api_key := Some "key";
     IBM.service_url := "https://api.eu-de.codeengine.cloud.ibm.com/v2";
     IBM.name := Some "dask-38b817c1-scheduler";
     IBM.command := IBM.CmdStr "dask scheduler";
     IBM.internal_ip := None;
     IBM.external_ip := None;
     IBM.address := None;
     IBM.port := None;
     IBM.running := false;
     IBM.worker_class := None |}.

(** A provider that grants every request at once. *)
Definition ibm_grants : provider IBM.ibm_call IBM.json :=
  fun _ _ => inr (Sample.ibm_app "ready").

(** The cluster once a scheduler has recorded its addresses. *)
Definition ibm_world_with_scheduler : IBM.world :=
  IBM.World
    (IBM.Cluster (IBM.Assigned "wss")
       (IBM.Assigned (Some "sched.7e3b.svc.cluster.local"))
       (IBM.Assigned (Some "sched.7e3b.eu-de.codeengine.appdomain.cloud"))
       (IBM.Assigned (Some 443%Z)))
    "{}" (fun _ => None).

End Sample2.

Module FlyCluster.

Import Py Async.
Local Open Scope coro_scope.

(** The dictionary [dask.config.get("cloudprovider.fly", {})], as far as
    [FlyMachineCluster.__init__] reads it. *)
Record config : Type := Config {
  conf_region : option string;
  conf_vm_size : option string;
  conf_image : option string;
  conf_token : option string;
  conf_memory_mb : option Z;
  conf_cpus : option Z;
  conf_protocol : option string;
  conf_security : option bool;
}.

(** The arguments of [FlyMachineCluster.__init__]. *)
Record cluster_args : Type := ClusterArgs {
  c_region : option string;
  c_vm_size : option string;
  c_image : option string;
  c_token : option string;
  c_memory_mb : option Z;
  c_cpus : option Z;
  c_debug : bool;
  c_app_name : option string;
}.

(** [self.options], without its references to the cluster and to the
    configuration. *)
Record options : Type := Options {
  o_region : option string;
  o_vm_size : option string;
  o_image : option string;
  o_token : option string;
  o_memory_mb : option Z;
  o_cpus : option Z;
  o_app_name : option string;
  o_protocol : string;
  o_security : bool;
  o_host : string;
}.

(** [x if x is not None else d] *)
Definition if_not_None {A} (x d : option A) : option A :=
  match x with
  | Some _ => x
  | None => d
  end.

Definition FlyMachineCluster_options (a : cluster_args) (c : config)
  : options :=
  {| o_region := if_not_None (c_region a) (conf_region c);
     o_vm_size := if_not_None (c_vm_size a) (conf_vm_size c);
     o_image := if_not_None (c_image a) (conf_image c);
     o_token := if_not_None (c_token a) (conf_token c);
     o_memory_mb := if_not_None (c_memory_mb a) (conf_memory_mb c);
     o_cpus := if_not_None (c_cpus a) (conf_cpus c);
     o_app_name := c_app_name a;
     o_protocol := default "tcp" (conf_protocol c);
     o_security := default false (conf_security c);
     o_host := "fly-local-6pn" |}.

(** [FlyMachineCluster.__init__]; [uuid] is what the base class assigns. *)
Definition FlyMachineCluster_init (a : cluster_args) (c : config)
  (uuid : string) : Fly.FlyMachineCluster :=
  {| Fly.api_token := o_token (FlyMachineCluster_options a c);
     Fly.app := Fly.PyNone;
     Fly.app_name := c_app_name a;
     Fly._client := None;
     Fly.uuid := uuid;
     Fly.scheduler_internal_address := None;
     Fly.scheduler_port := None |}.

(** [FlyMachineScheduler.start] from [await self.cluster.wait_for_app()]
    on. *)
Definition start_rest (fuel : nat) (self : Fly.FlyMachine)
  : Fly.co Fly.FlyMachine :=
  Fly.cluster_wait_for_app fuel ;;
  self' <- Fly.start_scheduler fuel self ;;
  Ret (Fly.with_address self' (Fly.address self')
         (Fly.external_address self') true).

(** The call creates something. *)
Definition creates (c : Fly.fly_call) : Prop :=
  match c with
  | Fly.create_app_call _ | Fly.create_machine_call _ _ _ _ => True
  | _ => False
  end.

End FlyCluster.

Module Sample3.

Import FlyCluster.

Definition fly_config : config :=
  {| conf_region := Some "ams";
     conf_vm_size := None;
     conf_image := None;
     conf_token := Some "fo1_configured";
     conf_memory_mb := None;
     conf_cpus := None;
     conf_protocol := None;
     conf_security := None |}.

Definition fly_empty_config : config :=
  Config None None None None None None None None.

(** A cluster asked to use an application of a given name. *)
Definition fly_named_args : cluster_args :=
  {| c_region := Some "lhr";
     c_vm_size := None;
     c_image := None;
     c_token := Some "fo1_token";
     c_memory_mb := None;
     c_cpus := None;
     c_debug := false;
     c_app_name := Some "dask-mine" |}.

Definition fly_plain_args : cluster_args :=
  ClusterArgs None None None None None None false None.

End Sample3.

Module Writes.

Import Py Async.

Section Steps.

Context {St Call Resp : Type}.

(** [steps R m s]: started in state [s], every write of [m] takes the
    state it finds to one that [R] relates to it.  Other tasks run while
    [m] is suspended, so nothing is known of the state after a call or a
    sleep. *)
Fixpoint steps {A} (R : St -> St -> Prop) (m : coro St Call Resp A) (s : St)
  : Prop :=
  match m with
  | Ret _ | Throw _ | Spin => True
  | Get k => steps R (k s) s
  | Put s' k => R s s' /\ steps R k s'
  | Invoke _ k => forall r s', steps R (k r) s'
  | Sleep k => forall s', steps R k s'
  end.

Definition task_steps {A} (R : St -> St -> Prop) (t : task St Call Resp A)
  : Prop :=
  match t with
  | Fresh m => forall s, steps R m s
  | Pending _ k => forall r s, steps R (k r) s
  | Asleep k => forall s, steps R k s
  | Finished _ => True
  end.

End Steps.

(** What no operation of a Fly cluster's life changes: the dictionaries,
    the configuration, the token and the identifier of the cluster; a
    client, once there, stays; and a name of the application, once there,
    is not taken away. *)
Definition same_setup (w w' : Fly.world) : Prop :=
  Fly.heap w' = Fly.heap w /\
  Fly.global_config w' = Fly.global_config w /\
  Fly.api_token (Fly.cluster w') = Fly.api_token (Fly.cluster w) /\
  Fly.uuid (Fly.cluster w') = Fly.uuid (Fly.cluster w) /\
  (Fly._client (Fly.cluster w) <> None ->
   Fly._client (Fly.cluster w') = Fly._client (Fly.cluster w)) /\
  (Fly.app_name (Fly.cluster w) <> None ->
   Fly.app_name (Fly.cluster w') <> None).

End Writes.

Module Rely.

Import Py Async.

Section Guarantee.

Context {St Call Resp : Type}.

(** [wpr R P m Q s]: started in state [s], every write of [m] takes the
    state it finds to one that [R] relates to it, every call [m] makes
    satisfies [P] in the state in which it is made, and if [m] returns, [Q]
    holds of the result and the state.  While [m] is suspended the other
    tasks run, and they too only take [R]-steps: after a call or a sleep
    the state is one that [R] relates to the state before. *)
Fixpoint wpr {A} (R : St -> St -> Prop) (P : St -> Call -> Prop)
  (m : coro St Call Resp A) (Q : A -> St -> Prop) (s : St) : Prop :=
  match m with
  | Ret a => Q a s
  | Throw _ => True
  | Get k => wpr R P (k s) Q s
  | Put s' k => R s s' /\ wpr R P k Q s'
  | Invoke c k => P s c /\ forall r s', R s s' -> wpr R P (k r) Q s'
  | Sleep k => forall s', R s s' -> wpr R P k Q s'
  | Spin => True
  end.

(** A task of a loop whose shared state is [s] keeps to [R] and [P],
    whatever [R]-steps the other tasks take before it runs again. *)
Definition task_wpr {A} (R : St -> St -> Prop) (P : St -> Call -> Prop)
  (t : task St Call Resp A) (s : St) : Prop :=
  match t with
  | Fresh m => forall s', R s s' -> wpr R P m (fun _ _ => True) s'
  | Pending _ k => forall r s', R s s' -> wpr R P (k r) (fun _ _ => True) s'
  | Asleep k => forall s', R s s' -> wpr R P k (fun _ _ => True) s'
  | Finished _ => True
  end.

(** Each task of the loop keeps to [R] and to its own condition on
    calls. *)
Definition loop_wpr {A} (R : St -> St -> Prop)
  (Ps : list (St -> Call -> Prop)) (l : loop St Call Resp A) : Prop :=
  Forall2 (fun P t => task_wpr R P t (shared l)) Ps (tasks l).

End Guarantee.

End Rely.

Module Orchestrator.

Import Py Async.
Local Open Scope coro_scope.

(** Modelled from the spec: the error kind [PreconditionError] of the
    cluster orchestrator.  The orchestrator is the generic cluster
    framework ([dask_cloudprovider.generic.vmcluster]); the two modules
    hold only its subclasses. *)
Definition PreconditionError : exn := RuntimeError "PreconditionError".

(** Modelled from the spec: [add_worker] of the cluster orchestrator (the
    generic cluster framework, of which the two modules hold only the
    subclasses).  It is "only valid from scheduler-ready or later; requires
    the scheduler's resolved internal address (fails with PreconditionError
    if called earlier)"; it then "builds a worker Instance, generates a
    unique name, and runs the same create/resolve sequence".  The address
    is the one [start_scheduler] has recorded on the cluster; the worker
    instance, its name and its create sequence are those of the source. *)
Definition add_worker (fuel : nat) (a : Fly.init_args)
  (worker_class uuid8 : string) (cli : list string) : Fly.co Fly.FlyMachine :=
  w <- get ;;
  match Fly.scheduler_internal_address (Fly.cluster w) with
  | None => Throw PreconditionError
  | Some address =>
      self <- Fly.FlyMachineWorker_init address a worker_class uuid8 cli ;;
      Fly.start_worker fuel self
  end.

(** Modelled from the spec: what the cluster orchestrator is asked to
    do, "start/scale/stop".  Starting constructs the scheduler and awaits
    its [start]; scaling is [add_worker]; stopping destroys machines and
    deletes the application. *)
Inductive request : Type :=
| start_cluster (fuel : nat) (a : Fly.init_args) (port_option : option Z)
    (cli : list string) (uuid8 : string)
| scale_up (fuel : nat) (a : Fly.init_args) (worker_class uuid8 : string)
    (cli : list string)
| stop_machine (self : Fly.FlyMachine)
| stop_app.

(** Modelled from the spec: what the orchestrator runs for a request,
    from the constructors and coroutines of the source. *)
Definition code (r : request) : Fly.co unit :=
  match r with
  | start_cluster fuel a p cli u =>
      self <- Fly.FlyMachineScheduler_init a p cli ;;
      Fly.FlyMachineScheduler_start fuel u self ;;
      Ret tt
  | scale_up fuel a wc u cli => add_worker fuel a wc u cli ;; Ret tt
  | stop_machine self => Fly.destroy_vm self
  | stop_app => Fly.delete_app
  end.

(** The requests as tasks of one event loop, on one cluster. *)
Definition spawn (rs : list request) (w : Fly.world)
  : loop Fly.world Fly.fly_call Fly.pyval unit :=
  Loop (map (fun r => Fresh (code r)) rs) w [].

(** The scheduler's address has been resolved and recorded. *)
Definition address_recorded (w : Fly.world) : Prop :=
  is_Some (Fly.scheduler_internal_address (Fly.cluster w)).

(** A recorded address is not taken away. *)
Definition address_kept (w w' : Fly.world) : Prop :=
  address_recorded w -> address_recorded w'.

(** What a call of a request must satisfy: the calls of [scale_up] are
    requests for a machine, made when the scheduler's address has been
    recorded. *)
Definition gate (r : request) (w : Fly.world) (c : Fly.fly_call) : Prop :=
  match r with
  | scale_up _ _ _ _ _ =>
      Fly.is_create_machine c = true /\ address_recorded w
  | _ => True
  end.

End Orchestrator.

Module Sample4.

(** A scheduler is asked for, then a worker. *)
Definition fly_requests : list Orchestrator.request :=
  [ Orchestrator.start_cluster 3 Sample.fly_args None [] "a1b2c3d4";
    Orchestrator.scale_up 3 Sample.fly_args "FlyMachineScheduler" "dc95260d"
      [] ].

End Sample4.

(* ===================================================================== *)
(** * Facts about the string operations *)
(* ===================================================================== *)

Module PyFacts.

Import Py.
Local Arguments String.append !_ _ / : simpl nomatch.

(** The operations agree with Python on a few inputs. *)

Example split_url :
  split "//" "https://sched.eu-de.appdomain.cloud"
  = ["https:"; "sched.eu-de.appdomain.cloud"].
Proof. reflexivity. Qed.

Example split_overlap : split "//" "a///b" = ["a"; "/b"].
Proof. reflexivity. Qed.

Example split_twice : split "//" "a////b" = ["a"; ""; "b"].
Proof. reflexivity. Qed.

Example split_absent : split "//" "localhost" = ["localhost"].
Proof. reflexivity. Qed.

Example split_ws_runs :
  split_ws "  env X=1  python -m  sched " = ["env"; "X=1"; "python"; "-m"; "sched"].
Proof. reflexivity. Qed.

Example join_words : join " " ["dask"; "worker"; "tcp://s"] = "dask worker tcp://s".
Proof. reflexivity. Qed.

Example contains_worker :
  contains "worker" "dask-38b817c1-worker-dc95260d" = true /\
  contains "worker" "dask-38b817c1-scheduler" = false.
Proof. split; reflexivity. Qed.

Lemma startswith_app (p t : string) : startswith p (p +:+ t) = true.
Proof.
  induction p as [|a p IH]; simpl; [done|].
  by rewrite Ascii.eqb_refl.
Qed.

Lemma startswith_inv (p s : string) :
  startswith p s = true -> exists t, s = p +:+ t.
Proof.
  revert s. induction p as [|a p IH]; intros s H.
  - by exists s.
  - destruct s as [|b s]; simpl in H; [done|].
    destruct (Ascii.eqb a b) eqn:E; [|done].
    apply Ascii.eqb_eq in E as ->.
    destruct (IH _ H) as [t ->]. by exists t.
Qed.

(** [contains] decides the occurrence of one text in another. *)
Lemma contains_spec (needle hay : string) :
  contains needle hay = true <-> Substring needle hay.
Proof.
  split.
  - induction hay as [|c hay IH]; simpl.
    + destruct (startswith needle "") eqn:E; [|done].
      intros _. apply startswith_inv in E as [t E]. by exists "", t.
    + destruct (startswith needle (String c hay)) eqn:E.
      * intros _. apply startswith_inv in E as [t E]. by exists "", t.
      * intros H. destruct (IH H) as (pre & post & ->).
        by exists (String c pre), post.
  - intros (pre & post & ->).
    induction pre as [|c pre IH]; simpl.
    + pose proof (startswith_app needle post) as E.
      destruct (needle +:+ post); simpl; by rewrite E.
    + rewrite IH. by destruct (startswith needle _).
Qed.

Lemma contains_app (needle pre post : string) :
  contains needle (pre +:+ needle +:+ post) = true.
Proof. apply contains_spec. by exists pre, post. Qed.

Lemma app_assoc (a b c : string) : (a +:+ b) +:+ c = a +:+ b +:+ c.
Proof. induction a as [|x a IH]; simpl; congruence. Qed.

Lemma app_empty_r (a : string) : a +:+ "" = a.
Proof. induction a as [|x a IH]; simpl; congruence. Qed.

Lemma contains_suffix (needle pre : string) :
  contains needle (pre +:+ needle) = true.
Proof. apply contains_spec. exists pre, "". by rewrite app_empty_r. Qed.

(** Every element of a list occurs in its [join]. *)
Lemma join_Substring (sep x : string) (l : list string) :
  In x l -> Substring x (join sep l).
Proof.
  induction l as [|y l IH]; [done|].
  intros [->|Hin].
  - destruct l as [|z l]; simpl.
    + exists "", "". by rewrite app_empty_r.
    + by exists "", (sep +:+ join sep (z :: l)).
  - destruct l as [|z l]; [done|].
    destruct (IH Hin) as (pre & post & E).
    change (join sep (y :: z :: l)) with (y +:+ sep +:+ join sep (z :: l)).
    rewrite E. exists (y +:+ sep +:+ pre), post.
    by rewrite !app_assoc.
Qed.

Lemma contains_join (sep x : string) (l : list string) :
  In x l -> contains x (join sep l) = true.
Proof. intros H. apply contains_spec. by apply join_Substring. Qed.

(** The white space among the code points below U+0100. *)
Example isspace_code_points :
  List.filter (fun n => isspace (ascii_of_nat n)) (seq 0 256)
  = [9; 10; 11; 12; 13; 28; 29; 30; 31; 32; 133; 160]%nat.
Proof. vm_compute. reflexivity. Qed.

Example split_no_break_space :
  split_ws ("env" +:+ String (ascii_of_nat 160) "python -m x")
  = ["env"; "python"; "-m"; "x"].
Proof. vm_compute. reflexivity. Qed.

Example split_next_line :
  split_ws ("a" +:+ String (ascii_of_nat 133) "b") = ["a"; "b"].
Proof. vm_compute. reflexivity. Qed.

End PyFacts.

(* ===================================================================== *)
(** * Facts about coroutines *)
(* ===================================================================== *)

Module AsyncFacts.

Import Py Async.

Section Sequential.

Context {St Call Resp : Type}.
Implicit Types (api : provider Call Resp) (s : St) (tr : list (event Call)).

Lemma run_bind {A B} api (m : coro St Call Resp A)
  (f : A -> coro St Call Resp B) s tr :
  run api (bind m f) s tr =
  match run api m s tr with
  | (Returned a, s', tr') => run api (f a) s' tr'
  | (Raised e, s', tr') => (Raised e, s', tr')
  | (Looping, s', tr') => (Looping, s', tr')
  end.
Proof. revert s tr. induction m; intros; simpl; auto. Qed.

Lemma run_try_except {A} api (m : coro St Call Resp A)
  (h : exn -> coro St Call Resp A) s tr :
  run api (try_except m h) s tr =
  match run api m s tr with
  | (Raised e, s', tr') => run api (h e) s' tr'
  | r => r
  end.
Proof. revert s tr. induction m; intros; simpl; auto. Qed.

(** A run only ever appends to the trace. *)
Lemma calls_app (tr1 tr2 : list (event Call)) :
  calls (tr1 ++ tr2) = calls tr1 ++ calls tr2.
Proof. apply omap_app. Qed.

Lemma run_extends {A} api (m : coro St Call Resp A) s tr :
  exists evs, (run api m s tr).2 = tr ++ evs.
Proof.
  revert s tr. induction m as [a|e|k IH|s' k IH|c k IH|k IH|]; intros s tr;
    simpl; try (by exists []; rewrite app_nil_r); auto.
  - destruct (IH (api tr c) s (tr ++ [Called c])) as [evs ->].
    exists (Called c :: evs). by rewrite <- app_assoc.
  - destruct (IH s (tr ++ [Slept])) as [evs ->].
    exists (Slept :: evs). by rewrite <- app_assoc.
Qed.

End Sequential.

Section Logic.

Context {St Call Resp : Type}.
Variable P : St -> Call -> Prop.
Implicit Types (api : provider Call Resp) (s : St).

Lemma wp_mono {A} (m : coro St Call Resp A) (Q Q' : A -> St -> Prop) s :
  (forall a s', Q a s' -> Q' a s') -> wp P m Q s -> wp P m Q' s.
Proof.
  intros HQ. revert s.
  induction m as [a|e|k IH|s' k IH|c k IH|k IH|]; simpl; eauto.
  intros s [Hc Hk]. split; eauto.
Qed.

Lemma wp_bind {A B} (m : coro St Call Resp A) (f : A -> coro St Call Resp B)
  (Q : B -> St -> Prop) s :
  wp P m (fun a s' => wp P (f a) Q s') s -> wp P (bind m f) Q s.
Proof.
  revert s. induction m as [a|e|k IH|s' k IH|c k IH|k IH|]; simpl; eauto.
  intros s [Hc Hk]. split; eauto.
Qed.

Lemma wp_try_except {A} (m : coro St Call Resp A)
  (h : exn -> coro St Call Resp A) (Q : A -> St -> Prop) s :
  wp P m Q s -> (forall e s', wp P (h e) Q s') -> wp P (try_except m h) Q s.
Proof.
  intros Hm Hh. revert s Hm.
  induction m as [a|e|k IH|s' k IH|c k IH|k IH|]; simpl; eauto.
  intros s [Hc Hk]. split; eauto.
Qed.

(** Running to the next suspension point: what is asked of the provider
    is allowed in the state the task is left in, and the rest of the task
    is safe. *)
Lemma advance_safe {A} (m : coro St Call Resp A) s :
  wp P m (fun _ _ => True) s ->
  task_safe P (advance m s).1 /\
  forall c, emitted (advance m s).1 = [Called c] -> P (advance m s).2 c.
Proof.
  revert s. induction m as [a|e|k IH|s' k IH|c k IH|k IH|]; simpl;
    intros s Hwp; try (split; [done | by intros ?]); eauto.
  destruct Hwp as [Hc Hk]. split.
  - intros r s'. apply Hk.
  - by intros c' [= <-].
Qed.

Lemma resume_safe {A} api (t : task St Call Resp A) s tr :
  task_safe P t ->
  task_safe P (resume api t s tr).1.1 /\
  forall c, (resume api t s tr).2 = tr ++ [Called c] ->
            P (resume api t s tr).1.2 c.
Proof.
  intros Ht.
  assert (forall m : coro St Call Resp A,
             wp P m (fun _ _ => True) s ->
             let r := advance m s in
             task_safe P r.1 /\
             forall c, tr ++ emitted r.1 = tr ++ [Called c] -> P r.2 c) as H.
  { intros m Hm. destruct (advance_safe m s Hm) as [H1 H2].
    split; [done|]. intros c Hc. apply H2. by apply app_inv_head in Hc. }
  destruct t as [m|c k|k|o]; simpl in *.
  - specialize (H m (Ht s)). by destruct (advance m s).
  - specialize (H _ (Ht (api tr c) s)). by destruct (advance _ s).
  - specialize (H _ (Ht s)). by destruct (advance k s).
  - split; [done|]. intros c Hc.
    rewrite <- (app_nil_r tr) in Hc at 1. by apply app_inv_head in Hc.
Qed.

(** One turn of the loop keeps every task safe, and the call it makes,
    if any, is allowed in the state it leaves. *)
Lemma turn_safe {A} api (l : loop St Call Resp A) i :
  Forall (task_safe P) (tasks l) ->
  Forall (task_safe P) (tasks (turn api l i)) /\
  forall c, history (turn api l i) = history l ++ [Called c] ->
            P (shared (turn api l i)) c.
Proof.
  intros Hl. unfold turn.
  destruct (tasks l !! i) as [t|] eqn:Hi.
  - pose proof (resume_safe api t (shared l) (history l)) as H.
    destruct (resume api t (shared l) (history l)) as [[t' s'] tr'].
    simpl in *.
    destruct H as [H1 H2]; [by eapply Forall_lookup_1|].
    split; [|done].
    apply Forall_insert; done.
  - split; [done|]. intros c Hc.
    rewrite <- (app_nil_r (history l)) in Hc at 1.
    by apply app_inv_head in Hc.
Qed.

(** In a sequential run too, every call made is one the logic allows. *)
Lemma run_safe {A} api (m : coro St Call Resp A) (Q : A -> St -> Prop)
  (R : Call -> Prop) s tr :
  (forall s' c, P s' c -> R c) ->
  wp P m Q s ->
  Forall R (calls tr) -> Forall R (calls (run api m s tr).2).
Proof.
  intros HR. revert s tr.
  induction m as [a|e|k IH|s' k IH|c k IH|k IH|]; simpl; eauto.
  - intros s tr [Hc Hk] Htr. apply IH; [done|].
    rewrite calls_app. apply Forall_app. split; [done|].
    repeat constructor. eauto.
  - intros s tr Hk Htr. apply IH; [done|].
    rewrite calls_app. apply Forall_app. split; [done|]. constructor.
Qed.

(** What the logic says of the result holds of the result of a run. *)
Lemma run_post {A} api (m : coro St Call Resp A) (Q : A -> St -> Prop) s tr
  a s' tr' :
  wp P m Q s -> run api m s tr = (Returned a, s', tr') -> Q a s'.
Proof.
  revert s tr.
  induction m as [x|e|k IH|s0 k IH|c k IH|k IH|]; simpl; intros s tr Hwp Hrun;
    try done; eauto.
  - by injection Hrun as <- <- <-.
  - destruct Hwp as [_ Hk]. eauto.
Qed.

Lemma run_schedule_safe {A} api (l : loop St Call Resp A) sched :
  Forall (task_safe P) (tasks l) ->
  Forall (task_safe P) (tasks (run_schedule api l sched)).
Proof.
  revert l. induction sched as [|i sched IH]; intros l Hl; [done|].
  apply IH. by apply turn_safe.
Qed.

End Logic.

End AsyncFacts.

(* ===================================================================== *)
(** * Facts about fly/machine.py *)
(* ===================================================================== *)

Module FlyFacts.

Import Py Async AsyncFacts Fly.
Local Open Scope coro_scope.

Implicit Types (api : provider fly_call pyval) (w : world)
  (tr : list (event fly_call)) (self : FlyMachine).

(** ** The constructors *)

Lemma FlyMachine_init_run api a w tr :
  run api (FlyMachine_init a) w tr =
  match api_token (cluster w), a_env_vars a with
  | None, _ =>
      (Raised (ValueError "Fly.io API token must be provided"), w, tr)
  | Some _, None => (Raised TypeError, w, tr)
  | Some token, Some l =>
      (Returned (new_machine a w token l),
       set_heap (<[l := add_distributed (deref w l)]> (heap w)) w, tr)
  end.
Proof.
  unfold FlyMachine_init. simpl.
  destruct (api_token (cluster w)); [|done].
  by destruct (a_env_vars a).
Qed.

(** A constructor that returns has left the world's cluster alone. *)
Lemma FlyMachine_init_returned api a w tr self w' tr' :
  run api (FlyMachine_init a) w tr = (Returned self, w', tr') ->
  exists token l,
    api_token (cluster w) = Some token /\ a_env_vars a = Some l /\
    self = new_machine a w token l /\
    w' = set_heap (<[l := add_distributed (deref w l)]> (heap w)) w /\
    tr' = tr.
Proof.
  rewrite FlyMachine_init_run.
  destruct (api_token (cluster w)) as [token|]; [|done].
  destruct (a_env_vars a) as [l|]; [|done].
  intros [= <- <- <-]. by exists token, l.
Qed.

Lemma FlyMachineWorker_init_run api s a wc u cli w tr :
  run api (FlyMachineWorker_init s a wc u cli) w tr =
  match run api (FlyMachine_init a) w tr with
  | (Returned self, w', tr') =>
      (Returned
         (with_role self
            (Some ("dask-" +:+ uuid (cluster w') +:+ "-worker-" +:+ u))
            (Some (join " " ([set_env self; "dask"; "worker"; s] ++ cli)))
            (port self) (Some s) (Some wc)), w', tr')
  | (Raised e, w', tr') => (Raised e, w', tr')
  | (Looping, w', tr') => (Looping, w', tr')
  end.
Proof.
  unfold FlyMachineWorker_init. rewrite run_bind.
  by destruct (run api (FlyMachine_init a) w tr) as [[[]]].
Qed.

Lemma FlyMachineScheduler_init_run api a p cli w tr :
  run api (FlyMachineScheduler_init a p cli) w tr =
  match run api (FlyMachine_init a) w tr with
  | (Returned self, w', tr') =>
      (Returned
         (with_role self
            (Some ("dask-" +:+ uuid (cluster w') +:+ "-scheduler"))
            (Some (join " " ([set_env self; "dask"; "scheduler"] ++ cli)))
            (Some (default 8786%Z p)) (scheduler self) (worker_class self)),
       w', tr')
  | (Raised e, w', tr') => (Raised e, w', tr')
  | (Looping, w', tr') => (Looping, w', tr')
  end.
Proof.
  unfold FlyMachineScheduler_init. rewrite run_bind.
  by destruct (run api (FlyMachine_init a) w tr) as [[[]]].
Qed.

(** ** Waiting for the application *)

(** Alone on the loop, a machine that waits for an application that is
    not there waits for ever. *)
Lemma wait_for_app_closed api fuel w tr :
  closed w = true ->
  run api (wait_for_app fuel) w tr = (Looping, w, tr ++ repeat Slept fuel).
Proof.
  intros Hw. revert tr. induction fuel as [|n IH]; intros tr; simpl.
  - by rewrite app_nil_r.
  - unfold closed in Hw. rewrite Hw. simpl. rewrite IH.
    by rewrite <- app_assoc.
Qed.

Lemma create_vm_closed api fuel self w tr :
  closed w = true ->
  run api (create_vm fuel self) w tr = (Looping, w, tr ++ repeat Slept fuel).
Proof.
  intros Hw. unfold create_vm. simpl.
  rewrite run_bind, wait_for_app_closed; done.
Qed.

Lemma start_worker_closed api fuel self w tr :
  closed w = true ->
  run api (start_worker fuel self) w tr
  = (Looping, w, tr ++ repeat Slept fuel).
Proof.
  intros Hw. unfold start_worker.
  rewrite run_bind, create_vm_closed; done.
Qed.

(** ** The application *)

Lemma _fly_run api w tr : run api _fly w tr = (Returned tt, with_client w, tr).
Proof. unfold _fly, with_client. simpl. by destruct (_client (cluster w)). Qed.

Lemma create_app_run api u w tr :
  run api (create_app u) w tr =
  match app_name (cluster w) with
  | Some _ => (Returned tt, w, tr)
  | None =>
      let c := create_app_call ("dask-" +:+ u) in
      match api tr c with
      | inr a =>
          (Returned tt,
           on_cluster (set_app_name (Some ("dask-" +:+ u)))
             (on_cluster (set_app a) (with_client w)),
           tr ++ [Called c])
      | inl e =>
          (Raised e,
           on_cluster (set_app (PyStr "failed")) (with_client w),
           tr ++ [Called c])
      end
  end.
Proof.
  unfold create_app, with_client. simpl.
  destruct (app_name (cluster w)); simpl; [done|].
  destruct (_client (cluster w)); simpl;
    match goal with |- context [api tr ?c] => by destruct (api tr c) end.
Qed.

Lemma delete_app_run api w tr :
  run api delete_app w tr =
  match app_name (cluster w) with
  | None => (Returned tt, w, tr)
  | Some n =>
      (match api tr (delete_app_call n) with
       | inl e => Raised e
       | inr _ => Returned tt
       end, with_client w, tr ++ [Called (delete_app_call n)])
  end.
Proof.
  unfold delete_app, with_client. simpl.
  destruct (app_name (cluster w)); simpl; [|done].
  destruct (_client (cluster w)); simpl;
    match goal with |- context [api tr ?c] => by destruct (api tr c) end.
Qed.

Lemma destroy_vm_run api self w tr :
  run api (destroy_vm self) w tr =
  match machine self with
  | PyNone => (Returned tt, w, tr)
  | PyMachine m =>
      let c := delete_machine_call (app_name (cluster w)) (id m) true in
      (match api tr c with inl e => Raised e | inr _ => Returned tt end,
       with_client w, tr ++ [Called c])
  | _ => (Raised (AttributeError "id"), with_client w, tr)
  end.
Proof.
  unfold destroy_vm, with_client.
  destruct (machine self); simpl; try done;
    destruct (_client (cluster w)); simpl; try done;
    match goal with |- context [api tr ?c] => by destruct (api tr c) end.
Qed.

(** Once the application has a name, [create_app] does nothing. *)
Lemma create_app_times_named api us w tr :
  app_name (cluster w) <> None ->
  run api (create_app_times us) w tr = (Returned tt, w, tr).
Proof.
  intros Hw. induction us as [|u us IH]; [done|].
  change (create_app_times (u :: us))
    with (bind (create_app u) (fun _ => create_app_times us)).
  rewrite run_bind, create_app_run.
  by destruct (app_name (cluster w)).
Qed.

(** ** What each coroutine may call *)

Section Calls.

Variable P : world -> fly_call -> Prop.

Lemma app_ready_client w k :
  app_ready w -> app_ready (on_cluster (set_client k) w).
Proof. done. Qed.

Lemma app_ready_open w :
  is_None (app_name (cluster w)) || is_none (app (cluster w)) = false ->
  app_ready w.
Proof.
  unfold app_ready.
  destruct (app_name (cluster w)), (app (cluster w)); simpl; try done.
Qed.

Lemma wp_wait_for_app fuel (Q : unit -> world -> Prop) w :
  (forall w', app_ready w' -> Q tt w') -> wp P (wait_for_app fuel) Q w.
Proof.
  intros HQ. revert w. induction fuel as [|n IH]; intros w; simpl; [done|].
  destruct (is_None _ || is_none _) eqn:E; simpl; [by auto|].
  by apply HQ, app_ready_open.
Qed.

Lemma wp_cluster_wait_for_app fuel (Q : unit -> world -> Prop) w :
  (forall w', app_ready w' -> Q tt w') ->
  wp P (cluster_wait_for_app fuel) Q w.
Proof.
  intros HQ. revert w. induction fuel as [|n IH]; intros w; simpl; [done|].
  destruct (is_none _ || is_None _) eqn:E; simpl; [by auto|].
  apply HQ, app_ready_open. by rewrite orb_comm.
Qed.

(** [create_vm] asks for one thing, its machine, and only once the
    application is there. *)
Lemma wp_create_vm fuel self
  (Q : FlyMachine * (option string * option string) -> world -> Prop) w :
  (forall w0 w', app_ready w' ->
     P w' (create_machine_call (app_name (cluster w'))
             (machine_config self w0) (name self) (region self))) ->
  (forall m w',
     let self' := after_create self (PyMachine m) (private_ip m) (id m) w' in
     Q (self', (address self', external_address self')) w') ->
  wp P (create_vm fuel self) Q w.
Proof.
  intros HP HQ. unfold create_vm. simpl.
  apply wp_bind, wp_wait_for_app. intros w1 Hw1. simpl.
  destruct (_client (cluster w1)); simpl.
  - split; [by apply HP|]. intros [e|[]] w2; simpl; auto.
  - split.
    + by apply (HP w (on_cluster (set_client (Some (api_token (cluster w1)))) w1)),
        app_ready_client.
    + intros [e|[]] w2; simpl; auto.
Qed.

Lemma wp_destroy_vm self (Q : unit -> world -> Prop) w :
  (forall w' n i, P w' (delete_machine_call n i true)) ->
  (forall w', Q tt w') ->
  wp P (destroy_vm self) Q w.
Proof.
  intros HP HQ. unfold destroy_vm.
  destruct (machine self) as [| | |m]; simpl; auto;
    destruct (_client (cluster w)); simpl; auto.
  - split; [done|]. intros [e|r] w'; simpl; auto.
  - split; [done|]. intros [e|r] w'; simpl; auto.
Qed.

Lemma wp_create_app u (Q : unit -> world -> Prop) w :
  (forall w' n, P w' (create_app_call n)) ->
  (forall w', Q tt w') ->
  wp P (create_app u) Q w.
Proof.
  intros HP HQ. unfold create_app. simpl.
  destruct (is_None (app_name (cluster w))); simpl; [|done].
  destruct (_client (cluster w)); simpl.
  - split; [done|]. intros [e|r] w'; simpl; auto.
  - split; [done|]. intros [e|r] w'; simpl; auto.
Qed.

Lemma wp_delete_app (Q : unit -> world -> Prop) w :
  (forall w' n, P w' (delete_app_call n)) ->
  (forall w', Q tt w') ->
  wp P delete_app Q w.
Proof.
  intros HP HQ. unfold delete_app. simpl.
  destruct (app_name (cluster w)); simpl; [|done].
  destruct (_client (cluster w)); simpl.
  - split; [done|]. intros [e|r] w'; simpl; auto.
  - split; [done|]. intros [e|r] w'; simpl; auto.
Qed.

Lemma wp_wait_for_scheduler fuel self (Q : unit -> world -> Prop) w :
  (forall w', Q tt w') -> wp P (wait_for_scheduler fuel self) Q w.
Proof. intros HQ. destruct fuel; simpl; auto. Qed.

End Calls.

(** ** Every task of a cluster waits for the application *)

Lemma gated_other w c : is_create_machine c = false -> gated w c.
Proof. unfold gated. by intros ->. Qed.

(** [start_scheduler] records on the cluster the address [create_vm]
    built. *)
Lemma wp_start_scheduler fuel self (Q : FlyMachine -> world -> Prop) w :
  (forall m w0 w',
     let self' := after_create self (PyMachine m) (private_ip m) (id m) w0 in
     Q self'
       (on_cluster (set_scheduler_port (port self'))
          (on_cluster (set_scheduler_internal_address (address self')) w'))) ->
  wp gated (start_scheduler fuel self) Q w.
Proof.
  intros HQ. unfold start_scheduler.
  apply wp_bind, wp_create_vm; [by intros ? ? ? _|].
  intros m w1 self'. apply wp_bind, wp_wait_for_scheduler. intros w2.
  simpl. apply HQ.
Qed.

Lemma wp_scheduler_start fuel u self (Q : FlyMachine -> world -> Prop) w :
  (forall m w0 w',
     let self' := after_create self (PyMachine m) (private_ip m) (id m) w0 in
     Q (with_address self' (address self') (external_address self') true)
       (on_cluster (set_scheduler_port (port self'))
          (on_cluster (set_scheduler_internal_address (address self')) w'))) ->
  wp gated (FlyMachineScheduler_start fuel u self) Q w.
Proof.
  intros HQ. unfold FlyMachineScheduler_start, get. cbn [bind wp].
  apply wp_bind.
  assert (forall w',
    wp gated
      (bind (cluster_wait_for_app fuel) (fun _ =>
         bind (start_scheduler fuel self) (fun self' =>
           Ret (with_address self' (address self')
                  (external_address self') true)))) Q w') as Hrest.
  { intros w'. apply wp_bind, wp_cluster_wait_for_app. intros w1 _.
    apply wp_bind, wp_start_scheduler. intros m w0 w2. simpl. apply HQ. }
  destruct (is_none (app (cluster w))).
  - apply wp_create_app; [|by intros]. intros. by apply gated_other.
  - apply Hrest.
Qed.

(** When the scheduler's [start] returns, the cluster holds the address
    of the scheduler's machine. *)
Lemma FlyMachineScheduler_start_returned api fuel u self w tr self' w' tr' :
  run api (FlyMachineScheduler_start fuel u self) w tr
  = (Returned self', w', tr') ->
  exists m,
    machine self' = PyMachine m /\
    address self' = Some ("tcp://[" +:+ private_ip m +:+ "]:8786") /\
    scheduler_internal_address (cluster w') = address self'.
Proof.
  intros H.
  eapply (run_post gated api _
            (fun s w1 => exists m,
               machine s = PyMachine m /\
               address s = Some ("tcp://[" +:+ private_ip m +:+ "]:8786") /\
               scheduler_internal_address (cluster w1) = address s)) in H;
    [done|].
  apply wp_scheduler_start. intros m w0 w1. simpl. by exists m.
Qed.

Lemma code_safe (j : job) : safe gated (code j).
Proof.
  intros w. destruct j as [u| |fuel|fuel u self|fuel self|self]; simpl code.
  - apply wp_create_app; [|done]. intros. by apply gated_other.
  - apply wp_delete_app; [|done]. intros. by apply gated_other.
  - by apply wp_cluster_wait_for_app.
  - apply wp_bind, wp_scheduler_start. by intros; simpl.
  - apply wp_bind. unfold start_worker.
    apply wp_bind, wp_create_vm; [by intros ? ? ? _|]. by intros.
  - apply wp_destroy_vm; [|done]. intros. by apply gated_other.
Qed.

Lemma spawn_safe (js : list job) (w : world) :
  Forall (task_safe gated) (tasks (spawn js w)).
Proof.
  unfold spawn. simpl. apply Forall_map, Forall_forall.
  intros j _. apply code_safe.
Qed.

End FlyFacts.

(* ===================================================================== *)
(** * Facts about ibm/code_engine.py *)
(* ===================================================================== *)

Module IBMFacts.

Import Py Async AsyncFacts IBM.
Local Open Scope coro_scope.

Implicit Types (api : provider ibm_call json) (w : world)
  (tr : list (event ibm_call)) (self : IBMCodeEngine).

(** ** The constructors *)

(** The constructors call nothing and leave the world as it is. *)
Lemma IBMCodeEngine_init_pure api a w tr :
  (run api (IBMCodeEngine_init a) w tr).1.2 = w /\
  (run api (IBMCodeEngine_init a) w tr).2 = tr.
Proof.
  unfold IBMCodeEngine_init. simpl.
  destruct (IAMAuthenticator w (a_api_key a)); [done|].
  by destruct (a_region a).
Qed.

Lemma IBMCodeEngineWorker_init_pure api a wc spec w tr :
  (run api (IBMCodeEngineWorker_init a wc spec) w tr).1.2 = w /\
  (run api (IBMCodeEngineWorker_init a wc spec) w tr).2 = tr.
Proof.
  unfold IBMCodeEngineWorker_init. rewrite run_bind.
  pose proof (IBMCodeEngine_init_pure api a w tr) as [H1 H2].
  destruct (run api (IBMCodeEngine_init a) w tr) as [[[self| |] w'] tr'];
    simpl in *; subst; try done.
  by destruct (scheduler_internal_ip (cluster w)).
Qed.

Lemma IBMCodeEngineWorker_init_returned api a wc spec w tr wk w' tr' :
  run api (IBMCodeEngineWorker_init a wc spec) w tr = (Returned wk, w', tr') ->
  exists ip,
    scheduler_internal_ip (cluster w) = Assigned ip /\
    command wk =
      CmdList [ "python"; "-m"; "distributed.cli.dask_spec";
                "ws://" +:+ fmt ip +:+ ":80"; "--spec"; spec ] /\
    w' = w /\ tr' = tr.
Proof.
  unfold IBMCodeEngineWorker_init. rewrite run_bind.
  pose proof (IBMCodeEngine_init_pure api a w tr) as [H1 H2].
  destruct (run api (IBMCodeEngine_init a) w tr) as [[[self| |] w1] tr1];
    simpl in *; subst; try done.
  destruct (scheduler_internal_ip (cluster w)) as [|ip]; simpl; [done|].
  intros [= <- <- <-]. by exists ip.
Qed.

(** ** [start_scheduler] *)

(** When [start_scheduler] returns, the cluster holds the addresses of
    the scheduler it returns. *)
Lemma start_scheduler_returned api wfs fuel self w tr self' w' tr' :
  run api (start_scheduler wfs fuel self) w tr = (Returned self', w', tr') ->
  scheduler_internal_ip (cluster w') = Assigned (internal_ip self') /\
  scheduler_external_ip (cluster w') = Assigned (external_ip self') /\
  exists o w1 tr1,
    run api (create_vm fuel self) w tr = (Returned o, w1, tr1) /\
    internal_ip self' = o.1 /\ external_ip self' = o.2.
Proof.
  unfold start_scheduler. rewrite run_bind.
  destruct (run api (create_vm fuel self) w tr) as [[[o| |] w1] tr1];
    [|done..].
  simpl. destruct (protocol (cluster w1)) as [|proto]; [done|].
  rewrite run_bind.
  match goal with |- context [run api (wfs ?x) w1 tr1] =>
    destruct (run api (wfs x) w1 tr1) as [[[[]| |] w2] tr2] end; [|done..].
  simpl. intros [= <- <- <-]. simpl. eauto 10.
Qed.

Lemma IBMCodeEngineScheduler_start_returned api wfs fuel self w tr self' w' tr' :
  run api (IBMCodeEngineScheduler_start wfs fuel self) w tr
  = (Returned self', w', tr') ->
  scheduler_internal_ip (cluster w') = Assigned (internal_ip self').
Proof.
  unfold IBMCodeEngineScheduler_start. simpl.
  intros H. by apply start_scheduler_returned in H as [? _].
Qed.

(** ** The polling loop *)

(** As long as the application is not ready the loop turns. *)
Lemma poll_ready_waits api fuel self w tr :
  (forall j, (j < fuel)%nat -> not_ready api self (tr ++ polls self j)) ->
  run api (poll_ready fuel self) w tr = (Looping, w, tr ++ polls self fuel).
Proof.
  revert tr. induction fuel as [|n IH]; intros tr H; simpl.
  - by rewrite app_nil_r.
  - destruct (H 0%nat ltac:(lia)) as (app & st & Happ & Hst & Hne).
    simpl in Happ. rewrite app_nil_r in Happ. rewrite Happ. simpl.
    unfold item. rewrite Hst. simpl.
    apply String.eqb_neq in Hne. rewrite Hne. simpl.
    rewrite <- !app_assoc. simpl.
    rewrite (IH (tr ++ [Called (get_app_call (project_id self) (name self));
                        Slept])).
    + by rewrite <- app_assoc.
    + intros j Hj. rewrite <- app_assoc. apply (H (S j)). lia.
Qed.

(** The first answer that is ready ends the loop, and is its result. *)
Lemma poll_ready_returns api fuel self w tr k app :
  (k < fuel)%nat ->
  (forall j, (j < k)%nat -> not_ready api self (tr ++ polls self j)) ->
  api (tr ++ polls self k) (get_app_call (project_id self) (name self))
  = inr app ->
  app !! "status" = Some "ready" ->
  run api (poll_ready fuel self) w tr =
  (Returned app, w,
   tr ++ polls self k ++ [Called (get_app_call (project_id self) (name self))]).
Proof.
  revert fuel tr. induction k as [|k IH]; intros fuel tr Hk H Happ Hst.
  - destruct fuel as [|n]; [lia|]. simpl in *.
    rewrite app_nil_r in Happ. rewrite Happ. simpl.
    unfold item. by rewrite Hst.
  - destruct fuel as [|n]; [lia|]. simpl.
    destruct (H 0%nat ltac:(lia)) as (app0 & st & Happ0 & Hst0 & Hne).
    simpl in Happ0. rewrite app_nil_r in Happ0. rewrite Happ0. simpl.
    unfold item. rewrite Hst0. simpl.
    apply String.eqb_neq in Hne. rewrite Hne. simpl.
    rewrite <- !app_assoc. simpl.
    rewrite (IH n (tr ++ [Called (get_app_call (project_id self) (name self));
                          Slept])); try done.
    + by rewrite <- !app_assoc.
    + lia.
    + intros j Hj. rewrite <- app_assoc. apply (H (S j)). lia.
    + by rewrite <- app_assoc.
Qed.

Lemma urls_of_run api app w tr n iu i pu e :
  app !! "name" = Some n ->
  app !! "endpoint_internal" = Some iu -> after_slashes iu = inr i ->
  app !! "endpoint" = Some pu -> after_slashes pu = inr e ->
  run api (urls_of app) w tr = (Returned (Some i, Some e), w, tr).
Proof.
  intros Hn Hiu Hi Hpu He. unfold urls_of, item.
  rewrite Hn, Hiu, Hpu. simpl. rewrite Hi. simpl. by rewrite He.
Qed.

(** [create_vm] of a scheduler: the application is created, then polled. *)
Lemma create_vm_scheduler api fuel self s cmd w tr r :
  command self = CmdStr s -> python_command s = inr cmd ->
  api tr (create_app_call (scheduler_payload self cmd w)) = inr r ->
  run api (create_vm fuel self) w tr =
  match run api (poll_ready fuel self) w
          (tr ++ [Called (create_app_call (scheduler_payload self cmd w))]) with
  | (Returned app, w', tr') => run api (urls_of app) w' tr'
  | (Raised e, w', tr') => (Raised e, w', tr')
  | (Looping, w', tr') => (Looping, w', tr')
  end.
Proof.
  intros Hc Hp Hr. unfold create_vm. rewrite Hc, Hp. simpl.
  rewrite Hr. simpl. by rewrite run_bind.
Qed.

(** ** What [create_vm] may call *)

Section Calls.

Variable P : world -> ibm_call -> Prop.

Lemma wp_lift {A} (r : exn + A) (Q : A -> world -> Prop) w :
  (forall a, Q a w) -> wp P (lift r : co A) Q w.
Proof. intros HQ. destruct r; simpl; auto. Qed.

Lemma wp_poll_ready fuel self (Q : json -> world -> Prop) w :
  (forall w', P w' (get_app_call (project_id self) (name self))) ->
  (forall r w', Q r w') ->
  wp P (poll_ready fuel self) Q w.
Proof.
  intros HP HQ. revert w. induction fuel as [|n IH]; intros w; simpl; [done|].
  split; [done|]. intros [e|app] w'; simpl; [done|].
  destruct (item app "status") as [e|st]; simpl; [done|].
  destruct (String.eqb st "ready"); simpl; auto.
Qed.

Lemma wp_engine_create_vm fuel self
  (Q : option string * option string -> world -> Prop) w :
  (forall w' n, P w' (get_app_call (project_id self) n)) ->
  (forall w' n d, P w' (create_config_map_call (project_id self) n d)) ->
  (forall w' w0 cmd, P w' (create_app_call (scheduler_payload self cmd w0))) ->
  (forall w' cmd, P w' (create_job_run_call (worker_payload self cmd))) ->
  (forall i e w', Q (Some i, Some e) w') ->
  (forall w', Q (None, None) w') ->
  wp P (create_vm fuel self) Q w.
Proof.
  intros Hget Hmap Happ Hjob HQ1 HQ2. unfold create_vm.
  destruct (command self) as [|s|l]; simpl; [done| |].
  - destruct (python_command s) as [e|cmd]; simpl; [done|].
    split; [done|]. intros [e|r] w1; simpl; [done|].
    apply wp_bind, wp_poll_ready; [done|]. intros app w2.
    unfold urls_of.
    repeat (apply wp_bind, wp_lift; intros ?). simpl. done.
  - split; [done|]. intros [e|r] w1; simpl; [done|].
    split; [done|]. intros [e|r'] w2; simpl; done.
Qed.

End Calls.

End IBMFacts.

(* ===================================================================== *)
(** * Further facts *)
(* ===================================================================== *)

Module WordsFacts.

Import Py PyFacts Words.
Local Arguments String.append !_ _ / : simpl nomatch.

Lemma nospace_app (a b : string) :
  nospace (a +:+ b) = nospace a && nospace b.
Proof.
  induction a as [|c a IH]; simpl; [done|].
  rewrite IH. by rewrite andb_assoc.
Qed.

Lemma app_nonempty (a : string) (c : ascii) : a +:+ String c "" <> "".
Proof. by destruct a. Qed.

(** What [split_ws_go] returns are words, if what it has read is one. *)
Lemma split_ws_go_words (cur s : string) :
  nospace cur = true -> Forall (fun x => word x = true) (split_ws_go cur s).
Proof.
  revert cur. induction s as [|c s IH]; intros cur Hcur; simpl.
  - destruct cur; [constructor|]. by repeat constructor.
  - destruct (isspace c) eqn:Hc.
    + destruct cur as [|d cur]; [by apply IH|].
      constructor; [done|]. by apply IH.
    + apply IH. rewrite nospace_app, Hcur. simpl. by rewrite Hc.
Qed.

Lemma split_ws_words (s : string) :
  Forall (fun x => word x = true) (split_ws s).
Proof. by apply split_ws_go_words. Qed.

(** Reading through a run of characters that are not spaces. *)
Lemma split_ws_go_nospace (cur x rest : string) :
  nospace x = true ->
  split_ws_go cur (x +:+ rest) = split_ws_go (cur +:+ x) rest.
Proof.
  revert cur. induction x as [|c x IH]; intros cur Hx; simpl.
  - by rewrite app_empty_r.
  - simpl in Hx. apply andb_true_iff in Hx as [Hc Hx].
    apply negb_true_iff in Hc. rewrite Hc, IH by done.
    by rewrite app_assoc.
Qed.

Lemma split_ws_go_space (x rest : string) :
  x <> "" -> split_ws_go x (" " +:+ rest) = x :: split_ws_go "" rest.
Proof. intros Hx. by destruct x. Qed.

(** [split] undoes [join] on words. *)
Lemma split_ws_join (l : list string) :
  Forall (fun x => word x = true) l -> split_ws (join " " l) = l.
Proof.
  unfold split_ws. induction l as [|x l IH]; intros Hl; [done|].
  apply Forall_cons in Hl as [Hx Hl].
  assert (nospace x = true /\ x <> "") as [Hns Hne] by by destruct x.
  destruct l as [|y l].
  - simpl. rewrite <- (app_empty_r x) at 1.
    rewrite split_ws_go_nospace by done. simpl. by destruct x.
  - change (join " " (x :: y :: l)) with (x +:+ " " +:+ join " " (y :: l)).
    rewrite split_ws_go_nospace by done.
    change ("" +:+ x) with x.
    rewrite split_ws_go_space by done. by rewrite IH.
Qed.

Lemma join_app (sep : string) (l1 l2 : list string) :
  l1 <> [] -> l2 <> [] ->
  join sep (l1 ++ l2) = join sep l1 +:+ sep +:+ join sep l2.
Proof.
  intros H1 H2. induction l1 as [|x l1 IH]; [done|].
  destruct l1 as [|y l1].
  - simpl. by destruct l2.
  - change (join sep ((x :: y :: l1) ++ l2))
      with (x +:+ sep +:+ join sep ((y :: l1) ++ l2)).
    rewrite IH by done.
    change (join sep (x :: y :: l1)) with (x +:+ sep +:+ join sep (y :: l1)).
    by rewrite !app_assoc.
Qed.

Lemma index_first_lt {A} (p : A -> bool) (l : list A) (i : nat) :
  index_first p l = Some i ->
  (i < length l)%nat /\ (exists x, l !! i = Some x /\ p x = true) /\
  Forall (fun x => p x = false) (take i l).
Proof.
  revert i. induction l as [|x l IH]; intros i; simpl; [done|].
  destruct (p x) eqn:Hx.
  - intros [= <-]. split; [lia|]. split; [by exists x|]. constructor.
  - destruct (index_first p l) as [j|]; simpl; [|done].
    intros [= <-]. destruct (IH j eq_refl) as (Hj & Hex & Hbefore).
    split; [lia|]. split; [done|]. simpl. by constructor.
Qed.

Lemma index_first_None {A} (p : A -> bool) (l : list A) :
  index_first p l = None <-> Forall (fun x => p x = false) l.
Proof.
  induction l as [|x l IH]; simpl; [by split; [constructor|]|].
  destruct (p x) eqn:Hx.
  - split; [done|]. intros H. apply Forall_cons in H as [H _]. congruence.
  - destruct (index_first p l); simpl.
    + split; [done|]. intros H. apply Forall_cons in H as [_ H].
      by apply IH in H.
    + split; [|done]. intros _. constructor; [done|]. by apply IH.
Qed.

End WordsFacts.

Module SplitFacts.

Import Py PyFacts Words.
Local Arguments String.append !_ _ / : simpl nomatch.

Lemma split_go_length (sep : string) (k : nat) (cur s : string) :
  (1 <= length (split_go sep k cur s))%nat.
Proof.
  revert k cur. induction s as [|c s IH]; intros k cur; simpl; [lia|].
  destruct k; [|apply IH].
  destruct (startswith sep (String c s)); [simpl; lia|apply IH].
Qed.

(** There is a second piece exactly when the separator occurs. *)
Lemma split_go_second (a : ascii) (b cur s : string) :
  (2 <= length (split_go (String a b) 0 cur s))%nat
  <-> contains (String a b) s = true.
Proof.
  revert cur. induction s as [|c s IH]; intros cur.
  - simpl. split; [lia|done].
  - cbn [split_go contains].
    destruct (startswith (String a b) (String c s)) eqn:E.
    + split; [done|]. intros _. cbn [length].
      pose proof (split_go_length (String a b)
                    (String.length (String a b) - 1) "" s). lia.
    + apply IH.
Qed.

Lemma split_go_noslash (p cur rest : string) :
  noslash p = true ->
  split_go "//" 0 cur (p +:+ rest) = split_go "//" 0 (cur +:+ p) rest.
Proof.
  revert cur. induction p as [|c p IH]; intros cur Hp.
  - simpl. by rewrite app_empty_r.
  - simpl in Hp. apply andb_true_iff in Hp as [Hc Hp].
    apply negb_true_iff in Hc.
    change (String c p +:+ rest) with (String c (p +:+ rest)).
    cbn [split_go startswith].
    rewrite Ascii.eqb_sym, Hc, IH by done. by rewrite app_assoc.
Qed.

Lemma split_go_absent (sep cur s : string) :
  contains sep s = false -> split_go sep 0 cur s = [cur +:+ s].
Proof.
  revert cur. induction s as [|c s IH]; intros cur; cbn [split_go contains].
  - intros _. by rewrite app_empty_r.
  - destruct (startswith sep (String c s)); [done|].
    intros H. rewrite IH by done. by rewrite app_assoc.
Qed.

End SplitFacts.

Module FramesFacts.

Import Py Async AsyncFacts Frames.

Section ReadsOnly.

Context {St Call Resp : Type}.

Lemma reads_only_bind {A B} (m : coro St Call Resp A)
  (f : A -> coro St Call Resp B) :
  reads_only m -> (forall a, reads_only (f a)) -> reads_only (bind m f).
Proof. intros Hm Hf. induction m; simpl in *; eauto. Qed.

Lemma reads_only_lift {A} (r : exn + A) :
  reads_only (lift r : coro St Call Resp A).
Proof. by destruct r. Qed.

Lemma reads_only_call (c : Call) : reads_only (call c : coro St Call Resp Resp).
Proof. by intros [e|r]. Qed.

Lemma run_reads_only {A} (api : provider Call Resp) (m : coro St Call Resp A)
  (s : St) (tr : list (event Call)) :
  reads_only m -> (run api m s tr).1.2 = s.
Proof.
  revert s tr. induction m; intros s0 tr Hm; simpl in *; eauto. done.
Qed.

End ReadsOnly.

End FramesFacts.

Module IBMMore.

Import Py Async AsyncFacts Frames FramesFacts IBM IBMFacts.
Local Open Scope coro_scope.

Lemma poll_ready_reads_only fuel self : reads_only (poll_ready fuel self).
Proof.
  induction fuel as [|n IH]; simpl; [done|].
  intros [e|app]; simpl; [done|].
  destruct (item app "status") as [e|st]; simpl; [done|].
  by destruct (String.eqb st "ready").
Qed.

Lemma urls_of_reads_only app : reads_only (urls_of app).
Proof.
  unfold urls_of.
  repeat (apply reads_only_bind; [apply reads_only_lift|intros ?]). done.
Qed.

Lemma create_vm_reads_only fuel self : reads_only (create_vm fuel self).
Proof.
  unfold create_vm. destruct (command self) as [|s|l]; [done| |].
  - apply reads_only_bind; [apply reads_only_lift|]. intros cmd.
    simpl. intros w [e|r]; simpl; [done|].
    apply reads_only_bind; [apply poll_ready_reads_only|].
    apply urls_of_reads_only.
  - simpl. intros w [e|r]; simpl; [done|]. by intros [e|r'].
Qed.

(** The first answer that is not "not ready" decides the loop. *)
Lemma poll_ready_skips api fuel self w tr k :
  (k <= fuel)%nat ->
  (forall j, (j < k)%nat -> not_ready api self (tr ++ polls self j)) ->
  run api (poll_ready fuel self) w tr
  = run api (poll_ready (fuel - k) self) w (tr ++ polls self k).
Proof.
  revert fuel tr. induction k as [|k IH]; intros fuel tr Hk H.
  - simpl. by rewrite Nat.sub_0_r, app_nil_r.
  - destruct fuel as [|n]; [lia|].
    destruct (H 0%nat ltac:(lia)) as (app & st & Happ & Hst & Hne).
    simpl in Happ. rewrite app_nil_r in Happ.
    cbn [poll_ready]. unfold call. cbn [bind run]. rewrite Happ.
    cbn [bind run lift]. unfold item. rewrite Hst. cbn [bind run lift].
    apply String.eqb_neq in Hne. rewrite Hne. cbn [run].
    rewrite <- !List.app_assoc. cbn [List.app].
    rewrite (IH n (tr ++ [Called (get_app_call (project_id self) (name self));
                          Slept])).
    + by rewrite <- List.app_assoc.
    + lia.
    + intros j Hj. rewrite <- List.app_assoc. apply (H (S j)). lia.
Qed.

(** The calls of [create_vm], exactly. *)
Lemma wp_create_vm_calls (P : world -> ibm_call -> Prop) fuel self
  (Q : option string * option string -> world -> Prop) w :
  (forall w', P w' (get_app_call (project_id self) (name self))) ->
  (forall w' w0,
     P w' (create_config_map_call (project_id self) (name self)
             [(INHERIT, global_config w0)])) ->
  (forall w' w0 cmd, P w' (create_app_call (scheduler_payload self cmd w0))) ->
  (forall w' cmd, P w' (create_job_run_call (worker_payload self cmd))) ->
  (forall r w', Q r w') ->
  wp P (create_vm fuel self) Q w.
Proof.
  intros Hget Hmap Happ Hjob HQ. unfold create_vm.
  destruct (command self) as [|s|l]; simpl; [done| |].
  - destruct (python_command s) as [e|cmd]; simpl; [done|].
    split; [done|]. intros [e|r] w1; simpl; [done|].
    apply wp_bind, wp_poll_ready; [done|]. intros app w2.
    unfold urls_of.
    repeat (apply wp_bind, wp_lift; intros ?). simpl. done.
  - split; [done|]. intros [e|r] w1; simpl; [done|].
    split; [done|]. intros [e|r'] w2; simpl; done.
Qed.

End IBMMore.

Module FlyMore.

Import Py Async AsyncFacts Fly FlyFacts.
Local Open Scope coro_scope.

Implicit Types (api : provider fly_call pyval) (w : world)
  (tr : list (event fly_call)) (self : FlyMachine).

Lemma cluster_wait_for_app_closed api fuel w tr :
  closed w = true ->
  run api (cluster_wait_for_app fuel) w tr
  = (Looping, w, tr ++ repeat Slept fuel).
Proof.
  intros Hw. unfold closed in Hw. rewrite orb_comm in Hw.
  revert tr. induction fuel as [|n IH]; intros tr; simpl.
  - by rewrite app_nil_r.
  - rewrite Hw. simpl. rewrite IH. by rewrite <- List.app_assoc.
Qed.

Lemma cluster_wait_for_app_open api fuel w tr :
  closed w = false ->
  run api (cluster_wait_for_app (S fuel)) w tr = (Returned tt, w, tr).
Proof.
  intros Hw. unfold closed in Hw. rewrite orb_comm in Hw.
  simpl. by rewrite Hw.
Qed.

Lemma closed_with_client w : closed (with_client w) = closed w.
Proof. unfold with_client. by destruct (_client (cluster w)). Qed.

Lemma app_name_with_client w :
  app_name (cluster (with_client w)) = app_name (cluster w).
Proof. unfold with_client. by destruct (_client (cluster w)). Qed.

(** [create_vm] once the application is there. *)
Lemma create_vm_open api fuel self w tr :
  closed w = false ->
  run api (create_vm (S fuel) self) w tr =
  let c := create_machine_call (app_name (cluster w)) (machine_config self w)
             (name self) (region self) in
  match api tr c with
  | inl e => (Raised e, with_client w, tr ++ [Called c])
  | inr (PyMachine m) =>
      let self' :=
        after_create self (PyMachine m) (private_ip m) (id m) (with_client w) in
      (Returned (self', (address self', external_address self')),
       with_client w, tr ++ [Called c])
  | inr _ => (Raised (AttributeError "private_ip"), with_client w,
              tr ++ [Called c])
  end.
Proof.
  intros Hw. unfold create_vm, closed in *. simpl. rewrite Hw. simpl.
  unfold with_client.
  destruct (_client (cluster w)); simpl;
    match goal with |- context [api tr ?c] =>
      destruct (api tr c) as [e|[]]; done end.
Qed.

(** The calls of [create_vm], for any property of calls. *)
Lemma wp_start_scheduler_calls (P : world -> fly_call -> Prop) fuel self
  (Q : FlyMachine -> world -> Prop) w :
  (forall w0 w',
     P w' (create_machine_call (app_name (cluster w'))
             (machine_config self w0) (name self) (region self))) ->
  (forall r w', Q r w') ->
  wp P (start_scheduler fuel self) Q w.
Proof.
  intros HP HQ. unfold start_scheduler.
  apply wp_bind, wp_create_vm; [by intros ? ? _|].
  intros m w1 self'. apply wp_bind, wp_wait_for_scheduler. intros w2.
  simpl. apply HQ.
Qed.

Lemma wp_scheduler_start_calls (P : world -> fly_call -> Prop) fuel u self
  (Q : FlyMachine -> world -> Prop) w :
  (forall w' n, P w' (create_app_call n)) ->
  (forall w0 w',
     P w' (create_machine_call (app_name (cluster w'))
             (machine_config self w0) (name self) (region self))) ->
  (forall r w', Q r w') ->
  wp P (FlyMachineScheduler_start fuel u self) Q w.
Proof.
  intros Happ HP HQ. unfold FlyMachineScheduler_start, get. cbn [bind wp].
  apply wp_bind.
  assert (forall w',
    wp P
      (bind (cluster_wait_for_app fuel) (fun _ =>
         bind (start_scheduler fuel self) (fun self' =>
           Ret (with_address self' (address self')
                  (external_address self') true)))) Q w') as Hrest.
  { intros w'. apply wp_bind, wp_cluster_wait_for_app. intros w1 _.
    apply wp_bind, wp_start_scheduler_calls; [done|]. intros r w2. simpl.
    apply HQ. }
  destruct (is_none (app (cluster w))).
  - apply wp_create_app; [done|]. by intros.
  - apply Hrest.
Qed.

(** [FlyMachineScheduler.start] when only one of [app] and [app_name] is
    set. *)
Lemma scheduler_start_closed api fuel u self w tr :
  is_none (app (cluster w)) = negb (is_None (app_name (cluster w))) ->
  run api (FlyMachineScheduler_start fuel u self) w tr
  = (Looping, w, tr ++ repeat Slept fuel).
Proof.
  intros H. unfold FlyMachineScheduler_start. simpl.
  rewrite run_bind.
  assert (closed w = true) as Hc.
  { unfold closed. rewrite H. by destruct (is_None _). }
  destruct (is_none (app (cluster w))) eqn:Happ.
  - rewrite create_app_run.
    destruct (app_name (cluster w)); [|done].
    by rewrite run_bind, cluster_wait_for_app_closed.
  - simpl. by rewrite run_bind, cluster_wait_for_app_closed.
Qed.

End FlyMore.

Module FlyStart.

Import Py Async AsyncFacts Fly FlyFacts FlyCluster FlyMore.
Local Open Scope coro_scope.

Implicit Types (api : provider fly_call pyval) (w : world)
  (tr : list (event fly_call)) (self : FlyMachine).

Lemma calls_Slept (n : nat) : calls (repeat (@Slept fly_call) n) = [].
Proof. induction n; [done|]. simpl. done. Qed.

Lemma start_rest_closed api fuel self w tr :
  closed w = true ->
  run api (start_rest fuel self) w tr = (Looping, w, tr ++ repeat Slept fuel).
Proof.
  intros Hc. unfold start_rest.
  by rewrite run_bind, cluster_wait_for_app_closed.
Qed.

Lemma start_rest_open api fuel self w tr :
  closed w = false ->
  run api (start_rest (S fuel) self) w tr =
  let c := create_machine_call (app_name (cluster w)) (machine_config self w)
             (name self) (region self) in
  match api tr c with
  | inl e => (Raised e, with_client w, tr ++ [Called c])
  | inr (PyMachine m) =>
      let self' :=
        after_create self (PyMachine m) (private_ip m) (id m) (with_client w) in
      (Returned (with_address self' (address self') (external_address self')
                   true),
       on_cluster (set_scheduler_port (port self'))
         (on_cluster (set_scheduler_internal_address (address self'))
            (with_client w)),
       tr ++ [Called c])
  | inr _ => (Raised (AttributeError "private_ip"), with_client w,
              tr ++ [Called c])
  end.
Proof.
  intros Hopen. unfold start_rest.
  rewrite run_bind, cluster_wait_for_app_open by done.
  rewrite run_bind. unfold start_scheduler.
  rewrite run_bind, create_vm_open by done. cbv zeta.
  destruct (api tr _) as [e|[| | |m]]; try done.
Qed.

Lemma scheduler_start_unfold api fuel u self w tr :
  run api (FlyMachineScheduler_start fuel u self) w tr =
  run api ((if is_none (app (cluster w)) then create_app u else Ret tt) ;;
           start_rest fuel self) w tr.
Proof. done. Qed.

End FlyStart.

Module WritesFacts.

Import Py Async AsyncFacts Writes.

Section Steps.

Context {St Call Resp : Type}.
Variable R : St -> St -> Prop.
Hypothesis R_refl : forall s, R s s.
Hypothesis R_trans : forall s1 s2 s3, R s1 s2 -> R s2 s3 -> R s1 s3.

Lemma steps_bind {A B} (m : coro St Call Resp A)
  (f : A -> coro St Call Resp B) s :
  steps R m s -> (forall a s', steps R (f a) s') -> steps R (bind m f) s.
Proof.
  intros Hm Hf. revert s Hm.
  induction m as [a|e|k IH|s' k IH|c k IH|k IH|]; simpl; eauto.
  intros s [H1 H2]. eauto.
Qed.

Lemma steps_try_except {A} (m : coro St Call Resp A)
  (h : exn -> coro St Call Resp A) s :
  steps R m s -> (forall e s', steps R (h e) s') ->
  steps R (try_except m h) s.
Proof.
  intros Hm Hh. revert s Hm.
  induction m as [a|e|k IH|s' k IH|c k IH|k IH|]; simpl; eauto.
  intros s [H1 H2]. eauto.
Qed.

Lemma steps_call (c : Call) s : steps R (call c : coro St Call Resp Resp) s.
Proof. by intros [e|r] s'. Qed.

Lemma steps_modify (f : St -> St) s :
  (forall s', R s' (f s')) -> steps R (modify f : coro St Call Resp unit) s.
Proof. intros Hf. simpl. auto. Qed.

Lemma advance_steps {A} (m : coro St Call Resp A) s :
  steps R m s -> R s (advance m s).2 /\ task_steps R (advance m s).1.
Proof using R_refl R_trans.
  revert s. induction m as [a|e|k IH|s' k IH|c k IH|k IH|]; simpl;
    intros s Hm; eauto.
  destruct Hm as [H1 H2]. destruct (IH _ H2) as [H3 H4]. eauto.
Qed.

Lemma resume_steps {A} api (t : task St Call Resp A) s tr :
  task_steps R t ->
  R s (resume api t s tr).1.2 /\ task_steps R (resume api t s tr).1.1.
Proof using R_refl R_trans.
  intros Ht. destruct t as [m|c k|k|o]; simpl in *.
  - pose proof (advance_steps m s (Ht s)) as H. by destruct (advance m s).
  - pose proof (advance_steps _ s (Ht (api tr c) s)) as H.
    by destruct (advance _ s).
  - pose proof (advance_steps k s (Ht s)) as H. by destruct (advance k s).
  - done.
Qed.

Lemma turn_steps {A} api (l : loop St Call Resp A) i :
  Forall (task_steps R) (tasks l) ->
  R (shared l) (shared (turn api l i)) /\
  Forall (task_steps R) (tasks (turn api l i)).
Proof using R_refl R_trans.
  intros Hl. unfold turn. destruct (tasks l !! i) as [t|] eqn:Hi; [|done].
  pose proof (resume_steps api t (shared l) (history l)) as H.
  destruct (resume api t (shared l) (history l)) as [[t' s'] tr']. simpl in *.
  destruct H as [H1 H2]; [by eapply Forall_lookup_1|].
  split; [done|]. by apply Forall_insert.
Qed.

Lemma run_schedule_steps {A} api (l : loop St Call Resp A) sched :
  Forall (task_steps R) (tasks l) ->
  R (shared l) (shared (run_schedule api l sched)).
Proof using R_refl R_trans.
  revert l. induction sched as [|i sched IH]; intros l Hl; [done|].
  destruct (turn_steps api l i Hl) as [H1 H2].
  simpl. eapply R_trans; [exact H1|]. by apply IH.
Qed.

Lemma run_steps {A} api (m : coro St Call Resp A) s tr :
  steps R m s -> R s (run api m s tr).1.2.
Proof using R_refl R_trans.
  revert s tr. induction m as [a|e|k IH|s' k IH|c k IH|k IH|]; simpl;
    intros s tr Hm; eauto.
  destruct Hm as [H1 H2]. eauto.
Qed.

End Steps.

Import Fly.
Local Open Scope coro_scope.

Lemma same_setup_refl w : same_setup w w.
Proof. by repeat split. Qed.

Lemma same_setup_trans w1 w2 w3 :
  same_setup w1 w2 -> same_setup w2 w3 -> same_setup w1 w3.
Proof.
  intros (H1 & H2 & H3 & H4 & H5 & H6) (G1 & G2 & G3 & G4 & G5 & G6).
  repeat split; try congruence; [|by auto].
  intros Hk. rewrite G5, H5; [done..|]. by rewrite H5.
Qed.

Lemma same_setup_cluster (f : FlyMachineCluster -> FlyMachineCluster) w :
  api_token (f (cluster w)) = api_token (cluster w) ->
  uuid (f (cluster w)) = uuid (cluster w) ->
  _client (f (cluster w)) = _client (cluster w) ->
  (app_name (cluster w) <> None -> app_name (f (cluster w)) <> None) ->
  same_setup w (on_cluster f w).
Proof. intros H1 H2 H3 H4. by repeat split. Qed.

Lemma steps__fly w : steps same_setup (_fly : co unit) w.
Proof.
  unfold _fly. simpl. destruct (_client (cluster w)) eqn:E; simpl; [done|].
  split; [|done]. repeat split; try done.
Qed.

Lemma steps_wait_for_app fuel w : steps same_setup (wait_for_app fuel) w.
Proof.
  revert w. induction fuel as [|n IH]; intros w; simpl; [done|].
  by destruct (_ || _).
Qed.

Lemma steps_cluster_wait_for_app fuel w :
  steps same_setup (cluster_wait_for_app fuel) w.
Proof.
  revert w. induction fuel as [|n IH]; intros w; simpl; [done|].
  by destruct (_ || _).
Qed.

Lemma steps_wait_for_scheduler fuel self w :
  steps same_setup (wait_for_scheduler fuel self) w.
Proof. by destruct fuel. Qed.

Lemma steps_create_vm fuel self w : steps same_setup (create_vm fuel self) w.
Proof.
  unfold create_vm, get. cbn [bind steps].
  apply steps_bind; [apply steps_wait_for_app|]. intros _ w1.
  apply steps_bind; [apply steps__fly|]. intros _ w2. cbn [bind steps].
  apply steps_bind; [apply steps_call|]. intros r w3.
  by destruct r.
Qed.

Lemma steps_destroy_vm self w : steps same_setup (destroy_vm self) w.
Proof.
  unfold destroy_vm. destruct (is_none (machine self)); [done|].
  apply steps_bind; [apply steps__fly|]. intros _ w1. cbn [bind steps get].
  destruct (machine self); try done.
  apply steps_bind; [apply steps_call|]. done.
Qed.

Lemma steps_create_app u w : steps same_setup (create_app u) w.
Proof.
  unfold create_app, get. cbn [bind steps].
  destruct (negb _); [done|]. cbv zeta.
  apply steps_try_except.
  - apply steps_bind; [apply steps__fly|]. intros _ w1.
    apply steps_bind; [apply steps_call|]. intros r w2.
    apply steps_bind; intros; apply steps_modify; intros;
      by apply same_setup_cluster.
  - intros e w1. apply steps_bind; [|done].
    apply steps_modify. intros. by apply same_setup_cluster.
Qed.

Lemma steps_delete_app w : steps same_setup delete_app w.
Proof.
  unfold delete_app, get. cbn [bind steps].
  destruct (app_name (cluster w)); [|done].
  apply steps_bind; [apply steps__fly|]. intros _ w1.
  apply steps_bind; [apply steps_call|]. done.
Qed.

Lemma steps_start_scheduler fuel self w :
  steps same_setup (start_scheduler fuel self) w.
Proof.
  unfold start_scheduler.
  apply steps_bind; [apply steps_create_vm|]. intros r w1. cbv zeta.
  apply steps_bind; [apply steps_wait_for_scheduler|]. intros _ w2.
  apply steps_bind; [apply steps_modify; intros; by apply same_setup_cluster|].
  intros _ w3.
  apply steps_bind; [apply steps_modify; intros; by apply same_setup_cluster|].
  done.
Qed.

Lemma steps_scheduler_start fuel u self w :
  steps same_setup (FlyMachineScheduler_start fuel u self) w.
Proof.
  unfold FlyMachineScheduler_start, get. cbn [bind steps].
  apply steps_bind.
  - destruct (is_none _); [apply steps_create_app|done].
  - intros _ w1.
    apply steps_bind; [apply steps_cluster_wait_for_app|]. intros _ w2.
    apply steps_bind; [apply steps_start_scheduler|]. done.
Qed.

Lemma steps_start_worker fuel self w :
  steps same_setup (start_worker fuel self) w.
Proof.
  unfold start_worker. apply steps_bind; [apply steps_create_vm|]. done.
Qed.

Lemma steps_code (j : job) w : steps same_setup (code j) w.
Proof.
  destruct j as [u| |fuel|fuel u self|fuel self|self]; simpl code.
  - apply steps_create_app.
  - apply steps_delete_app.
  - apply steps_cluster_wait_for_app.
  - apply steps_bind; [apply steps_scheduler_start|done].
  - apply steps_bind; [apply steps_start_worker|done].
  - apply steps_destroy_vm.
Qed.

End WritesFacts.

Module RelyFacts.

Import Py Async AsyncFacts Rely.

Section Guarantee.

Context {St Call Resp : Type}.
Variable R : St -> St -> Prop.
Hypothesis R_refl : forall s, R s s.
Hypothesis R_trans : forall s1 s2 s3, R s1 s2 -> R s2 s3 -> R s1 s3.

Implicit Types (P : St -> Call -> Prop).

Lemma wpr_mono {A} P (m : coro St Call Resp A) (Q Q' : A -> St -> Prop) s :
  wpr R P m Q s -> (forall a s', Q a s' -> Q' a s') -> wpr R P m Q' s.
Proof.
  intros Hm HQ. revert s Hm.
  induction m as [a|e|k IH|s' k IH|c k IH|k IH|]; simpl; eauto.
  - intros s [H1 H2]. eauto.
  - intros s [H1 H2]. eauto.
Qed.

Lemma wpr_bind {A B} P (m : coro St Call Resp A)
  (f : A -> coro St Call Resp B) (Q : B -> St -> Prop) s :
  wpr R P m (fun a s' => wpr R P (f a) Q s') s -> wpr R P (bind m f) Q s.
Proof.
  revert s. induction m as [a|e|k IH|s' k IH|c k IH|k IH|]; simpl; eauto.
  - intros s [H1 H2]. eauto.
  - intros s [H1 H2]. eauto.
Qed.

Lemma wpr_try_except {A} P (m : coro St Call Resp A)
  (h : exn -> coro St Call Resp A) (Q : A -> St -> Prop) s :
  wpr R P m Q s -> (forall e s', wpr R P (h e) Q s') ->
  wpr R P (try_except m h) Q s.
Proof.
  intros Hm Hh. revert s Hm.
  induction m as [a|e|k IH|s' k IH|c k IH|k IH|]; simpl; eauto.
  - intros s [H1 H2]. eauto.
  - intros s [H1 H2]. eauto.
Qed.

Lemma wpr_modify P (f : St -> St) (Q : unit -> St -> Prop) s :
  R s (f s) -> Q tt (f s) -> wpr R P (modify f : coro St Call Resp unit) Q s.
Proof. by intros H1 H2. Qed.

Lemma task_wpr_mono {A} P (t : task St Call Resp A) s s' :
  R s s' -> task_wpr R P t s -> task_wpr R P t s'.
Proof using R_trans.
  intros Hs. destruct t as [m|c k|k|o]; simpl; eauto.
Qed.

(** Running to the next suspension point. *)
Lemma advance_wpr {A} P (m : coro St Call Resp A) s :
  wpr R P m (fun _ _ => True) s ->
  R s (advance m s).2 /\
  task_wpr R P (advance m s).1 (advance m s).2 /\
  forall c, emitted (advance m s).1 = [Called c] -> P (advance m s).2 c.
Proof using R_refl R_trans.
  revert s. induction m as [a|e|k IH|s' k IH|c k IH|k IH|]; simpl;
    intros s Hm.
  - by repeat split.
  - by repeat split.
  - by apply IH.
  - destruct Hm as [H1 H2]. destruct (IH _ H2) as (H3 & H4 & H5). eauto.
  - destruct Hm as [H1 H2]. split; [done|]. split; [done|].
    by intros c' [= <-].
  - by repeat split.
  - by repeat split.
Qed.

Lemma resume_wpr {A} api P (t : task St Call Resp A) s tr :
  task_wpr R P t s ->
  R s (resume api t s tr).1.2 /\
  task_wpr R P (resume api t s tr).1.1 (resume api t s tr).1.2 /\
  forall c, (resume api t s tr).2 = tr ++ [Called c] ->
            P (resume api t s tr).1.2 c.
Proof using R_refl R_trans.
  intros Ht.
  assert (forall m : coro St Call Resp A,
             wpr R P m (fun _ _ => True) s ->
             let r := advance m s in
             R s r.2 /\ task_wpr R P r.1 r.2 /\
             forall c, tr ++ emitted r.1 = tr ++ [Called c] -> P r.2 c) as H.
  { intros m Hm. destruct (advance_wpr P m s Hm) as (H1 & H2 & H3).
    split; [done|]. split; [done|].
    intros c Hc. apply H3. by apply app_inv_head in Hc. }
  destruct t as [m|c k|k|o]; simpl in *.
  - specialize (H m (Ht s (R_refl s))). by destruct (advance m s).
  - specialize (H _ (Ht (api tr c) s (R_refl s))). by destruct (advance _ s).
  - specialize (H _ (Ht s (R_refl s))). by destruct (advance k s).
  - split; [done|]. split; [done|]. intros c Hc.
    rewrite <- (app_nil_r tr) in Hc at 1. by apply app_inv_head in Hc.
Qed.

(** One turn of the loop: the task that runs takes [R]-steps and makes
    only a call its own condition allows, and every task goes on keeping
    to [R] and to its condition. *)
Lemma turn_wpr {A} api Ps (l : loop St Call Resp A) i :
  loop_wpr R Ps l ->
  loop_wpr R Ps (turn api l i) /\
  forall P c, Ps !! i = Some P ->
              history (turn api l i) = history l ++ [Called c] ->
              P (shared (turn api l i)) c.
Proof using R_refl R_trans.
  unfold loop_wpr, turn. intros Hl.
  destruct (tasks l !! i) as [t|] eqn:Hi.
  - destruct (Forall2_lookup_r _ _ _ _ _ Hl Hi) as (P & HP & Ht).
    pose proof (resume_wpr api P t (shared l) (history l) Ht) as H.
    destruct (resume api t (shared l) (history l)) as [[t' s'] tr'].
    simpl in *. destruct H as (H1 & H2 & H3). split.
    + rewrite <- (list_insert_id Ps i P HP).
      apply Forall2_insert; [|done].
      eapply Forall2_impl; [exact Hl|].
      intros P0 t0. by apply task_wpr_mono.
    + intros P0 c HP0 Hc. rewrite HP in HP0. injection HP0 as <-. auto.
  - split; [done|]. intros P c _ Hc.
    rewrite <- (app_nil_r (history l)) in Hc at 1.
    by apply app_inv_head in Hc.
Qed.

Lemma run_schedule_wpr {A} api Ps (l : loop St Call Resp A) sched :
  loop_wpr R Ps l -> loop_wpr R Ps (run_schedule api l sched).
Proof using R_refl R_trans.
  revert l. induction sched as [|i sched IH]; intros l Hl; [done|].
  apply IH. by apply turn_wpr.
Qed.

End Guarantee.

End RelyFacts.

Module OrchestratorFacts.

Import Py Async AsyncFacts Rely RelyFacts Fly Orchestrator.
Local Open Scope coro_scope.

Implicit Types (P : world -> fly_call -> Prop) (w s : world)
  (self : FlyMachine).

Lemma address_kept_refl w : address_kept w w.
Proof. by intros H. Qed.

Lemma address_kept_trans w1 w2 w3 :
  address_kept w1 w2 -> address_kept w2 w3 -> address_kept w1 w3.
Proof. unfold address_kept. auto. Qed.

Create HintDb kept.
Local Hint Resolve address_kept_refl address_kept_trans : kept.

(** Assignments that leave the scheduler's address alone. *)
Lemma address_kept_cluster (f : FlyMachineCluster -> FlyMachineCluster) w :
  scheduler_internal_address (f (cluster w))
  = scheduler_internal_address (cluster w) ->
  address_kept w (on_cluster f w).
Proof. unfold address_kept, address_recorded. simpl. by intros ->. Qed.

Lemma wpr__fly P (Q : unit -> world -> Prop) s :
  (forall s', address_kept s s' -> Q tt s') ->
  wpr address_kept P (_fly : co unit) Q s.
Proof.
  intros HQ. unfold _fly. simpl. destruct (_client (cluster s)); simpl.
  - apply HQ, address_kept_refl.
  - split; [by apply address_kept_cluster|].
    by apply HQ, address_kept_cluster.
Qed.

Lemma wpr_wait_for_app P fuel (Q : unit -> world -> Prop) s :
  (forall s', address_kept s s' -> Q tt s') ->
  wpr address_kept P (wait_for_app fuel) Q s.
Proof.
  revert s. induction fuel as [|n IH]; intros s HQ; simpl; [done|].
  destruct (_ || _); simpl.
  - intros s' Hs. apply IH. intros s2 H2. apply HQ. eauto with kept.
  - apply HQ, address_kept_refl.
Qed.

Lemma wpr_cluster_wait_for_app P fuel (Q : unit -> world -> Prop) s :
  (forall s', address_kept s s' -> Q tt s') ->
  wpr address_kept P (cluster_wait_for_app fuel) Q s.
Proof.
  revert s. induction fuel as [|n IH]; intros s HQ; simpl; [done|].
  destruct (_ || _); simpl.
  - intros s' Hs. apply IH. intros s2 H2. apply HQ. eauto with kept.
  - apply HQ, address_kept_refl.
Qed.

Lemma wpr_wait_for_scheduler P fuel self (Q : unit -> world -> Prop) s :
  Q tt s -> wpr address_kept P (wait_for_scheduler fuel self) Q s.
Proof. intros HQ. by destruct fuel. Qed.

(** [create_vm]: its one call asks for a machine of the instance's name
    and region, and what it returns has an address. *)
Lemma wpr_create_vm P fuel self
  (Q : FlyMachine * (option string * option string) -> world -> Prop) s :
  (forall s' n config, address_kept s s' ->
     P s' (create_machine_call n config (name self) (region self))) ->
  (forall r s', address_kept s s' -> is_Some r.2.1 -> Q r s') ->
  wpr address_kept P (create_vm fuel self) Q s.
Proof.
  intros HP HQ. unfold create_vm, get. cbn [bind wpr].
  apply wpr_bind, wpr_wait_for_app. intros s1 H1.
  apply wpr_bind, wpr__fly. intros s2 H2. cbn [bind wpr].
  unfold call. cbn [bind wpr]. split.
  { apply HP. eauto with kept. }
  intros [e|r] s3 H3; simpl; [done|].
  destruct r as [| | |m]; simpl; try done.
  apply HQ; [eauto with kept|]. by eexists.
Qed.

Lemma wpr_destroy_vm P self (Q : unit -> world -> Prop) s :
  (forall s' n i, P s' (delete_machine_call n i true)) ->
  (forall s', address_kept s s' -> Q tt s') ->
  wpr address_kept P (destroy_vm self) Q s.
Proof.
  intros HP HQ. unfold destroy_vm.
  destruct (is_none (machine self)); simpl; [apply HQ, address_kept_refl|].
  apply wpr_bind, wpr__fly. intros s1 H1. cbn [bind wpr get].
  destruct (machine self) as [| | |m]; simpl; try done.
  split; [done|]. intros [e|r] s2 H2; simpl; [done|].
  apply HQ. eauto with kept.
Qed.

Lemma wpr_create_app P u (Q : unit -> world -> Prop) s :
  (forall s' n, P s' (create_app_call n)) ->
  (forall s', address_kept s s' -> Q tt s') ->
  wpr address_kept P (create_app u) Q s.
Proof.
  intros HP HQ. unfold create_app, get. cbn [bind wpr].
  destruct (negb _); simpl; [apply HQ, address_kept_refl|].
  apply wpr_try_except.
  - apply wpr_bind, wpr__fly. intros s1 H1.
    unfold call. cbn [bind wpr]. split; [done|].
    intros [e|r] s2 H2; simpl; [done|].
    split; [by apply address_kept_cluster|].
    split; [by apply address_kept_cluster|].
    apply HQ.
    eapply address_kept_trans; [exact H1|].
    eapply address_kept_trans; [exact H2|].
    eapply address_kept_trans; by apply address_kept_cluster.
  - intros e s'. simpl. split; [by apply address_kept_cluster|done].
Qed.

Lemma wpr_delete_app P (Q : unit -> world -> Prop) s :
  (forall s' n, P s' (delete_app_call n)) ->
  (forall s', address_kept s s' -> Q tt s') ->
  wpr address_kept P delete_app Q s.
Proof.
  intros HP HQ. unfold delete_app, get. cbn [bind wpr].
  destruct (app_name (cluster s)); simpl; [|apply HQ, address_kept_refl].
  apply wpr_bind, wpr__fly. intros s1 H1.
  unfold call. cbn [bind wpr]. split; [done|].
  intros [e|r] s2 H2; simpl; [done|]. apply HQ. eauto with kept.
Qed.

(** [start_scheduler] records an address that is there. *)
Lemma wpr_start_scheduler P fuel self (Q : FlyMachine -> world -> Prop) s :
  (forall s' n config,
     P s' (create_machine_call n config (name self) (region self))) ->
  (forall r s', address_kept s s' -> Q r s') ->
  wpr address_kept P (start_scheduler fuel self) Q s.
Proof.
  intros HP HQ. unfold start_scheduler.
  apply wpr_bind, wpr_create_vm; [by intros|].
  intros r s1 H1 Hr. cbv zeta.
  apply wpr_bind, wpr_wait_for_scheduler.
  apply wpr_bind, wpr_modify.
  { intros _. unfold address_recorded. simpl. done. }
  apply wpr_bind, wpr_modify; [by apply address_kept_cluster|].
  simpl. apply HQ.
  eapply address_kept_trans; [exact H1|].
  eapply address_kept_trans; [|by apply address_kept_cluster].
  intros _. unfold address_recorded. simpl. done.
Qed.

Lemma wpr_scheduler_start P fuel u self (Q : FlyMachine -> world -> Prop) s :
  (forall s' n, P s' (create_app_call n)) ->
  (forall s' n config,
     P s' (create_machine_call n config (name self) (region self))) ->
  (forall r s', address_kept s s' -> Q r s') ->
  wpr address_kept P (FlyMachineScheduler_start fuel u self) Q s.
Proof.
  intros Happ HP HQ. unfold FlyMachineScheduler_start, get. cbn [bind wpr].
  apply wpr_bind.
  assert (forall s1, address_kept s s1 ->
    wpr address_kept P
      (bind (cluster_wait_for_app fuel) (fun _ =>
         bind (start_scheduler fuel self) (fun self' =>
           Ret (with_address self' (address self')
                  (external_address self') true)))) Q s1) as Hrest.
  { intros s1 H1. apply wpr_bind, wpr_cluster_wait_for_app. intros s2 H2.
    apply wpr_bind, wpr_start_scheduler; [done|]. intros r s3 H3. simpl.
    apply HQ. eauto with kept. }
  destruct (is_none (app (cluster s))).
  - apply wpr_create_app; [done|]. exact Hrest.
  - simpl. apply Hrest, address_kept_refl.
Qed.

Lemma wpr_FlyMachine_init P a (Q : FlyMachine -> world -> Prop) s :
  (forall self s', address_kept s s' -> Q self s') ->
  wpr address_kept P (FlyMachine_init a) Q s.
Proof.
  intros HQ. unfold FlyMachine_init, get. cbn [bind wpr].
  destruct (api_token (cluster s)); simpl; [|done].
  destruct (a_env_vars a); simpl; [|done].
  split; [by intros H|]. apply HQ. by intros H.
Qed.

Lemma wpr_start_worker P fuel self (Q : FlyMachine -> world -> Prop) s :
  (forall s' n config, address_kept s s' ->
     P s' (create_machine_call n config (name self) (region self))) ->
  (forall r s', address_kept s s' -> Q r s') ->
  wpr address_kept P (start_worker fuel self) Q s.
Proof.
  intros HP HQ. unfold start_worker.
  apply wpr_bind, wpr_create_vm; [done|].
  intros r s1 H1 _. simpl. by apply HQ.
Qed.

(** [add_worker] asks for a machine only with the scheduler's address
    recorded. *)
Lemma wpr_add_worker fuel a wc u cli s :
  wpr address_kept (gate (scale_up fuel a wc u cli))
    (add_worker fuel a wc u cli) (fun _ _ => True) s.
Proof.
  unfold add_worker, get. cbn [bind wpr].
  destruct (scheduler_internal_address (cluster s)) as [address|] eqn:E;
    [|done].
  assert (address_recorded s) as Hs.
  { unfold address_recorded. by rewrite E. }
  apply wpr_bind. unfold FlyMachineWorker_init.
  apply wpr_bind, wpr_FlyMachine_init. intros self s1 H1.
  unfold get. cbn [bind wpr].
  apply wpr_start_worker; [|done].
  intros s2 n config H2. split; [done|]. auto.
Qed.

Lemma wpr_code (r : request) s :
  wpr address_kept (gate r) (code r) (fun _ _ => True) s.
Proof.
  destruct r as [fuel a p cli u|fuel a wc u cli|self|]; cbn [code].
  - apply wpr_bind. unfold FlyMachineScheduler_init.
    apply wpr_bind, wpr_FlyMachine_init. intros self s1 H1.
    unfold get. cbn [bind wpr].
    apply wpr_bind, wpr_scheduler_start; done.
  - apply wpr_bind.
    eapply wpr_mono; [apply wpr_add_worker|done].
  - by apply wpr_destroy_vm.
  - by apply wpr_delete_app.
Qed.

Lemma spawn_wpr (rs : list request) w :
  loop_wpr address_kept (map gate rs) (spawn rs w).
Proof.
  unfold loop_wpr, spawn. simpl.
  apply Forall2_fmap, Forall_Forall2_diag, Forall_forall.
  intros r _ s _. apply wpr_code.
Qed.

End OrchestratorFacts.

(* ===================================================================== *)
(** * The lifecycle properties *)
(* ===================================================================== *)

Import Py Async AsyncFacts PyFacts.

(** ** C1: a worker's command holds the scheduler's address *)

(** C1.  A Fly worker's command contains, verbatim, the scheduler address
    its constructor was given; once [start] of the scheduler has returned,
    the address recorded on the cluster is [tcp://[<private_ip>]:8786] of
    the scheduler's machine, and a worker given the recorded address has
    it in its command.  An IBM worker constructed once [start] of the
    scheduler has returned, on a cluster whose [scheduler_internal_ip] is
    still the one recorded then, has among its command's arguments the
    URL [ws://<ip>:80] built from the internal address the scheduler
    resolved. *)
Theorem worker_command_embeds_scheduler_address :
  (forall api scheduler a wc u cli w tr self w' tr',
      run api (Fly.FlyMachineWorker_init scheduler a wc u cli) w tr
      = (Returned self, w', tr') ->
      Fly.scheduler self = Some scheduler /\
      exists c, Fly.command self = Some c /\ contains scheduler c = true)
  /\
  (forall api fuel u sched w tr sched' w1 tr1,
      run api (Fly.FlyMachineScheduler_start fuel u sched) w tr
      = (Returned sched', w1, tr1) ->
      exists m address,
        Fly.machine sched' = Fly.PyMachine m /\
        address = "tcp://[" +:+ Fly.private_ip m +:+ "]:8786" /\
        Fly.scheduler_internal_address (Fly.cluster w1) = Some address /\
        forall api' a wc u' cli w2 tr2 wk w3 tr3,
          run api' (Fly.FlyMachineWorker_init address a wc u' cli) w2 tr2
          = (Returned wk, w3, tr3) ->
          exists c, Fly.command wk = Some c /\ contains address c = true)
  /\
  (forall api wfs fuel sched w tr sched' w1 tr1,
      run api (IBM.IBMCodeEngineScheduler_start wfs fuel sched) w tr
      = (Returned sched', w1, tr1) ->
      forall api' a wc spec w2 tr2 wk w3 tr3,
        IBM.scheduler_internal_ip (IBM.cluster w2)
        = IBM.scheduler_internal_ip (IBM.cluster w1) ->
        run api' (IBM.IBMCodeEngineWorker_init a wc spec) w2 tr2
        = (Returned wk, w3, tr3) ->
        exists l url,
          IBM.command wk = IBM.CmdList l /\ In url l /\
          url = "ws://" +:+ fmt (IBM.internal_ip sched') +:+ ":80" /\
          contains (fmt (IBM.internal_ip sched')) url = true).
Proof.
  assert (forall api scheduler a wc u cli w tr self w' tr',
    run api (Fly.FlyMachineWorker_init scheduler a wc u cli) w tr
    = (Returned self, w', tr') ->
    Fly.scheduler self = Some scheduler /\
    exists c, Fly.command self = Some c /\ contains scheduler c = true)
    as Hworker.
  { intros api scheduler a wc u cli w tr self w' tr'.
    rewrite FlyFacts.FlyMachineWorker_init_run.
    destruct (run api (Fly.FlyMachine_init a) w tr) as [[[m| |] w1] tr1];
      [|done..].
    intros [= <- <- <-]. split; [done|].
    eexists. split; [done|].
    apply (contains_join " " scheduler
             ([Fly.set_env m; "dask"; "worker"; scheduler] ++ cli)).
    simpl. auto. }
  split; [exact Hworker|]. split.
  - intros api fuel u sched w tr sched' w1 tr1 Hstart.
    apply FlyFacts.FlyMachineScheduler_start_returned in Hstart
      as (m & Hm & Haddr & Hrec).
    exists m, ("tcp://[" +:+ Fly.private_ip m +:+ "]:8786").
    split; [done|]. split; [done|]. split; [by rewrite Hrec|].
    intros api' a wc u' cli w2 tr2 wk w3 tr3 Hinit.
    by apply Hworker in Hinit as [_ ?].
  - intros api wfs fuel sched w tr sched' w1 tr1 Hstart
      api' a wc spec w2 tr2 wk w3 tr3 Hsame Hinit.
    apply IBMFacts.IBMCodeEngineScheduler_start_returned in Hstart.
    apply IBMFacts.IBMCodeEngineWorker_init_returned in Hinit
      as (ip & Hip & Hcmd & _).
    rewrite Hsame, Hstart in Hip. injection Hip as <-.
    eexists _, _. split; [exact Hcmd|]. split; [simpl; auto|].
    split; [done|]. apply contains_app.
Qed.



Lemma worker_command_embeds_scheduler_address_witness :
  (exists c,
      Fly.command Sample.fly_worker = Some c /\
      contains Sample.fly_scheduler_address c = true)
  /\
  (exists sched' w1 tr1,
      run Sample.fly_grants
        (Fly.FlyMachineScheduler_start 3 "a1b2c3d4" Sample.fly_scheduler)
        Sample.fly_world [] = (Returned sched', w1, tr1) /\
      Fly.scheduler_internal_address (Fly.cluster w1)
      = Some Sample.fly_scheduler_address)
  /\
  (exists sched' w1 tr1 wk w2 tr2 l,
      run (Sample.ibm_ready_after 2)
        (IBM.IBMCodeEngineScheduler_start (fun _ => Ret tt) 5
           Sample.ibm_scheduler)
        Sample.ibm_world [] = (Returned sched', w1, tr1) /\
      run (Sample.ibm_ready_after 2)
        (IBM.IBMCodeEngineWorker_init Sample.ibm_worker_args
           "distributed.cli.Nanny" "{}") w1 tr1 = (Returned wk, w2, tr2) /\
      IBM.command wk = IBM.CmdList l /\
      In "ws://sched.7e3b.svc.cluster.local:80" l).
Proof.
  split; [|split].
  - refine (proj2 (proj1 worker_command_embeds_scheduler_address
      Sample.fly_grants Sample.fly_scheduler_address Sample.fly_args
      "FlyMachineScheduler" "dc95260d" [] Sample.fly_world []
      Sample.fly_worker _ _ _)).
    vm_compute. reflexivity.
  - eassert (run Sample.fly_grants
               (Fly.FlyMachineScheduler_start 3 "a1b2c3d4" Sample.fly_scheduler)
               Sample.fly_world [] = (Returned _, _, _)) as H
      by (vm_compute; reflexivity).
    destruct (proj1 (proj2 worker_command_embeds_scheduler_address)
                _ _ _ _ _ _ _ _ _ H) as (m & address & Hm & -> & Hrec & _).
    eexists _, _, _. split; [exact H|].
    injection Hm as <-. exact Hrec.
  - eassert (run (Sample.ibm_ready_after 2)
               (IBM.IBMCodeEngineScheduler_start (fun _ => Ret tt) 5
                  Sample.ibm_scheduler)
               Sample.ibm_world [] = (Returned _, _, _)) as H
      by (vm_compute; reflexivity).
    match type of H with _ = (_, ?w1, ?tr1) =>
      eassert (run (Sample.ibm_ready_after 2)
                 (IBM.IBMCodeEngineWorker_init Sample.ibm_worker_args
                    "distributed.cli.Nanny" "{}") w1 tr1 = (Returned _, _, _))
        as H' by (vm_compute; reflexivity)
    end.
    destruct (proj2 (proj2 worker_command_embeds_scheduler_address)
                _ _ _ _ _ _ _ _ _ H _ _ _ _ _ _ _ _ _ eq_refl H')
      as (l & url & Hl & Hin & -> & _).
    eexists _, _, _, _, _, _, l.
    split; [exact H|]. split; [exact H'|]. split; [exact Hl|]. exact Hin.
Defined.

(** ** C2: resolving the addresses *)

(** With a provider that never reports the application ready, no number
    of turns makes [create_vm] return or raise. *)
Lemma create_vm_polls_for_ever :
  ~ exists fuel,
      (run Sample.ibm_never_ready (IBM.create_vm fuel Sample.ibm_scheduler)
         Sample.ibm_world []).1.1 <> Looping.
Proof.
  intros [fuel H]. apply H.
  erewrite IBMFacts.create_vm_scheduler;
    [|reflexivity|vm_compute; reflexivity|reflexivity].
  rewrite IBMFacts.poll_ready_waits; [done|].
  intros j _. exists (Sample.ibm_app "deploying"), "deploying".
  split; [done|]. split; [by vm_compute|done].
Qed.

(** C2, amended.  [create_vm] of an IBM scheduler whose application the
    provider has accepted asks for the application and sleeps a second,
    again and again, for as long as the answers are not [ready]: there is
    no timeout, and with a provider that never answers [ready] it never
    returns.  If the answer to poll [k] is the first that is [ready], and
    has a name and two endpoints with a [//] in them, [create_vm] returns,
    after [k] sleeps, the pair of what follows the [//] in
    [endpoint_internal] and in [endpoint] of that same answer.  Whenever
    [create_vm] returns, both addresses are there or neither is (neither
    for a worker).  [create_vm] of a Fly machine does not poll: when it
    returns, the first address is [tcp://[<private_ip>]:8786] for the
    machine the provider answered with, and the second is the machine's
    [external_address], which [create_vm] does not assign. *)
Theorem create_vm_polls_until_ready :
  (forall api self s cmd w tr r,
      IBM.command self = IBM.CmdStr s ->
      IBM.python_command s = inr cmd ->
      let create := IBM.create_app_call (IBM.scheduler_payload self cmd w) in
      let get := IBM.get_app_call (IBM.project_id self) (IBM.name self) in
      let tr0 := tr ++ [Called create] in
      api tr create = inr r ->
      ((forall j, IBM.not_ready api self (tr0 ++ IBM.polls self j)) ->
       forall fuel,
         run api (IBM.create_vm fuel self) w tr
         = (Looping, w, tr0 ++ IBM.polls self fuel))
      /\
      (forall k app n iu i pu e,
          (forall j, (j < k)%nat ->
                     IBM.not_ready api self (tr0 ++ IBM.polls self j)) ->
          api (tr0 ++ IBM.polls self k) get = inr app ->
          app !! "status" = Some "ready" ->
          app !! "name" = Some n ->
          app !! "endpoint_internal" = Some iu ->
          IBM.after_slashes iu = inr i ->
          app !! "endpoint" = Some pu ->
          IBM.after_slashes pu = inr e ->
          forall fuel, (k < fuel)%nat ->
            run api (IBM.create_vm fuel self) w tr
            = (Returned (Some i, Some e), w,
               tr0 ++ IBM.polls self k ++ [Called get])))
  /\
  (forall api fuel self w tr i e w' tr',
      run api (IBM.create_vm fuel self) w tr = (Returned (i, e), w', tr') ->
      (is_Some i <-> is_Some e))
  /\
  (forall api fuel self w tr r w' tr',
      run api (Fly.create_vm fuel self) w tr = (Returned r, w', tr') ->
      exists m,
        Fly.machine r.1 = Fly.PyMachine m /\
        r.2 = (Some ("tcp://[" +:+ Fly.private_ip m +:+ "]:8786"),
               Fly.external_address self)).
Proof.
  split; [|split].
  - intros api self s cmd w tr r Hc Hp create get tr0 Hr. split.
    + intros Hnever fuel.
      rewrite (IBMFacts.create_vm_scheduler _ _ _ _ _ _ _ _ Hc Hp Hr).
      fold create tr0. rewrite IBMFacts.poll_ready_waits; [done|].
      intros j _. apply Hnever.
    + intros k app n iu i pu e Hbefore Happ Hst Hn Hiu Hi Hpu He fuel Hk.
      rewrite (IBMFacts.create_vm_scheduler _ _ _ _ _ _ _ _ Hc Hp Hr).
      fold create tr0.
      rewrite (IBMFacts.poll_ready_returns _ _ _ _ _ k app); try done.
      by rewrite (IBMFacts.urls_of_run _ _ _ _ n iu i pu e).
  - intros api fuel self w tr i e w' tr' H.
    eapply (run_post (fun _ _ => True) api _
              (fun r _ => is_Some r.1 <-> is_Some r.2)) in H; [done|].
    apply IBMFacts.wp_engine_create_vm; done.
  - intros api fuel self w tr r w' tr' H.
    eapply (run_post (fun _ _ => True) api _
              (fun r _ => exists m,
                 Fly.machine r.1 = Fly.PyMachine m /\
                 r.2 = (Some ("tcp://[" +:+ Fly.private_ip m +:+ "]:8786"),
                        Fly.external_address self))) in H; [done|].
    apply FlyFacts.wp_create_vm; [done|]. intros m w''. simpl. eauto.
Qed.

Lemma create_vm_polls_until_ready_witness :
  run (Sample.ibm_ready_after 2) (IBM.create_vm 5 Sample.ibm_scheduler)
    Sample.ibm_world []
  = (Returned (Some "sched.7e3b.svc.cluster.local",
               Some "sched.7e3b.eu-de.codeengine.appdomain.cloud"),
     Sample.ibm_world,
     ([] ++ [Called (IBM.create_app_call
                (IBM.scheduler_payload Sample.ibm_scheduler
                   ["python"; "-m"; "distributed.cli.dask_scheduler";
                    "--protocol"; "ws,tcp"; "--port"; "8786,8001"]
                   Sample.ibm_world))])
     ++ IBM.polls Sample.ibm_scheduler 2
     ++ [Called (IBM.get_app_call (Some "7e3b")
                   (Some "dask-38b817c1-scheduler"))]).
Proof.
  eapply (proj2 (proj1 create_vm_polls_until_ready (Sample.ibm_ready_after 2)
            Sample.ibm_scheduler _ _ Sample.ibm_world []
            (Sample.ibm_app "deploying") eq_refl ltac:(vm_compute; reflexivity)
            eq_refl)
          2%nat (Sample.ibm_app "ready") "dask-38b817c1-scheduler"
          "http://sched.7e3b.svc.cluster.local" _
          "https://sched.7e3b.eu-de.codeengine.appdomain.cloud" _).
  - intros j Hj. exists (Sample.ibm_app "deploying"), "deploying".
    split; [|split; [by vm_compute|done]].
    destruct j as [|[|j]]; [reflexivity|reflexivity|lia].
  - reflexivity.
  - by vm_compute.
  - by vm_compute.
  - by vm_compute.
  - by vm_compute.
  - by vm_compute.
  - by vm_compute.
  - lia.
Defined.

(** ** C3: the resources of an instance *)

(** C3.  Whatever [cpus] and [memory_mb] the constructor of a Fly machine
    is given, the machine has one CPU and 1024 MB, and every machine
    request of a machine, scheduler or worker built by these constructors
    asks for that guest.  Every IBM request that creates an application
    or a job run asks for 0.25 CPU and 1G of memory.  These requests are
    made: once the application is there, [create_vm] of a constructed Fly
    machine asks for its machine, with that guest; the first call of
    [create_vm] of an IBM scheduler asks for the application, with these
    limits; and [create_vm] of an IBM worker whose configuration map is
    granted asks for the job run, with these limits. *)
Theorem resource_limits_are_hardcoded :
  (forall api a w tr self w' tr',
      run api (Fly.FlyMachine_init a) w tr = (Returned self, w', tr') ->
      Fly.cpus self = 1%Z /\ Fly.memory_mb self = 1024%Z)
  /\
  (forall api a fuel w,
      Forall Fly.fixed_guest
        (calls (run api (bind (Fly.FlyMachine_init a) (Fly.create_vm fuel))
                  w []).2))
  /\
  (forall api a p cli fuel w,
      Forall Fly.fixed_guest
        (calls (run api (bind (Fly.FlyMachineScheduler_init a p cli)
                           (Fly.create_vm fuel)) w []).2))
  /\
  (forall api s a wc u cli fuel w,
      Forall Fly.fixed_guest
        (calls (run api (bind (Fly.FlyMachineWorker_init s a wc u cli)
                           (Fly.create_vm fuel)) w []).2))
  /\
  (forall api fuel self w,
      Forall IBM.fixed_limits (calls (run api (IBM.create_vm fuel self) w []).2))
  /\
  (forall api a fuel w tr token l,
      Fly.api_token (Fly.cluster w) = Some token ->
      Fly.a_env_vars a = Some l ->
      Fly.closed w = false ->
      exists config,
        (run api (bind (Fly.FlyMachine_init a) (Fly.create_vm (S fuel)))
           w tr).2
        = tr ++ [Called (Fly.create_machine_call
                           (Fly.app_name (Fly.cluster w)) config
                           (Fly.a_name a) (Fly.a_region a))] /\
        Fly.cfg_guest config = Fly.Guest "shared" 1 1024)
  /\
  (forall api fuel self s cmd w tr,
      IBM.command self = IBM.CmdStr s ->
      IBM.python_command s = inr cmd ->
      let p := IBM.scheduler_payload self cmd w in
      (exists evs,
         (run api (IBM.create_vm fuel self) w tr).2
         = tr ++ Called (IBM.create_app_call p) :: evs) /\
      IBM.ca_scale_cpu_limit p = "0.25" /\
      IBM.ca_scale_memory_limit p = "1G")
  /\
  (forall api fuel self l w tr,
      IBM.command self = IBM.CmdList l ->
      let map :=
        IBM.create_config_map_call (IBM.project_id self) (IBM.name self)
          [(IBM.INHERIT, IBM.global_config w)] in
      let p := IBM.worker_payload self l in
      (forall r, api tr map = inr r ->
         (run api (IBM.create_vm fuel self) w tr).2
         = tr ++ [Called map; Called (IBM.create_job_run_call p)]) /\
      IBM.jr_scale_cpu_limit p = "0.25" /\
      IBM.jr_scale_memory_limit p = "1G").
Proof.
  assert (forall fuel self w,
    Fly.cpus self = 1%Z -> Fly.memory_mb self = 1024%Z ->
    wp (fun _ c => Fly.fixed_guest c) (Fly.create_vm fuel self)
       (fun _ _ => True) w) as Hvm.
  { intros fuel self w Hc Hm. apply FlyFacts.wp_create_vm; [|done].
    intros w0 w' _. simpl. by rewrite Hc, Hm. }
  assert (forall a (Q : Fly.FlyMachine -> Fly.world -> Prop) w,
    (forall self w', Fly.cpus self = 1%Z -> Fly.memory_mb self = 1024%Z ->
                     Q self w') ->
    wp (fun _ c => Fly.fixed_guest c) (Fly.FlyMachine_init a) Q w) as Hinit.
  { intros a Q w HQ. unfold Fly.FlyMachine_init. simpl.
    destruct (Fly.api_token (Fly.cluster w)); simpl; [|done].
    destruct (Fly.a_env_vars a); simpl; [|done]. by apply HQ. }
  split; [|split; [|split; [|split; [|split; [|split; [|split]]]]]].
  - intros api a w tr self w' tr' H.
    apply FlyFacts.FlyMachine_init_returned in H
      as (token & l & _ & _ & -> & _). done.
  - intros api a fuel w.
    eapply (run_safe (fun _ c => Fly.fixed_guest c)); [done| |constructor].
    apply wp_bind, Hinit. intros self w' Hc Hm. by apply Hvm.
  - intros api a p cli fuel w.
    eapply (run_safe (fun _ c => Fly.fixed_guest c)); [done| |constructor].
    apply wp_bind. unfold Fly.FlyMachineScheduler_init.
    apply wp_bind, Hinit. intros self w' Hc Hm.
    exact (Hvm fuel (Fly.with_role self _ _ _ _ _) w' Hc Hm).
  - intros api s a wc u cli fuel w.
    eapply (run_safe (fun _ c => Fly.fixed_guest c)); [done| |constructor].
    apply wp_bind. unfold Fly.FlyMachineWorker_init.
    apply wp_bind, Hinit. intros self w' Hc Hm.
    exact (Hvm fuel (Fly.with_role self _ _ _ _ _) w' Hc Hm).
  - intros api fuel self w.
    eapply (run_safe (fun _ c => IBM.fixed_limits c) _ _ (fun _ _ => True));
      [done| |constructor].
    apply IBMFacts.wp_engine_create_vm; intros; simpl; auto.
  - intros api a fuel w tr token l Ht Hl Hopen.
    rewrite run_bind, FlyFacts.FlyMachine_init_run, Ht, Hl.
    set (w1 := Fly.set_heap _ w).
    assert (Fly.closed w1 = false) as Hopen1 by done.
    rewrite FlyMore.create_vm_open by done. cbv zeta.
    eexists. split.
    + match goal with
      | |- context [api tr ?c] => destruct (api tr c) as [e|[| | |m]]
      end; reflexivity.
    + reflexivity.
  - intros api fuel self s cmd w tr Hc Hp p. split; [|done].
    unfold IBM.create_vm. rewrite Hc, Hp. unfold call, get.
    cbn [bind lift run]. fold p.
    match goal with |- context [run api ?m w (tr ++ [Called ?c])] =>
      destruct (run_extends api m w (tr ++ [Called c])) as [evs ->] end.
    exists evs. by rewrite <- List.app_assoc.
  - intros api fuel self l w tr Hc map p. split; [|done].
    intros r Hr. unfold IBM.create_vm. rewrite Hc. unfold call, get.
    cbn [bind lift run]. fold map. rewrite Hr. cbn [bind lift run]. fold p.
    match goal with |- context [api (tr ++ ?t) ?c] =>
      destruct (api (tr ++ t) c) end; simpl; by rewrite <- List.app_assoc.
Qed.

Lemma resource_limits_are_hardcoded_witness :
  Fly.a_cpus Sample.fly_args = Some 8%Z /\
  Fly.a_memory_mb Sample.fly_args = Some 4096%Z /\
  Fly.cpus
    (Fly.new_machine Sample.fly_args Sample.fly_world "fo1_token" 1%positive)
  = 1%Z /\
  Fly.memory_mb
    (Fly.new_machine Sample.fly_args Sample.fly_world "fo1_token" 1%positive)
  = 1024%Z /\
  (exists config,
     (run Sample.fly_grants
        (bind (Fly.FlyMachine_init Sample.fly_args) (Fly.create_vm 1))
        Sample.fly_world_with_app []).2
     = [] ++ [Called (Fly.create_machine_call (Some "dask-a1b2c3d4") config
                        None (Some "lhr"))] /\
     Fly.cfg_guest config = Fly.Guest "shared" 1 1024) /\
  (exists evs,
     (run Sample.ibm_never_ready (IBM.create_vm 2 Sample.ibm_scheduler)
        Sample.ibm_world []).2
     = [] ++ Called (IBM.create_app_call
                       (IBM.scheduler_payload Sample.ibm_scheduler
                          ["python"; "-m"; "distributed.cli.dask_scheduler";
                           "--protocol"; "ws,tcp"; "--port"; "8786,8001"]
                          Sample.ibm_world)) :: evs) /\
  IBM.ca_scale_cpu_limit
    (IBM.scheduler_payload Sample.ibm_scheduler
       ["python"; "-m"; "distributed.cli.dask_scheduler";
        "--protocol"; "ws,tcp"; "--port"; "8786,8001"] Sample.ibm_world)
  = "0.25" /\
  (run Sample.ibm_never_ready (IBM.create_vm 0 Sample.ibm_worker)
     Sample.ibm_world []).2
  = [] ++ [Called (IBM.create_config_map_call (Some "7e3b")
                     (Some "dask-38b817c1-worker-dc95260d")
                     [(IBM.INHERIT, "{}")]);
           Called (IBM.create_job_run_call
                     (IBM.worker_payload Sample.ibm_worker
                        [ "python"; "-m"; "distributed.cli.dask_spec";
                          "ws://sched.internal:80"; "--spec"; "{}" ]))] /\
  IBM.jr_scale_memory_limit
    (IBM.worker_payload Sample.ibm_worker
       [ "python"; "-m"; "distributed.cli.dask_spec";
         "ws://sched.internal:80"; "--spec"; "{}" ])
  = "1G".
Proof.
  destruct resource_limits_are_hardcoded
    as (T1 & _ & _ & _ & _ & T6 & T7 & T8).
  split; [reflexivity|]. split; [reflexivity|].
  split; [|split; [|split; [|split; [|split; [|split]]]]].
  - refine (proj1 (T1 Sample.fly_grants Sample.fly_args Sample.fly_world []
                     _ _ _ _)).
    vm_compute. reflexivity.
  - refine (proj2 (T1 Sample.fly_grants Sample.fly_args Sample.fly_world []
                     _ _ _ _)).
    vm_compute. reflexivity.
  - exact (T6 Sample.fly_grants Sample.fly_args 0%nat
             Sample.fly_world_with_app [] "fo1_token" 1%positive
             eq_refl eq_refl eq_refl).
  - exact (proj1 (T7 Sample.ibm_never_ready 2%nat Sample.ibm_scheduler _
                    ["python"; "-m"; "distributed.cli.dask_scheduler";
                     "--protocol"; "ws,tcp"; "--port"; "8786,8001"]
                    Sample.ibm_world [] eq_refl eq_refl)).
  - exact (proj1 (proj2 (T7 Sample.ibm_never_ready 2%nat Sample.ibm_scheduler
                    _ ["python"; "-m"; "distributed.cli.dask_scheduler";
                       "--protocol"; "ws,tcp"; "--port"; "8786,8001"]
                    Sample.ibm_world [] eq_refl eq_refl))).
  - exact (proj1 (T8 Sample.ibm_never_ready 0%nat Sample.ibm_worker _
                    Sample.ibm_world [] eq_refl) _ eq_refl).
  - exact (proj2 (proj2 (T8 Sample.ibm_never_ready 0%nat Sample.ibm_worker _
                    Sample.ibm_world [] eq_refl))).
Defined.

(** ** C4: creating the application *)

(** C4.  On a cluster whose application has no name yet, [create_app]
    makes one create call.  If the provider raises, [app] becomes
    ["failed"], the name stays unset, the same error is raised, and
    nothing more is called.  If the provider answers, [app] is the answer
    and [app_name] the generated name; from then on [create_app] returns
    at once, calling and changing nothing. *)
Theorem create_app_once :
  forall api u w tr,
    Fly.app_name (Fly.cluster w) = None ->
    let c := Fly.create_app_call ("dask-" +:+ u) in
    let r := run api (Fly.create_app u) w tr in
    r.2 = tr ++ [Called c] /\
    match api tr c with
    | inl e =>
        r.1.1 = Raised e /\
        Fly.app (Fly.cluster r.1.2) = Fly.PyStr "failed" /\
        Fly.app_name (Fly.cluster r.1.2) = None
    | inr a =>
        r.1.1 = Returned tt /\
        Fly.app (Fly.cluster r.1.2) = a /\
        Fly.app_name (Fly.cluster r.1.2) = Some ("dask-" +:+ u) /\
        forall api' u' tr',
          run api' (Fly.create_app u') r.1.2 tr' = (Returned tt, r.1.2, tr')
    end.
Proof.
  intros api u w tr Hw c r. subst c r.
  rewrite FlyFacts.create_app_run, Hw. cbv zeta.
  destruct (api tr _) as [e|a]; simpl.
  - repeat split; try done.
    unfold Fly.with_client. by destruct (Fly._client (Fly.cluster w)).
  - repeat split; done.
Qed.

Lemma create_app_once_witness :
  (run Sample.fly_refuses (Fly.create_app "a1b2c3d4") Sample.fly_world []).2
  = [Called (Fly.create_app_call "dask-a1b2c3d4")] /\
  (run Sample.fly_refuses (Fly.create_app "a1b2c3d4") Sample.fly_world []).1.1
  = Raised (ProviderError "quota exceeded").
Proof.
  pose proof (create_app_once Sample.fly_refuses "a1b2c3d4" Sample.fly_world
                [] eq_refl) as H.
  exact (conj (proj1 H) (proj1 (proj2 H))).
Defined.

(** ** C5: tearing down *)

(** A machine that has been destroyed is deleted again by the next
    [destroy_vm], and so is the application by the next [delete_app]. *)
Lemma destroy_vm_twice :
  calls (run Sample.fly_grants
           (bind (Fly.destroy_vm Sample.fly_created_machine) (fun _ =>
            bind Fly.delete_app (fun _ =>
            bind (Fly.destroy_vm Sample.fly_created_machine) (fun _ =>
            Fly.delete_app))))
           Sample.fly_world_with_app []).2
  = [Fly.delete_machine_call (Some "dask-a1b2c3d4") "148e21" true;
     Fly.delete_app_call "dask-a1b2c3d4";
     Fly.delete_machine_call (Some "dask-a1b2c3d4") "148e21" true;
     Fly.delete_app_call "dask-a1b2c3d4"].
Proof. reflexivity. Qed.

(** C5, amended.  [destroy_vm] of a Fly machine that was never created
    ([machine] is [None]) and [delete_app] on a cluster whose application
    has no name return at once, calling and changing nothing.  Otherwise
    each makes exactly one delete call (for the machine, a forced one),
    raises what the provider raises, and records nothing: the machine and
    the name of the application are as before, so that the next
    [destroy_vm] or [delete_app] makes the same call again. *)
Theorem destroy_is_a_noop_only_before_creation :
  (forall api self w tr,
      Fly.machine self = Fly.PyNone ->
      run api (Fly.destroy_vm self) w tr = (Returned tt, w, tr))
  /\
  (forall api self m w tr,
      Fly.machine self = Fly.PyMachine m ->
      let c :=
        Fly.delete_machine_call (Fly.app_name (Fly.cluster w)) (Fly.id m) true in
      run api (Fly.destroy_vm self) w tr =
      (match api tr c with inl e => Raised e | inr _ => Returned tt end,
       Fly.with_client w, tr ++ [Called c]))
  /\
  (forall api w tr,
      Fly.app_name (Fly.cluster w) = None ->
      run api Fly.delete_app w tr = (Returned tt, w, tr))
  /\
  (forall api n w tr,
      Fly.app_name (Fly.cluster w) = Some n ->
      let r := run api Fly.delete_app w tr in
      r = (match api tr (Fly.delete_app_call n) with
           | inl e => Raised e
           | inr _ => Returned tt
           end, Fly.with_client w, tr ++ [Called (Fly.delete_app_call n)]) /\
      Fly.app_name (Fly.cluster r.1.2) = Some n).
Proof.
  split; [|split; [|split]].
  - intros api self w tr H. by rewrite FlyFacts.destroy_vm_run, H.
  - intros api self m w tr H. by rewrite FlyFacts.destroy_vm_run, H.
  - intros api w tr H. by rewrite FlyFacts.delete_app_run, H.
  - intros api n w tr H r. subst r. rewrite FlyFacts.delete_app_run, H.
    split; [done|]. simpl. unfold Fly.with_client.
    by destruct (Fly._client (Fly.cluster w)).
Qed.

Lemma destroy_is_a_noop_only_before_creation_witness :
  run Sample.fly_grants (Fly.destroy_vm Sample.fly_worker) Sample.fly_world []
  = (Returned tt, Sample.fly_world, []) /\
  run Sample.fly_grants (Fly.destroy_vm Sample.fly_created_machine)
    Sample.fly_world_with_app []
  = (Returned tt, Sample.fly_world_with_app,
     [Called (Fly.delete_machine_call (Some "dask-a1b2c3d4") "148e21" true)]).
Proof.
  split.
  - exact (proj1 destroy_is_a_noop_only_before_creation Sample.fly_grants
             Sample.fly_worker Sample.fly_world [] eq_refl).
  - exact (proj1 (proj2 destroy_is_a_noop_only_before_creation)
             Sample.fly_grants Sample.fly_created_machine
             (Fly.MachineObj "148e21" "fdaa:0:1:a7b:1")
             Sample.fly_world_with_app [] eq_refl).
Defined.

(** ** C6: no worker before the scheduler's address *)



(** ** C7: what the constructors check *)

(** On a cluster whose scheduler has not been started, a Fly worker is
    constructed all the same; started, it waits for the application and
    raises nothing. *)
Lemma worker_before_scheduler :
  Fly.scheduler_internal_address (Fly.cluster Sample.fly_world) = None /\
  (run Sample.fly_grants
     (Fly.FlyMachineWorker_init Sample.fly_scheduler_address Sample.fly_args
        "FlyMachineScheduler" "dc95260d" [])
     Sample.fly_world []).1.1 = Returned Sample.fly_worker /\
  ~ exists fuel e,
      (run Sample.fly_grants
         (bind (Fly.FlyMachineWorker_init Sample.fly_scheduler_address
                  Sample.fly_args "FlyMachineScheduler" "dc95260d" [])
               (Fly.start_worker fuel))
         Sample.fly_world []).1.1 = Raised e.
Proof.
  split; [reflexivity|]. split; [vm_compute; reflexivity|].
  intros (fuel & e & H). rewrite run_bind in H.
  destruct (run _ (Fly.FlyMachineWorker_init _ _ _ _ _) _ _)
    as [[o w'] tr'] eqn:E.
  vm_compute in E. injection E as <- <- <-.
  by rewrite FlyFacts.start_worker_closed in H.
Qed.

(** C7, amended.  Constructing a Fly machine, scheduler or worker on a
    cluster that has no API token raises
    [ValueError("Fly.io API token must be provided")] at once: nothing is
    called and nothing is changed, not even [env_vars].  Constructing an
    IBM worker on a cluster whose [scheduler_internal_ip] nothing has
    assigned raises as well, calling and changing nothing.  Whether the
    scheduler has been started is not otherwise checked. *)
Theorem constructors_fail_without_calls :
  (forall api a w tr,
      Fly.api_token (Fly.cluster w) = None ->
      run api (Fly.FlyMachine_init a) w tr
      = (Raised (ValueError "Fly.io API token must be provided"), w, tr))
  /\
  (forall api a p cli w tr,
      Fly.api_token (Fly.cluster w) = None ->
      run api (Fly.FlyMachineScheduler_init a p cli) w tr
      = (Raised (ValueError "Fly.io API token must be provided"), w, tr))
  /\
  (forall api s a wc u cli w tr,
      Fly.api_token (Fly.cluster w) = None ->
      run api (Fly.FlyMachineWorker_init s a wc u cli) w tr
      = (Raised (ValueError "Fly.io API token must be provided"), w, tr))
  /\
  (forall api a wc spec w tr,
      IBM.scheduler_internal_ip (IBM.cluster w) = IBM.Unset ->
      exists e,
        run api (IBM.IBMCodeEngineWorker_init a wc spec) w tr
        = (Raised e, w, tr) /\
        (IBM.IAMAuthenticator w (IBM.a_api_key a) = None ->
         IBM.a_region a <> None ->
         e = AttributeError "scheduler_internal_ip")).
Proof.
  assert (forall api a w tr,
    Fly.api_token (Fly.cluster w) = None ->
    run api (Fly.FlyMachine_init a) w tr
    = (Raised (ValueError "Fly.io API token must be provided"), w, tr)) as H.
  { intros api a w tr Hw. by rewrite FlyFacts.FlyMachine_init_run, Hw. }
  split; [done|]. split; [|split].
  - intros api a p cli w tr Hw.
    by rewrite FlyFacts.FlyMachineScheduler_init_run, H.
  - intros api s a wc u cli w tr Hw.
    by rewrite FlyFacts.FlyMachineWorker_init_run, H.
  - intros api a wc spec w tr Hw.
    unfold IBM.IBMCodeEngineWorker_init, IBM.IBMCodeEngine_init. simpl.
    destruct (IBM.IAMAuthenticator w (IBM.a_api_key a)) as [e|]; simpl.
    { by exists e. }
    destruct (IBM.a_region a); simpl.
    + rewrite Hw. by eexists.
    + by eexists.
Qed.

Lemma constructors_fail_without_calls_witness :
  run Sample.fly_grants
    (Fly.FlyMachineWorker_init Sample.fly_scheduler_address Sample.fly_args
       "FlyMachineScheduler" "dc95260d" [])
    Sample.fly_world_without_token []
  = (Raised (ValueError "Fly.io API token must be provided"),
     Sample.fly_world_without_token, [])
  /\
  exists e,
    run Sample.ibm_never_ready
      (IBM.IBMCodeEngineWorker_init Sample.ibm_worker_args
         "distributed.cli.Nanny" "{}")
      Sample.ibm_world []
    = (Raised e, Sample.ibm_world, []) /\
    (IBM.IAMAuthenticator Sample.ibm_world
       (IBM.a_api_key Sample.ibm_worker_args) = None ->
     IBM.a_region Sample.ibm_worker_args <> None ->
     e = AttributeError "scheduler_internal_ip").
Proof.
  split.
  - exact (proj1 (proj2 (proj2 constructors_fail_without_calls))
             Sample.fly_grants Sample.fly_scheduler_address Sample.fly_args
             "FlyMachineScheduler" "dc95260d" []
             Sample.fly_world_without_token [] eq_refl).
  - exact (proj2 (proj2 (proj2 constructors_fail_without_calls))
             Sample.ibm_never_ready Sample.ibm_worker_args
             "distributed.cli.Nanny" "{}" Sample.ibm_world [] eq_refl).
Defined.

(** ** C8: concurrent calls of [create_app] *)

(** Two tasks that both test [app_name] before either has its answer
    both create an application. *)
Lemma two_tasks_create_two_apps :
  calls (history
    (run_schedule Sample.fly_grants
       (Fly.spawn [Fly.job_create_app "a1b2c3d4"; Fly.job_create_app "e5f6a7b8"]
          Sample.fly_world)
       [0; 1; 0; 1]%nat))
  = [Fly.create_app_call "dask-a1b2c3d4"; Fly.create_app_call "dask-e5f6a7b8"].
Proof. reflexivity. Qed.

(** C8, amended.  Calls of [create_app] that are awaited one after the
    other, the first of which the provider grants, make exactly one
    create call between them.  Nothing records a call in progress: a task
    that enters [create_app] while [app_name] is still unset makes its
    own create call, whatever the other tasks have asked for so far. *)
Theorem create_app_is_guarded_by_name_only :
  (forall api u us w a,
      Fly.app_name (Fly.cluster w) = None ->
      api [] (Fly.create_app_call ("dask-" +:+ u)) = inr a ->
      calls (run api (Fly.create_app_times (u :: us)) w []).2
      = [Fly.create_app_call ("dask-" +:+ u)])
  /\
  (forall api u w tr,
      Fly.app_name (Fly.cluster w) = None ->
      exists k,
        resume api (Fresh (Fly.create_app u)) w tr
        = (Pending (Fly.create_app_call ("dask-" +:+ u)) k,
           Fly.with_client w,
           tr ++ [Called (Fly.create_app_call ("dask-" +:+ u))])).
Proof.
  split.
  - intros api u us w a Hw Ha.
    change (Fly.create_app_times (u :: us))
      with (bind (Fly.create_app u) (fun _ => Fly.create_app_times us)).
    rewrite run_bind, FlyFacts.create_app_run, Hw. cbv zeta.
    rewrite Ha. by rewrite FlyFacts.create_app_times_named.
  - intros api u w tr Hw. unfold Fly.create_app, Fly.with_client. simpl.
    rewrite Hw. simpl.
    destruct (Fly._client (Fly.cluster w)); simpl; by eexists.
Qed.

Lemma create_app_is_guarded_by_name_only_witness :
  calls (run Sample.fly_grants
           (Fly.create_app_times ["a1b2c3d4"; "e5f6a7b8"; "0c9d8e7f"])
           Sample.fly_world []).2
  = [Fly.create_app_call "dask-a1b2c3d4"].
Proof.
  exact (proj1 create_app_is_guarded_by_name_only Sample.fly_grants
           "a1b2c3d4" ["e5f6a7b8"; "0c9d8e7f"] Sample.fly_world
           (Fly.PyApp "dask-a1b2c3d4") eq_refl eq_refl).
Defined.

(** ** C9: [EXTRA_PIP_PACKAGES] *)

Lemma deref_set_heap (w : Fly.world) (l : Fly.ref) (d : gmap string string) :
  Fly.deref (Fly.set_heap (<[l := d]> (Fly.heap w)) w) l = d.
Proof. unfold Fly.deref. simpl. by rewrite lookup_insert_eq. Qed.

Lemma add_distributed_lookup (d : gmap string string) :
  Fly.add_distributed d !! Fly.EXTRA_PIP_PACKAGES =
  Some (match d !! Fly.EXTRA_PIP_PACKAGES with
        | Some v => v +:+ "dask[distributed]"
        | None => " dask[distributed]"
        end).
Proof.
  unfold Fly.add_distributed.
  destruct (d !! Fly.EXTRA_PIP_PACKAGES); by rewrite lookup_insert_eq.
Qed.

Lemma add_distributed_other (d : gmap string string) (k : string) :
  k <> Fly.EXTRA_PIP_PACKAGES ->
  Fly.add_distributed d !! k = d !! k.
Proof.
  intros Hk. unfold Fly.add_distributed.
  destruct (d !! Fly.EXTRA_PIP_PACKAGES); by rewrite lookup_insert_ne.
Qed.

(** Without [env_vars] and without an API token, the token is what the
    constructor complains about: the error is a [ValueError]. *)
Lemma env_vars_None_without_token :
  Fly.a_env_vars Sample.fly_args_without_env = None /\
  (run Sample.fly_grants (Fly.FlyMachine_init Sample.fly_args_without_env)
     Sample.fly_world_without_token []).1.1
  = Raised (ValueError "Fly.io API token must be provided").
Proof. split; reflexivity. Qed.

(** C9, amended.  A constructed [FlyMachine] has changed the dictionary
    it was given as [env_vars], and nothing else: its entry
    [EXTRA_PIP_PACKAGES] is the old entry followed by [dask[distributed]],
    or [ dask[distributed]] when there was none, and so contains
    [dask[distributed]]; the other entries are as before.  When [env_vars]
    is [None], construction fails: with a [TypeError] if the cluster has an
    API token, and with the [ValueError] of the token check if it has
    none. *)
Theorem FlyMachine_init_adds_distributed :
  (forall api a w tr self w' tr',
      run api (Fly.FlyMachine_init a) w tr = (Returned self, w', tr') ->
      Fly.a_env_vars a = Some (Fly.env_vars self) /\
      let old := Fly.deref w (Fly.env_vars self) in
      let new := Fly.deref w' (Fly.env_vars self) in
      (exists v, new !! Fly.EXTRA_PIP_PACKAGES = Some v /\
                 contains "dask[distributed]" v = true /\
                 v = match old !! Fly.EXTRA_PIP_PACKAGES with
                     | Some v0 => v0 +:+ "dask[distributed]"
                     | None => " dask[distributed]"
                     end) /\
      (forall k, k <> Fly.EXTRA_PIP_PACKAGES -> new !! k = old !! k))
  /\
  (forall api a w tr,
      Fly.a_env_vars a = None ->
      run api (Fly.FlyMachine_init a) w tr =
      (match Fly.api_token (Fly.cluster w) with
       | Some _ => Raised TypeError
       | None => Raised (ValueError "Fly.io API token must be provided")
       end, w, tr)).
Proof.
  split.
  - intros api a w tr self w' tr' H.
    apply FlyFacts.FlyMachine_init_returned in H
      as (token & l & _ & Ha & -> & -> & _).
    simpl. split; [done|]. rewrite deref_set_heap. split.
    + eexists. split; [apply add_distributed_lookup|]. split; [|done].
      destruct (Fly.deref w l !! Fly.EXTRA_PIP_PACKAGES) as [v0|].
      * apply contains_suffix.
      * apply (contains_suffix _ " ").
    + intros k Hk. by apply add_distributed_other.
  - intros api a w tr Ha. rewrite FlyFacts.FlyMachine_init_run, Ha.
    by destruct (Fly.api_token (Fly.cluster w)).
Qed.

Lemma FlyMachine_init_adds_distributed_witness :
  Fly.deref
    (run Sample.fly_grants (Fly.FlyMachine_init Sample.fly_args)
       Sample.fly_world []).1.2 1%positive
  !! Fly.EXTRA_PIP_PACKAGES = Some " dask[distributed]" /\
  run Sample.fly_grants (Fly.FlyMachine_init Sample.fly_args_without_env)
    Sample.fly_world [] = (Raised TypeError, Sample.fly_world, []).
Proof.
  split.
  - destruct (proj1 FlyMachine_init_adds_distributed Sample.fly_grants
                Sample.fly_args Sample.fly_world []
                (Fly.new_machine Sample.fly_args Sample.fly_world "fo1_token"
                   1%positive)
                _ [] eq_refl) as (_ & (v & Hv & _ & ->) & _).
    exact Hv.
  - exact (proj2 FlyMachine_init_adds_distributed Sample.fly_grants
             Sample.fly_args_without_env Sample.fly_world [] eq_refl).
Defined.

(** ** C10: which delete call [IBMCodeEngine.destroy_vm] makes *)

(** C10.  [destroy_vm] of an IBM instance makes exactly one call, chosen
    by the instance's name alone: [delete_job_run] when the name contains
    [worker], [delete_app] otherwise, whatever else the instance is. *)
Theorem destroy_vm_selects_by_name :
  forall api self n w tr,
    IBM.name self = Some n ->
    let c :=
      if contains "worker" n
      then IBM.delete_job_run_call (IBM.project_id self) (Some n)
      else IBM.delete_app_call (IBM.project_id self) (Some n) in
    run api (IBM.destroy_vm self) w tr =
    (match api tr c with inl e => Raised e | inr _ => Returned tt end,
     w, tr ++ [Called c]).
Proof.
  intros api self n w tr Hn. unfold IBM.destroy_vm. rewrite Hn.
  destruct (contains "worker" n); simpl;
    match goal with |- context [api tr ?c] => by destruct (api tr c) end.
Qed.

Lemma destroy_vm_selects_by_name_witness :
  run Sample.ibm_never_ready (IBM.destroy_vm Sample.ibm_worker) Sample.ibm_world []
  = (Returned tt, Sample.ibm_world,
     [Called (IBM.delete_job_run_call (Some "7e3b")
                (Some "dask-38b817c1-worker-dc95260d"))])
  /\
  run Sample.ibm_never_ready (IBM.destroy_vm Sample.ibm_scheduler) Sample.ibm_world []
  = (Returned tt, Sample.ibm_world,
     [Called (IBM.delete_app_call (Some "7e3b")
                (Some "dask-38b817c1-scheduler"))]).
Proof.
  split.
  - exact (destroy_vm_selects_by_name Sample.ibm_never_ready Sample.ibm_worker
             "dask-38b817c1-worker-dc95260d" Sample.ibm_world [] eq_refl).
  - exact (destroy_vm_selects_by_name Sample.ibm_never_ready
             Sample.ibm_scheduler "dask-38b817c1-scheduler" Sample.ibm_world []
             eq_refl).
Defined.

(* ===================================================================== *)
(** * Further properties of the two modules *)
(* ===================================================================== *)

Import Words WordsFacts SplitFacts Frames FramesFacts FlyCluster Writes
  WritesFacts.

(** ** The scheduler's command line *)

(** X1.  For a command of characters below U+0100, split at its white
    space as [str.split()] does (the no-break space and the next-line
    character included): when some component starts with [python], the
    command line [create_vm] hands to the provider is the components from
    the first such one on, unchanged and in order, followed by
    [--protocol ws,tcp --port 8786,8001]: what precedes the first
    [python...] component is dropped, and joining and splitting again
    loses nothing. *)
Theorem python_command_keeps_the_python_words :
  forall cmd i,
    index_first (startswith "python") (split_ws cmd) = Some i ->
    IBM.python_command cmd
    = inr (drop i (split_ws cmd) ++ protocol_options) /\
    (exists p, head (drop i (split_ws cmd)) = Some p /\
               startswith "python" p = true) /\
    Forall (fun x => startswith "python" x = false) (take i (split_ws cmd)).
Proof.
  intros cmd i Hi. unfold IBM.python_command. rewrite Hi.
  destruct (index_first_lt _ _ _ Hi) as (Hlt & (p & Hp & Hpy) & Hbefore).
  assert (drop i (split_ws cmd) <> []) as Hne.
  { intros H. apply (f_equal length) in H. rewrite length_drop in H.
    simpl in H. lia. }
  split; [|split; [|done]].
  - f_equal.
    change " --protocol ws,tcp --port 8786,8001"
      with (" " +:+ join " " protocol_options).
    rewrite <- join_app by done.
    apply split_ws_join, Forall_app. split.
    + apply Forall_drop, split_ws_words.
    + by repeat constructor.
  - exists p. split; [|done].
    rewrite <- (take_drop i (split_ws cmd)) in Hp.
    rewrite lookup_app_r in Hp by (rewrite length_take; lia).
    rewrite length_take, Nat.min_l in Hp by lia.
    replace (i - i)%nat with 0%nat in Hp by lia.
    by destruct (drop i (split_ws cmd)).
Qed.

Lemma python_command_keeps_the_python_words_witness :
  IBM.python_command "env X=1 python -m distributed.cli.dask_scheduler"
  = inr (["python"; "-m"; "distributed.cli.dask_scheduler"]
         ++ protocol_options) /\
  IBM.python_command Sample2.command_with_no_break_space
  = inr (["python"; "-m"; "x"] ++ protocol_options).
Proof.
  split.
  - exact (proj1 (python_command_keeps_the_python_words
                    "env X=1 python -m distributed.cli.dask_scheduler" 2%nat
                    eq_refl)).
  - exact (proj1 (python_command_keeps_the_python_words
                    Sample2.command_with_no_break_space 1%nat eq_refl)).
Defined.

(** ** [url.split("//")[1]] *)

(** X2.  An endpoint without [//] makes [split("//")[1]] raise
    [IndexError]; an endpoint with [//] has a part after it; and for
    [<scheme>//<host>], with no [/] in the scheme and no [//] in the
    host, that part is the host. *)
Theorem after_slashes_needs_two_slashes :
  (forall url, contains "//" url = false ->
               IBM.after_slashes url = inl IndexError)
  /\
  (forall url, contains "//" url = true ->
               exists rest, IBM.after_slashes url = inr rest)
  /\
  (forall scheme host,
      noslash scheme = true -> contains "//" host = false ->
      IBM.after_slashes (scheme +:+ "//" +:+ host) = inr host).
Proof.
  split; [|split].
  - intros url H. unfold IBM.after_slashes, split.
    by rewrite split_go_absent.
  - intros url H. unfold IBM.after_slashes, split.
    apply (split_go_second "/" "/" "") in H.
    destruct (split_go "//" 0 "" url) as [|x [|y l]]; simpl in H; try lia.
    by exists y.
  - intros scheme host Hs Hh. unfold IBM.after_slashes, split.
    rewrite split_go_noslash by done.
    change ("//" +:+ host) with (String "/" (String "/" host)).
    cbn [split_go startswith Ascii.eqb String.length Nat.sub].
    simpl. by rewrite split_go_absent.
Qed.

Lemma after_slashes_needs_two_slashes_witness :
  IBM.after_slashes "sched.internal" = inl IndexError /\
  IBM.after_slashes ("https:" +:+ "//" +:+ "sched.eu-de.appdomain.cloud")
  = inr "sched.eu-de.appdomain.cloud".
Proof.
  split.
  - exact (proj1 after_slashes_needs_two_slashes "sched.internal" eq_refl).
  - exact (proj2 (proj2 after_slashes_needs_two_slashes) "https:"
             "sched.eu-de.appdomain.cloud" eq_refl eq_refl).
Defined.

(** ** How [IBMCodeEngine.create_vm] fails *)

(** X3.  [create_vm] of an IBM scheduler stops at the first thing that
    goes wrong.  A command (of characters below U+0100, split at its white
    space as [str.split()] does) with no component starting with [python]
    raises [RuntimeError] before any call; what the provider raises when
    the application is created is raised after that one call; and at the
    first poll that is not a plain "not ready" answer, an exception of the
    provider is raised as it is, an answer without [status] raises
    [KeyError("status")], a ready answer without [name] raises
    [KeyError("name")], and a ready answer whose [endpoint_internal] has
    no [//] raises [IndexError].  In each case nothing is called
    afterwards, and the application that was created is not deleted. *)
Theorem create_vm_stops_at_the_first_error :
  (forall api fuel self s w tr,
      IBM.command self = IBM.CmdStr s ->
      Forall (fun x => startswith "python" x = false) (split_ws s) ->
      run api (IBM.create_vm fuel self) w tr
      = (Raised (RuntimeError "coroutine raised StopIteration"), w, tr))
  /\
  (forall api fuel self s cmd w tr e,
      IBM.command self = IBM.CmdStr s ->
      IBM.python_command s = inr cmd ->
      let create := IBM.create_app_call (IBM.scheduler_payload self cmd w) in
      api tr create = inl e ->
      run api (IBM.create_vm fuel self) w tr
      = (Raised e, w, tr ++ [Called create]))
  /\
  (forall api fuel self s cmd w tr r k,
      IBM.command self = IBM.CmdStr s ->
      IBM.python_command s = inr cmd ->
      let create := IBM.create_app_call (IBM.scheduler_payload self cmd w) in
      let get := IBM.get_app_call (IBM.project_id self) (IBM.name self) in
      let tr1 := (tr ++ [Called create]) ++ IBM.polls self k in
      api tr create = inr r ->
      (k < fuel)%nat ->
      (forall j, (j < k)%nat ->
         IBM.not_ready api self ((tr ++ [Called create]) ++ IBM.polls self j)) ->
      (forall e, api tr1 get = inl e ->
         run api (IBM.create_vm fuel self) w tr
         = (Raised e, w, tr1 ++ [Called get]))
      /\
      (forall app, api tr1 get = inr app -> app !! "status" = None ->
         run api (IBM.create_vm fuel self) w tr
         = (Raised (KeyError "status"), w, tr1 ++ [Called get]))
      /\
      (forall app, api tr1 get = inr app ->
         app !! "status" = Some "ready" -> app !! "name" = None ->
         run api (IBM.create_vm fuel self) w tr
         = (Raised (KeyError "name"), w, tr1 ++ [Called get]))
      /\
      (forall app n url, api tr1 get = inr app ->
         app !! "status" = Some "ready" -> app !! "name" = Some n ->
         app !! "endpoint_internal" = Some url -> contains "//" url = false ->
         run api (IBM.create_vm fuel self) w tr
         = (Raised IndexError, w, tr1 ++ [Called get]))).
Proof.
  split; [|split].
  - intros api fuel self s w tr Hc Hs. unfold IBM.create_vm. rewrite Hc.
    unfold IBM.python_command.
    apply index_first_None in Hs. by rewrite Hs.
  - intros api fuel self s cmd w tr e Hc Hp create He.
    unfold IBM.create_vm. rewrite Hc, Hp. simpl. fold create. by rewrite He.
  - intros api fuel self s cmd w tr r k Hc Hp create get tr1 Hr Hk Hbefore.
    assert (run api (IBM.create_vm fuel self) w tr =
            match run api (IBM.poll_ready (fuel - k) self) w tr1 with
            | (Returned app, w', tr') => run api (IBM.urls_of app) w' tr'
            | (Raised e, w', tr') => (Raised e, w', tr')
            | (Looping, w', tr') => (Looping, w', tr')
            end) as ->.
    { rewrite (IBMFacts.create_vm_scheduler _ _ _ _ _ _ _ _ Hc Hp Hr).
      fold create. by rewrite (IBMMore.poll_ready_skips _ _ _ _ _ k) by (done || lia). }
    destruct (fuel - k)%nat as [|m] eqn:Hm; [lia|].
    cbn [IBM.poll_ready]. unfold call. cbn [bind run]. fold get.
    repeat split.
    + intros e He. by rewrite He.
    + intros app Happ Hst. rewrite Happ. cbn [bind run lift].
      unfold IBM.item. by rewrite Hst.
    + intros app Happ Hst Hname. rewrite Happ. cbn [bind run lift].
      unfold IBM.item at 1. rewrite Hst. cbn [bind run lift String.eqb].
      simpl. unfold IBM.urls_of, IBM.item. by rewrite Hname.
    + intros app n url Happ Hst Hname Hurl Hno. rewrite Happ.
      cbn [bind run lift]. unfold IBM.item at 1. rewrite Hst.
      simpl. unfold IBM.urls_of, IBM.item. rewrite Hname, Hurl. simpl.
      unfold IBM.after_slashes, split. by rewrite split_go_absent.
Qed.

Lemma create_vm_stops_at_the_first_error_witness :
  run Sample2.ibm_grants
    (IBM.create_vm 5 Sample2.ibm_scheduler_without_python)
    Sample.ibm_world []
  = (Raised (RuntimeError "coroutine raised StopIteration"),
     Sample.ibm_world, []) /\
  run Sample2.ibm_refuses (IBM.create_vm 5 Sample.ibm_scheduler)
    Sample.ibm_world []
  = (Raised (ProviderError "quota exceeded"), Sample.ibm_world,
     [] ++ [Called (IBM.create_app_call
              (IBM.scheduler_payload Sample.ibm_scheduler
                 ["python"; "-m"; "distributed.cli.dask_scheduler";
                  "--protocol"; "ws,tcp"; "--port"; "8786,8001"]
                 Sample.ibm_world))]).
Proof.
  split.
  - refine (proj1 create_vm_stops_at_the_first_error
              Sample2.ibm_grants 5%nat Sample2.ibm_scheduler_without_python
              "dask scheduler" Sample.ibm_world [] eq_refl _).
    by repeat constructor.
  - refine (proj1 (proj2 create_vm_stops_at_the_first_error)
              Sample2.ibm_refuses 5%nat Sample.ibm_scheduler _ _
              Sample.ibm_world [] _ eq_refl _ eq_refl).
    vm_compute. reflexivity.
Defined.

(** ** What [IBMCodeEngine.create_vm] touches *)

(** X4.  Every call [create_vm] of an IBM instance makes carries the
    instance's own project and name, none of them is a deletion, and the
    cluster is left as it was found: the addresses are recorded by
    [start_scheduler], not by [create_vm]. *)
Theorem create_vm_only_creates_itself :
  forall api fuel self w,
    Forall (about_self self) (calls (run api (IBM.create_vm fuel self) w []).2)
    /\ (run api (IBM.create_vm fuel self) w []).1.2 = w.
Proof.
  intros api fuel self w. split.
  - eapply (run_safe (fun _ c => about_self self c) _ _ (fun _ _ => True));
      [done| |constructor].
    apply IBMMore.wp_create_vm_calls; intros; simpl; auto.
  - apply run_reads_only, IBMMore.create_vm_reads_only.
Qed.

(** ** An IBM worker, from its construction to its job run *)

(** X5.  A constructed IBM worker was built on a cluster whose
    [scheduler_internal_ip] is assigned, by a constructor that calls and
    changes nothing; its [create_vm] creates a configuration map and then
    a job run, both under the worker's name, the job run with the command
    [python -m distributed.cli.dask_spec ws://<ip>:80 --spec <spec>], and
    returns [(None, None)]; an exception of either call is raised as it is
    and, if the map's creation raises, the job run is not asked for. *)
Theorem worker_create_vm_runs_the_worker_command :
  forall api api' a wc spec w tr wk w' tr' fuel,
    run api (IBM.IBMCodeEngineWorker_init a wc spec) w tr
    = (Returned wk, w', tr') ->
    exists ip,
      IBM.scheduler_internal_ip (IBM.cluster w) = IBM.Assigned ip /\
      let cmd :=
        [ "python"; "-m"; "distributed.cli.dask_spec";
          "ws://" +:+ fmt ip +:+ ":80"; "--spec"; spec ] in
      let map :=
        IBM.create_config_map_call (IBM.a_project_id a) (IBM.a_name a)
          [(IBM.INHERIT, IBM.global_config w)] in
      let job :=
        IBM.create_job_run_call
          {| IBM.jr_project_id := IBM.a_project_id a;
             IBM.jr_image_reference := IBM.a_image a;
             IBM.jr_name := IBM.a_name a;
             IBM.jr_run_commands := cmd;
             IBM.jr_scale_ephemeral_storage_limit := "1G";
             IBM.jr_scale_cpu_limit := "0.25";
             IBM.jr_scale_memory_limit := "1G";
             IBM.jr_run_env_variables :=
               [ [ ("type", Some "config_map_key_reference");
                   ("reference", IBM.a_name a);
                   ("name", Some IBM.INHERIT);
                   ("key", Some IBM.INHERIT) ] ] |} in
      run api' (IBM.create_vm fuel wk) w' tr' =
      match api' tr map with
      | inl e => (Raised e, w, tr ++ [Called map])
      | inr _ =>
          match api' (tr ++ [Called map]) job with
          | inl e => (Raised e, w, (tr ++ [Called map]) ++ [Called job])
          | inr _ =>
              (Returned (None, None), w, (tr ++ [Called map]) ++ [Called job])
          end
      end.
Proof.
  intros api api' a wc spec w tr wk w' tr' fuel.
  unfold IBM.IBMCodeEngineWorker_init, IBM.IBMCodeEngine_init. simpl.
  destruct (IBM.IAMAuthenticator w (IBM.a_api_key a)); simpl; [done|].
  destruct (IBM.a_region a) as [r|]; simpl; [|done].
  destruct (IBM.scheduler_internal_ip (IBM.cluster w)) as [|ip]; simpl;
    [done|].
  intros [= <- <- <-]. exists ip. split; [done|].
  unfold IBM.create_vm. simpl. unfold IBM.worker_payload. simpl.
  match goal with |- context [api' tr ?c] => destruct (api' tr c) end;
    simpl; [done|].
  match goal with |- context [api' (tr ++ ?l) ?c] =>
    by destruct (api' (tr ++ l) c) end.
Qed.

Lemma worker_create_vm_runs_the_worker_command_witness :
  calls (run Sample2.ibm_grants
           (bind (IBM.IBMCodeEngineWorker_init Sample.ibm_worker_args
                    "distributed.cli.Nanny" "{}")
                 (IBM.create_vm 0))
           Sample2.ibm_world_with_scheduler []).2
  = [IBM.create_config_map_call (Some "7e3b")
       (Some "dask-38b817c1-worker-dc95260d")
       [("DASK_INTERNAL_INHERIT_CONFIG", "{}")];
     IBM.create_job_run_call
       {| IBM.jr_project_id := Some "7e3b";
          IBM.jr_image_reference := Some "ghcr.io/dask/dask:latest";
          IBM.jr_name := Some "dask-38b817c1-worker-dc95260d";
          IBM.jr_run_commands :=
            [ "python"; "-m"; "distributed.cli.dask_spec";
              "ws://sched.7e3b.svc.cluster.local:80"; "--spec"; "{}" ];
          IBM.jr_scale_ephemeral_storage_limit := "1G";
          IBM.jr_scale_cpu_limit := "0.25";
          IBM.jr_scale_memory_limit := "1G";
          IBM.jr_run_env_variables :=
            [ [ ("type", Some "config_map_key_reference");
                ("reference", Some "dask-38b817c1-worker-dc95260d");
                ("name", Some "DASK_INTERNAL_INHERIT_CONFIG");
                ("key", Some "DASK_INTERNAL_INHERIT_CONFIG") ] ] |}].
Proof.
  rewrite run_bind.
  destruct (run Sample2.ibm_grants
              (IBM.IBMCodeEngineWorker_init Sample.ibm_worker_args
                 "distributed.cli.Nanny" "{}")
              Sample2.ibm_world_with_scheduler []) as [[o w'] tr'] eqn:E.
  assert (o = (run Sample2.ibm_grants
              (IBM.IBMCodeEngineWorker_init Sample.ibm_worker_args
                 "distributed.cli.Nanny" "{}")
              Sample2.ibm_world_with_scheduler []).1.1) as Ho by by rewrite E.
  vm_compute in Ho. subst o.
  destruct (worker_create_vm_runs_the_worker_command _ Sample2.ibm_grants
              _ _ _ _ _ _ _ _ 0%nat E) as (ip & Hip & Hrun).
  injection Hip as <-. cbv zeta in Hrun. rewrite Hrun. reflexivity.
Defined.

(** ** [IBMCodeEngineScheduler.start] *)

(** X6.  When [start] of an IBM scheduler returns, the scheduler's port
    is 443, its address is [wss://<external_ip>:443], it is running, and
    the cluster has recorded the two addresses and the port 443.  When
    [create_vm] raises, [start] raises the same: the cluster's protocol
    has been set to [wss] all the same, and no address is recorded. *)
Theorem scheduler_start_serves_wss_on_443 :
  (forall api wfs fuel self w tr self' w' tr',
      run api (IBM.IBMCodeEngineScheduler_start wfs fuel self) w tr
      = (Returned self', w', tr') ->
      IBM.port self' = Some 443%Z /\
      IBM.address self'
      = Some ("wss://" +:+ fmt (IBM.external_ip self') +:+ ":443") /\
      IBM.running self' = true /\
      IBM.scheduler_internal_ip (IBM.cluster w')
      = IBM.Assigned (IBM.internal_ip self') /\
      IBM.scheduler_external_ip (IBM.cluster w')
      = IBM.Assigned (IBM.external_ip self') /\
      IBM.scheduler_port (IBM.cluster w') = IBM.Assigned (Some 443%Z))
  /\
  (forall api wfs fuel self w tr e,
      let self0 :=
        IBM.with_addresses self (IBM.internal_ip self) (IBM.external_ip self)
          (IBM.address self) (Some 443%Z) (IBM.running self) in
      let w0 := IBM.on_cluster (IBM.set_protocol "wss") w in
      (run api (IBM.create_vm fuel self0) w0 tr).1.1 = Raised e ->
      run api (IBM.IBMCodeEngineScheduler_start wfs fuel self) w tr
      = (Raised e, w0, (run api (IBM.create_vm fuel self0) w0 tr).2)).
Proof.
  split.
  - intros api wfs fuel self w tr self' w' tr'.
    unfold IBM.IBMCodeEngineScheduler_start. simpl.
    unfold IBM.start_scheduler. rewrite run_bind.
    match goal with |- context [run api (IBM.create_vm fuel ?s) ?w0 tr] =>
      pose proof (run_reads_only api (IBM.create_vm fuel s) w0 tr
                    (IBMMore.create_vm_reads_only fuel s)) as Hw;
      destruct (run api (IBM.create_vm fuel s) w0 tr) as [[[o| |] w1] tr1]
    end; [|done..].
    simpl in Hw. subst w1. simpl. rewrite run_bind.
    match goal with |- context [run api (wfs ?x) ?w0 tr1] =>
      destruct (run api (wfs x) w0 tr1) as [[[[]| |] w2] tr2] end; [|done..].
    simpl. intros [= <- <- <-]. simpl. done.
  - intros api wfs fuel self w tr e self0 w0 He.
    unfold IBM.IBMCodeEngineScheduler_start. simpl.
    unfold IBM.start_scheduler. rewrite run_bind. fold self0 w0.
    pose proof (run_reads_only api (IBM.create_vm fuel self0) w0 tr
                  (IBMMore.create_vm_reads_only fuel self0)) as Hw.
    destruct (run api (IBM.create_vm fuel self0) w0 tr) as [[o w1] tr1].
    simpl in *. by subst.
Qed.

Lemma scheduler_start_serves_wss_on_443_witness :
  exists self' w' tr',
    run (Sample.ibm_ready_after 2)
      (IBM.IBMCodeEngineScheduler_start (fun _ => Ret tt) 5
         Sample.ibm_scheduler)
      Sample.ibm_world [] = (Returned self', w', tr') /\
    IBM.address self'
    = Some "wss://sched.7e3b.eu-de.codeengine.appdomain.cloud:443" /\
    IBM.scheduler_port (IBM.cluster w') = IBM.Assigned (Some 443%Z).
Proof.
  eassert (run (Sample.ibm_ready_after 2)
             (IBM.IBMCodeEngineScheduler_start (fun _ => Ret tt) 5
                Sample.ibm_scheduler)
             Sample.ibm_world [] = (Returned _, _, _)) as H
    by (vm_compute; reflexivity).
  destruct (proj1 scheduler_start_serves_wss_on_443 _ _ _ _ _ _ _ _ _ H)
    as (_ & Ha & _ & _ & _ & Hp).
  eexists _, _, _. split; [exact H|]. split; [exact Ha|exact Hp].
Defined.

(** ** [FlyMachineScheduler.start] *)

(** X7.  On a cluster without application, [start] of a Fly scheduler
    makes two calls and returns, if the provider grants both: it creates
    the application [dask-<uuid8>], then a machine in that application,
    with the scheduler's name and region.  The scheduler is then running,
    on the machine the provider answered with, at
    [tcp://[<private_ip>]:8786], with host
    [<id>.vm.dask-<uuid8>.internal]; the cluster has the application, its
    name, the scheduler's address and the port 8786. *)
Theorem scheduler_start_on_a_fresh_cluster :
  forall api fuel u self w tr a m,
    Fly.app (Fly.cluster w) = Fly.PyNone ->
    Fly.app_name (Fly.cluster w) = None ->
    let n := "dask-" +:+ u in
    let app_call := Fly.create_app_call n in
    let machine_call :=
      Fly.create_machine_call (Some n) (Fly.machine_config self w)
        (Fly.name self) (Fly.region self) in
    api tr app_call = inr a -> a <> Fly.PyNone ->
    api (tr ++ [Called app_call]) machine_call = inr (Fly.PyMachine m) ->
    exists self' w',
      run api (Fly.FlyMachineScheduler_start (S fuel) u self) w tr
      = (Returned self', w',
         (tr ++ [Called app_call]) ++ [Called machine_call]) /\
      Fly.machine self' = Fly.PyMachine m /\
      Fly.address self' = Some ("tcp://[" +:+ Fly.private_ip m +:+ "]:8786") /\
      Fly.host self' = Some (Fly.id m +:+ ".vm." +:+ n +:+ ".internal") /\
      Fly.running self' = true /\
      Fly.app (Fly.cluster w') = a /\
      Fly.app_name (Fly.cluster w') = Some n /\
      Fly.scheduler_internal_address (Fly.cluster w') = Fly.address self' /\
      Fly.scheduler_port (Fly.cluster w') = Some 8786%Z.
Proof.
  intros api fuel u self w tr a m Happ Hname n app_call machine_call
    Ha Hne Hm.
  unfold Fly.FlyMachineScheduler_start, get. cbn [bind run]. rewrite Happ.
  change (Fly.is_none Fly.PyNone) with true. cbv iota.
  rewrite run_bind, FlyFacts.create_app_run, Hname. cbv zeta.
  fold n app_call. rewrite Ha.
  set (w1 := Fly.on_cluster (Fly.set_app_name (Some n))
               (Fly.on_cluster (Fly.set_app a) (Fly.with_client w))).
  assert (Fly.closed w1 = false) as Hopen.
  { unfold Fly.closed, w1. simpl. by destruct a. }
  rewrite run_bind, FlyMore.cluster_wait_for_app_open by done.
  rewrite run_bind. unfold Fly.start_scheduler.
  rewrite run_bind, FlyMore.create_vm_open by done. cbv zeta.
  assert (Fly.machine_config self w1 = Fly.machine_config self w) as ->.
  { unfold Fly.machine_config, Fly.deref, w1, Fly.with_client.
    by destruct (Fly._client (Fly.cluster w)). }
  assert (Fly.app_name (Fly.cluster w1) = Some n) as -> by done.
  fold machine_call. rewrite Hm. simpl.
  eexists _, _. split; [reflexivity|]. simpl.
  unfold w1, Fly.with_client.
  destruct w as [[tok ap an [k|] uu sia sp] h g]; simpl; done.
Qed.

Lemma scheduler_start_on_a_fresh_cluster_witness :
  exists self' w',
    run Sample.fly_grants
      (Fly.FlyMachineScheduler_start 1 "a1b2c3d4" Sample.fly_scheduler)
      Sample.fly_world []
    = (Returned self', w',
       ([] ++ [Called (Fly.create_app_call "dask-a1b2c3d4")])
       ++ [Called (Fly.create_machine_call (Some "dask-a1b2c3d4")
                     (Fly.machine_config Sample.fly_scheduler
                        Sample.fly_world)
                     (Some "dask-38b817c1-scheduler") (Some "lhr"))]) /\
    Fly.host self' = Some "148e21.vm.dask-a1b2c3d4.internal" /\
    Fly.scheduler_port (Fly.cluster w') = Some 8786%Z.
Proof.
  destruct (scheduler_start_on_a_fresh_cluster Sample.fly_grants 0%nat
              "a1b2c3d4" Sample.fly_scheduler Sample.fly_world []
              (Fly.PyApp "dask-a1b2c3d4")
              (Fly.MachineObj "148e21" "fdaa:0:1:a7b:1")
              eq_refl eq_refl eq_refl ltac:(discriminate) eq_refl)
    as (self' & w' & Hrun & _ & _ & Hhost & _ & _ & _ & _ & Hport).
  exists self', w'. split; [exact Hrun|]. split; [exact Hhost|exact Hport].
Defined.

(** X8.  When the provider refuses the application, [start] of a Fly
    scheduler raises what the provider raised, after that one call, and
    leaves [app] at ["failed"] with no name.  On the cluster as it is then,
    no [start] ever returns or calls anything: [app] is not [None], so the
    application is not asked for again, and [wait_for_app] waits for a name
    that nothing will set. *)
Theorem scheduler_start_after_a_refusal :
  forall api fuel u self w tr e,
    Fly.app (Fly.cluster w) = Fly.PyNone ->
    Fly.app_name (Fly.cluster w) = None ->
    let c := Fly.create_app_call ("dask-" +:+ u) in
    api tr c = inl e ->
    let w' := Fly.on_cluster (Fly.set_app (Fly.PyStr "failed"))
                (Fly.with_client w) in
    run api (Fly.FlyMachineScheduler_start fuel u self) w tr
    = (Raised e, w', tr ++ [Called c]) /\
    forall api' fuel' u' self' tr',
      run api' (Fly.FlyMachineScheduler_start fuel' u' self') w' tr'
      = (Looping, w', tr' ++ repeat Slept fuel').
Proof.
  intros api fuel u self w tr e Happ Hname c He w'. split.
  - unfold Fly.FlyMachineScheduler_start, get. cbn [bind run]. rewrite Happ.
    change (Fly.is_none Fly.PyNone) with true. cbv iota.
    rewrite run_bind, FlyFacts.create_app_run, Hname. cbv zeta.
    fold c. by rewrite He.
  - intros api' fuel' u' self' tr'. apply FlyMore.scheduler_start_closed.
    unfold w'. simpl. rewrite FlyMore.app_name_with_client, Hname. done.
Qed.

Lemma scheduler_start_after_a_refusal_witness :
  run Sample.fly_refuses
    (Fly.FlyMachineScheduler_start 3 "a1b2c3d4" Sample.fly_scheduler)
    Sample.fly_world []
  = (Raised (ProviderError "quota exceeded"),
     Fly.on_cluster (Fly.set_app (Fly.PyStr "failed"))
       (Fly.with_client Sample.fly_world),
     [] ++ [Called (Fly.create_app_call "dask-a1b2c3d4")]).
Proof.
  exact (proj1 (scheduler_start_after_a_refusal Sample.fly_refuses 3%nat
                  "a1b2c3d4" Sample.fly_scheduler Sample.fly_world []
                  (ProviderError "quota exceeded") eq_refl eq_refl eq_refl)).
Defined.

(** X9.  On a cluster constructed with an [app_name], nothing starts:
    [create_app] returns at once because there is a name, [app] stays
    [None], and [start] of a scheduler and [start_worker] of a worker wait
    for ever, calling nothing. *)
Theorem a_named_cluster_never_starts :
  forall api fuel u self a c uu n h g tr,
    c_app_name a = Some n ->
    let w := Fly.World (FlyMachineCluster_init a c uu) h g in
    run api (Fly.FlyMachineScheduler_start fuel u self) w tr
    = (Looping, w, tr ++ repeat Slept fuel) /\
    run api (Fly.start_worker fuel self) w tr
    = (Looping, w, tr ++ repeat Slept fuel).
Proof.
  intros api fuel u self a c uu n h g tr Hn w. split.
  - apply FlyMore.scheduler_start_closed. simpl. by rewrite Hn.
  - apply FlyFacts.start_worker_closed. unfold Fly.closed. simpl.
    by rewrite Hn.
Qed.

Lemma a_named_cluster_never_starts_witness :
  let w :=
    Fly.World
      (FlyMachineCluster_init Sample3.fly_named_args Sample3.fly_config
         "38b817c1") Sample.fly_heap "{}" in
  run Sample.fly_grants
    (Fly.FlyMachineScheduler_start 4 "a1b2c3d4" Sample.fly_scheduler) w []
  = (Looping, w, [] ++ repeat Slept 4).
Proof.
  exact (proj1 (a_named_cluster_never_starts Sample.fly_grants 4%nat
                  "a1b2c3d4" Sample.fly_scheduler Sample3.fly_named_args
                  Sample3.fly_config "38b817c1" "dask-mine" Sample.fly_heap
                  "{}" [] eq_refl)).
Defined.

(** ** From [create_vm] to [destroy_vm] *)

(** X10.  Once the application is there, [create_vm] of a Fly machine makes
    one call; if the provider answers with a machine, the instance gets the
    host [<id>.vm.<app_name>.internal], the machine's private IP and the
    port 8786, and its [destroy_vm] then makes one forced delete call for
    that machine's id in the same application, raising what the provider
    raises. *)
Theorem destroy_vm_deletes_the_created_machine :
  forall api fuel self w tr m,
    Fly.closed w = false ->
    let c := Fly.create_machine_call (Fly.app_name (Fly.cluster w))
               (Fly.machine_config self w) (Fly.name self) (Fly.region self) in
    api tr c = inr (Fly.PyMachine m) ->
    exists self' r,
      run api (Fly.create_vm (S fuel) self) w tr
      = (Returned (self', r), Fly.with_client w, tr ++ [Called c]) /\
      Fly.host self'
      = Some (Fly.id m +:+ ".vm." +:+ fmt (Fly.app_name (Fly.cluster w))
              +:+ ".internal") /\
      Fly.internal_ip self' = Some (Fly.private_ip m) /\
      Fly.port self' = Some 8786%Z /\
      forall api' tr',
        let d := Fly.delete_machine_call (Fly.app_name (Fly.cluster w))
                   (Fly.id m) true in
        run api' (Fly.destroy_vm self') (Fly.with_client w) tr'
        = (match api' tr' d with inl e => Raised e | inr _ => Returned tt end,
           Fly.with_client w, tr' ++ [Called d]).
Proof.
  intros api fuel self w tr m Hopen c Hm.
  rewrite FlyMore.create_vm_open by done. cbv zeta. fold c. rewrite Hm.
  eexists _, _. split; [reflexivity|].
  split; [simpl; by rewrite FlyMore.app_name_with_client|].
  split; [done|]. split; [done|].
  intros api' tr'. rewrite FlyFacts.destroy_vm_run. simpl.
  rewrite FlyMore.app_name_with_client.
  assert (Fly.with_client (Fly.with_client w) = Fly.with_client w) as ->;
    [|done].
  unfold Fly.with_client. destruct (Fly._client (Fly.cluster w)) eqn:E; simpl.
  - by rewrite E.
  - done.
Qed.

Lemma destroy_vm_deletes_the_created_machine_witness :
  exists self' r,
    run Sample.fly_grants (Fly.create_vm 1 Sample.fly_worker)
      Sample.fly_world_with_app []
    = (Returned (self', r), Fly.with_client Sample.fly_world_with_app,
       [] ++ [Called (Fly.create_machine_call (Some "dask-a1b2c3d4")
                        (Fly.machine_config Sample.fly_worker
                           Sample.fly_world_with_app)
                        (Some "dask-38b817c1-worker-dc95260d")
                        (Some "lhr"))]) /\
    Fly.host self' = Some ("148e21" +:+ ".vm." +:+ "dask-a1b2c3d4"
                           +:+ ".internal").
Proof.
  destruct (destroy_vm_deletes_the_created_machine Sample.fly_grants 0%nat
              Sample.fly_worker Sample.fly_world_with_app []
              (Fly.MachineObj "148e21" "fdaa:0:1:a7b:1") eq_refl eq_refl)
    as (self' & r & Hrun & Hhost & _).
  exists self', r. split; [exact Hrun|exact Hhost].
Defined.

(** ** One [env_vars] dictionary for several machines *)

(** X11.  Two machines constructed with the same [env_vars] dictionary
    each add [dask[distributed]] to its [EXTRA_PIP_PACKAGES]: after the
    second construction the entry ends in
    [dask[distributed]dask[distributed]], and that is what the request of
    the first machine carries too, the dictionary being read when
    [create_vm] builds the request. *)
Theorem shared_env_vars_grow_with_every_machine :
  forall api a1 a2 l w tr m1 w1 tr1 m2 w2 tr2,
    Fly.a_env_vars a1 = Some l ->
    Fly.a_env_vars a2 = Some l ->
    run api (Fly.FlyMachine_init a1) w tr = (Returned m1, w1, tr1) ->
    run api (Fly.FlyMachine_init a2) w1 tr1 = (Returned m2, w2, tr2) ->
    let v := match Fly.deref w l !! Fly.EXTRA_PIP_PACKAGES with
             | Some v0 => v0 +:+ "dask[distributed]"
             | None => " dask[distributed]"
             end in
    Fly.deref w1 l !! Fly.EXTRA_PIP_PACKAGES = Some v /\
    Fly.deref w2 l !! Fly.EXTRA_PIP_PACKAGES
    = Some (v +:+ "dask[distributed]") /\
    Fly.cfg_env (Fly.machine_config m1 w2)
    = Fly.cfg_env (Fly.machine_config m2 w2) /\
    Fly.cfg_env (Fly.machine_config m1 w2) !! Fly.EXTRA_PIP_PACKAGES
    = Some (v +:+ "dask[distributed]").
Proof.
  intros api a1 a2 l w tr m1 w1 tr1 m2 w2 tr2 H1 H2 R1 R2 v.
  apply FlyFacts.FlyMachine_init_returned in R1
    as (t1 & l1 & _ & E1 & -> & -> & _).
  apply FlyFacts.FlyMachine_init_returned in R2
    as (t2 & l2 & _ & E2 & -> & -> & _).
  rewrite H1 in E1. rewrite H2 in E2.
  injection E1 as <-. injection E2 as <-.
  assert (Fly.deref
            (Fly.set_heap
               (<[l := Fly.add_distributed (Fly.deref w l)]> (Fly.heap w)) w) l
          !! Fly.EXTRA_PIP_PACKAGES = Some v) as Hv.
  { by rewrite deref_set_heap, add_distributed_lookup. }
  split; [exact Hv|].
  assert (forall w0 d,
            Fly.deref (Fly.set_heap (<[l := d]> (Fly.heap w0)) w0) l = d)
    as Hd by (intros; apply deref_set_heap).
  split.
  - rewrite !Hd.
    rewrite (add_distributed_lookup (Fly.add_distributed (Fly.deref w l))),
      (add_distributed_lookup (Fly.deref w l)).
    reflexivity.
  - split; [done|].
    unfold Fly.machine_config. cbn [Fly.cfg_env Fly.env_vars Fly.new_machine].
    rewrite !Hd.
    rewrite (add_distributed_lookup (Fly.add_distributed (Fly.deref w l))),
      (add_distributed_lookup (Fly.deref w l)).
    reflexivity.
Qed.

Lemma shared_env_vars_grow_with_every_machine_witness :
  let grow (w : Fly.world) :=
    Fly.set_heap
      (<[1%positive := Fly.add_distributed (Fly.deref w 1%positive)]>
         (Fly.heap w)) w in
  let m := Fly.new_machine Sample.fly_args Sample.fly_world "fo1_token"
             1%positive in
  Fly.cfg_env (Fly.machine_config m (grow (grow Sample.fly_world)))
  !! Fly.EXTRA_PIP_PACKAGES
  = Some " dask[distributed]dask[distributed]".
Proof.
  intros grow m.
  exact (proj2 (proj2 (proj2
    (shared_env_vars_grow_with_every_machine Sample.fly_grants
       Sample.fly_args Sample.fly_args 1%positive Sample.fly_world [] m
       (grow Sample.fly_world) []
       (Fly.new_machine Sample.fly_args (grow Sample.fly_world) "fo1_token"
          1%positive)
       (grow (grow Sample.fly_world)) []
       eq_refl eq_refl eq_refl eq_refl)))).
Defined.

(** ** Starting after [delete_app] *)

(** X12.  [delete_app] forgets nothing: a scheduler started after the
    application was deleted creates no application and asks for its
    machine in the deleted one; the cluster's [app] and [app_name] are
    still those of the deleted application. *)
Theorem start_after_delete_app_uses_the_deleted_application :
  forall api fuel u self n w tr r m,
    Fly.app_name (Fly.cluster w) = Some n ->
    Fly.app (Fly.cluster w) <> Fly.PyNone ->
    let d := Fly.delete_app_call n in
    api tr d = inr r ->
    let c := Fly.create_machine_call (Some n)
               (Fly.machine_config self w) (Fly.name self) (Fly.region self) in
    api (tr ++ [Called d]) c = inr (Fly.PyMachine m) ->
    exists self' w',
      run api (bind Fly.delete_app (fun _ =>
                 Fly.FlyMachineScheduler_start (S fuel) u self)) w tr
      = (Returned self', w', (tr ++ [Called d]) ++ [Called c]) /\
      Fly.app_name (Fly.cluster w') = Some n /\
      Fly.app (Fly.cluster w') = Fly.app (Fly.cluster w) /\
      Fly.host self' = Some (Fly.id m +:+ ".vm." +:+ n +:+ ".internal").
Proof.
  intros api fuel u self n w tr r m Hn Happ d Hd c Hc.
  rewrite run_bind, FlyFacts.delete_app_run, Hn. fold d. rewrite Hd.
  set (w1 := Fly.with_client w).
  assert (Fly.app_name (Fly.cluster w1) = Some n) as Hn1.
  { unfold w1. by rewrite FlyMore.app_name_with_client. }
  assert (Fly.app (Fly.cluster w1) = Fly.app (Fly.cluster w)) as Happ1.
  { unfold w1, Fly.with_client. by destruct (Fly._client (Fly.cluster w)). }
  assert (Fly.closed w1 = false) as Hopen.
  { unfold Fly.closed. rewrite Hn1, Happ1.
    by destruct (Fly.app (Fly.cluster w)). }
  assert (Fly.machine_config self w1 = Fly.machine_config self w) as Hcfg.
  { unfold Fly.machine_config, Fly.deref, w1, Fly.with_client.
    by destruct (Fly._client (Fly.cluster w)). }
  assert (Fly.with_client w1 = w1) as Hww.
  { unfold w1, Fly.with_client.
    destruct (Fly._client (Fly.cluster w)) eqn:E; simpl; [by rewrite E|done]. }
  unfold Fly.FlyMachineScheduler_start, get. cbn [bind run].
  assert (Fly.is_none (Fly.app (Fly.cluster w1)) = false) as ->.
  { rewrite Happ1. by destruct (Fly.app (Fly.cluster w)). }
  rewrite run_bind. cbn [run].
  rewrite run_bind, FlyMore.cluster_wait_for_app_open by done.
  rewrite run_bind. unfold Fly.start_scheduler.
  rewrite run_bind, FlyMore.create_vm_open by done. cbv zeta.
  rewrite Hn1, Hcfg. fold c. rewrite Hc, Hww. simpl.
  eexists _, _. split; [reflexivity|]. simpl.
  rewrite Hn1. done.
Qed.

Lemma start_after_delete_app_uses_the_deleted_application_witness :
  exists self' w',
    run Sample.fly_grants
      (bind Fly.delete_app (fun _ =>
         Fly.FlyMachineScheduler_start 1 "e5f6a7b8" Sample.fly_scheduler))
      Sample.fly_world_with_app []
    = (Returned self', w',
       ([] ++ [Called (Fly.delete_app_call "dask-a1b2c3d4")])
       ++ [Called (Fly.create_machine_call (Some "dask-a1b2c3d4")
                     (Fly.machine_config Sample.fly_scheduler
                        Sample.fly_world_with_app)
                     (Some "dask-38b817c1-scheduler") (Some "lhr"))]) /\
    Fly.app_name (Fly.cluster w') = Some "dask-a1b2c3d4".
Proof.
  destruct (start_after_delete_app_uses_the_deleted_application
              Sample.fly_grants 0%nat "e5f6a7b8" Sample.fly_scheduler
              "dask-a1b2c3d4" Sample.fly_world_with_app [] Fly.PyNone
              (Fly.MachineObj "148e21" "fdaa:0:1:a7b:1")
              eq_refl ltac:(discriminate) eq_refl eq_refl)
    as (self' & w' & Hrun & Hn & _).
  exists self', w'. split; [exact Hrun|exact Hn].
Defined.

(** ** The calls of [FlyMachineScheduler.start] *)

(** X13.  Whatever the provider answers and however long it runs, [start]
    of a Fly scheduler makes at most two calls and no deletion: nothing,
    or the creation of the application [dask-<uuid8>], or that followed by
    the creation of a machine in it, or the creation of a machine in the
    application the cluster already had. *)
Theorem scheduler_start_makes_at_most_two_calls :
  forall api fuel u self w,
    let A := Fly.create_app_call ("dask-" +:+ u) in
    let M n := Fly.create_machine_call n (Fly.machine_config self w)
                 (Fly.name self) (Fly.region self) in
    let cs :=
      calls (run api (Fly.FlyMachineScheduler_start fuel u self) w []).2 in
    cs = [] \/ cs = [A] \/ cs = [A; M (Some ("dask-" +:+ u))] \/
    cs = [M (Fly.app_name (Fly.cluster w))].
Proof.
  intros api fuel u self w A M cs. subst cs.
  rewrite FlyStart.scheduler_start_unfold, run_bind.
  destruct (Fly.is_none (Fly.app (Fly.cluster w))) eqn:Happ.
  - rewrite FlyFacts.create_app_run.
    destruct (Fly.app_name (Fly.cluster w)) as [n|] eqn:Hn.
    + rewrite FlyStart.start_rest_closed
        by (unfold Fly.closed; by rewrite Hn, Happ).
      left. simpl. apply FlyStart.calls_Slept.
    + cbv zeta. fold A. destruct (api [] A) as [e|a] eqn:Ha.
      * right. left. done.
      * set (w1 := Fly.on_cluster _ _).
        assert (Fly.machine_config self w1 = Fly.machine_config self w)
          as Hcfg.
        { unfold Fly.machine_config, Fly.deref, w1, Fly.with_client.
          by destruct (Fly._client (Fly.cluster w)). }
        destruct (Fly.closed w1) eqn:Hc.
        { rewrite FlyStart.start_rest_closed by done.
          right. left. cbn [snd]. rewrite calls_app, FlyStart.calls_Slept. done. }
        destruct fuel as [|fuel].
        { right. left. unfold start_rest. simpl.
          unfold Fly.closed in Hc. rewrite orb_comm in Hc.
          done. }
        rewrite FlyStart.start_rest_open by done. cbv zeta.
        rewrite Hcfg.
        assert (Fly.app_name (Fly.cluster w1) = Some ("dask-" +:+ u)) as ->
          by done.
        right. right. left.
        match goal with
        | |- context [api ?t ?c] => destruct (api t c) as [e'|[| | |m]]
        end; reflexivity.
  - simpl.
    destruct (Fly.closed w) eqn:Hc.
    { rewrite FlyStart.start_rest_closed by done.
      left. apply FlyStart.calls_Slept. }
    destruct fuel as [|fuel]; [by left|].
    rewrite FlyStart.start_rest_open by done. cbv zeta.
    right. right. right.
    match goal with
        | |- context [api ?t ?c] => destruct (api t c) as [e'|[| | |m]]
        end; reflexivity.
Qed.

(** ** The scheduler's port *)

(** X14.  The constructor of a Fly scheduler records the [port] option
    (8786 when there is none), but [create_vm] overwrites it: when [start]
    returns, the scheduler's port and the port recorded on the cluster are
    8786, whatever the option was. *)
Theorem scheduler_port_option_is_overwritten :
  (forall api a p cli w tr self w' tr',
      run api (Fly.FlyMachineScheduler_init a p cli) w tr
      = (Returned self, w', tr') ->
      Fly.port self = Some (default 8786%Z p))
  /\
  (forall api a p cli fuel u w tr self w' tr',
      run api (bind (Fly.FlyMachineScheduler_init a p cli)
                 (Fly.FlyMachineScheduler_start fuel u)) w tr
      = (Returned self, w', tr') ->
      Fly.port self = Some 8786%Z /\
      Fly.scheduler_port (Fly.cluster w') = Some 8786%Z).
Proof.
  split.
  - intros api a p cli w tr self w' tr'.
    rewrite FlyFacts.FlyMachineScheduler_init_run.
    destruct (run api (Fly.FlyMachine_init a) w tr) as [[[s| |] w1] tr1];
      [|done..].
    by intros [= <- _ _].
  - intros api a p cli fuel u w tr self w' tr'. rewrite run_bind.
    destruct (run api (Fly.FlyMachineScheduler_init a p cli) w tr)
      as [[[s| |] w1] tr1]; [|done..].
    intros Hrun.
    refine (run_post Fly.gated api _
              (fun s' w0 => Fly.port s' = Some 8786%Z /\
                            Fly.scheduler_port (Fly.cluster w0) = Some 8786%Z)
              _ _ _ _ _ _ Hrun).
    apply FlyFacts.wp_scheduler_start. intros m w0 w2 self'. done.
Qed.

Lemma scheduler_port_option_is_overwritten_witness :
  exists self w' tr',
    run Sample.fly_grants
      (bind (Fly.FlyMachineScheduler_init Sample.fly_args (Some 9000%Z)
               ["--port"; "9000"])
            (Fly.FlyMachineScheduler_start 1 "a1b2c3d4"))
      Sample.fly_world [] = (Returned self, w', tr') /\
    Fly.port self = Some 8786%Z /\
    Fly.scheduler_port (Fly.cluster w') = Some 8786%Z.
Proof.
  eassert (run Sample.fly_grants
      (bind (Fly.FlyMachineScheduler_init Sample.fly_args (Some 9000%Z)
               ["--port"; "9000"])
            (Fly.FlyMachineScheduler_start 1 "a1b2c3d4"))
      Sample.fly_world [] = (Returned _, _, _)) as H
    by (vm_compute; reflexivity).
  eexists _, _, _. split; [exact H|].
  exact (proj2 scheduler_port_option_is_overwritten _ _ _ _ _ _ _ _ _ _ _ H).
Defined.

(** ** The token of a cluster *)

(** X15.  A Fly cluster's token is the [token] argument when one is
    given, else the configured one.  On a newly constructed cluster, the
    construction of a machine raises the [ValueError] of the token check
    exactly when there is neither; otherwise, given an [env_vars]
    dictionary, it returns a machine holding that token and the cluster's
    [app_name] argument. *)
Theorem token_argument_overrides_configuration :
  forall api a c uu h g ia tr,
    let w := Fly.World (FlyMachineCluster_init a c uu) h g in
    let r := run api (Fly.FlyMachine_init ia) w tr in
    match c_token a, conf_token c with
    | None, None =>
        r = (Raised (ValueError "Fly.io API token must be provided"), w, tr)
    | Some t, _ | None, Some t =>
        forall l, Fly.a_env_vars ia = Some l ->
          exists self, r.1.1 = Returned self /\ Fly.m_api_token self = t /\
                       Fly.m_app_name self = c_app_name a
    end.
Proof.
  intros api a c uu h g ia tr w r. subst r.
  rewrite FlyFacts.FlyMachine_init_run. subst w. simpl.
  destruct (c_token a) as [t|]; simpl.
  - intros l ->. by eexists.
  - destruct (conf_token c) as [t|]; [|done].
    intros l ->. by eexists.
Qed.

Lemma token_argument_overrides_configuration_witness :
  exists self,
    (run Sample.fly_grants (Fly.FlyMachine_init Sample.fly_args)
       (Fly.World
          (FlyMachineCluster_init Sample3.fly_plain_args Sample3.fly_config
             "38b817c1") Sample.fly_heap "{}") []).1.1 = Returned self /\
    Fly.m_api_token self = "fo1_configured" /\
    Fly.m_app_name self = None.
Proof.
  exact (token_argument_overrides_configuration Sample.fly_grants
           Sample3.fly_plain_args Sample3.fly_config "38b817c1"
           Sample.fly_heap "{}" Sample.fly_args [] 1%positive eq_refl).
Defined.

(** ** What the life of a cluster leaves alone *)

(** X16.  However the tasks of a Fly cluster interleave (creating and
    deleting the application, waiting for it, starting the scheduler,
    starting workers, destroying machines), and in every run of one of
    them alone, the [env_vars] dictionaries, the serialized configuration,
    the API token and the cluster's identifier stay what they were; a
    client, once created, is kept; and an application name, once set, is
    never cleared. *)
Theorem the_setup_of_a_cluster_is_kept :
  (forall api js w sched,
      same_setup w (shared (run_schedule api (Fly.spawn js w) sched)))
  /\
  (forall api j w tr, same_setup w (run api (Fly.code j) w tr).1.2).
Proof.
  split.
  - intros api js w sched.
    apply (run_schedule_steps same_setup same_setup_refl same_setup_trans
             api (Fly.spawn js w) sched).
    unfold Fly.spawn. simpl. apply Forall_map, Forall_forall.
    intros j _ s. apply steps_code.
  - intros api j w tr.
    apply (run_steps same_setup same_setup_refl same_setup_trans).
    apply steps_code.
Qed.

(** ** When a machine is asked for *)

(** X17.  On a Fly cluster, however its tasks interleave (creating and
    deleting the application, starting the scheduler, starting workers,
    destroying machines), a machine is asked for only when the application
    is there: at the turn that makes the call, [app_name] and [app] are
    both set.  An IBM worker cannot be constructed before
    [scheduler_internal_ip] has been assigned. *)
Theorem machines_wait_for_the_app :
  (forall api js w sched i c,
      let l := run_schedule api (Fly.spawn js w) sched in
      history (turn api l i) = history l ++ [Called c] ->
      Fly.is_create_machine c = true ->
      Fly.app_ready (shared (turn api l i)))
  /\
  (forall api a wc spec w tr wk w' tr',
      run api (IBM.IBMCodeEngineWorker_init a wc spec) w tr
      = (Returned wk, w', tr') ->
      exists ip, IBM.scheduler_internal_ip (IBM.cluster w) = IBM.Assigned ip).
Proof.
  split.
  - intros api js w sched i c l Hc Hm.
    assert (Forall (task_safe Fly.gated) (tasks l)) as Hl.
    { apply run_schedule_safe, FlyFacts.spawn_safe. }
    destruct (turn_safe Fly.gated api l i Hl) as [_ H].
    by apply (H c Hc).
  - intros api a wc spec w tr wk w' tr' H.
    apply IBMFacts.IBMCodeEngineWorker_init_returned in H as (ip & ? & _).
    by exists ip.
Qed.

Lemma machines_wait_for_the_app_witness :
  Fly.app_ready
    (shared
       (turn Sample.fly_grants
          (run_schedule Sample.fly_grants
             (Fly.spawn [Fly.job_create_app "a1b2c3d4";
                         Fly.job_start_worker 3 Sample.fly_worker]
                Sample.fly_world)
             [1; 0; 0]%nat)
          1)).
Proof.
  eapply (proj1 machines_wait_for_the_app Sample.fly_grants
            [Fly.job_create_app "a1b2c3d4";
             Fly.job_start_worker 3 Sample.fly_worker]
            Sample.fly_world [1; 0; 0]%nat 1%nat).
  - vm_compute. reflexivity.
  - reflexivity.
Defined.
